(** * Home Assistant: TED sensor lookups and the weather entity's
      unit-conversion pipeline

    Shallow embedding of
    - [homeassistant/components/ted/sensor.py]      (module [Ted]), and
    - [homeassistant/components/weather/__init__.py] (module [Weather]).

    Python objects that are shared and mutated (dicts, lists, the entity)
    live in an explicit store; exceptions are results. *)

From Stdlib Require Import ZArith.
From stdpp Require Import gmap strings list fin_maps.

Local Open Scope string_scope.

(** ** Python results *)

Module Py.

(** The exceptions the modelled code can raise. *)
Inductive exn : Type :=
| KeyError
| ValueError
| TypeError
| AttributeError.

Inductive result (A : Type) : Type :=
| Ok (a : A)
| Raise (e : exn).
Arguments Ok {A} a.
Arguments Raise {A} e.

End Py.
Export Py.

(** ** TED energy monitor sensors *)

Module Ted.

(** Coordinator data: [None], numbers, strings and nested dicts
    (["spyders"] and ["mtus"] map a position to a dict of readings). *)
#[warnings="-register-all"]
Inductive pyval : Type :=
| PNone
| PNum (n : Z)
| PStr (s : string)
| PDict (d : gmap string pyval).

(** [d[k]] on a dict. *)
Definition subscript (v : pyval) (k : string) : result pyval :=
  match v with
  | PDict d => match d !! k with Some x => Ok x | None => Raise KeyError end
  | _ => Raise TypeError
  end.

(** [v.get(k)]: [dict.get] returns [None] for an absent key; every other
    kind of value modelled here has no attribute [get]. *)
Definition get (v : pyval) (k : string) : result pyval :=
  match v with
  | PDict d => Ok (default PNone (d !! k))
  | _ => Raise AttributeError
  end.

Record TedSensor : Type := {
  description_key : string;   (* self.entity_description.key *)
  coordinator_data : pyval    (* self.coordinator.data *)
}.

Record TedBreakdownSensor : Type := {
  base : TedSensor;
  _group : string;
  _position : string
}.

(** [TedSensor.state] *)
Definition state (self : TedSensor) : result pyval :=
  get (coordinator_data self) (description_key self).

(** [TedBreakdownSensor.state] *)
Definition breakdown_state (self : TedBreakdownSensor) : result pyval :=
  match subscript (coordinator_data (base self)) (_group self) with
  | Ok group =>
      match get group (_position self) with
      | Ok entry => get entry (description_key (base self))
      | Raise e => Raise e
      end
  | Raise e => Raise e
  end.

End Ted.

(** ** The weather entity *)

Module Weather.

(** Object identities in the store. *)
Definition loc : Type := positive.

(** Python values held in attribute and forecast dicts.  Numbers ([int]
    and [float]) are kept abstract: the component never computes on them
    itself, it hands them to [round] and to the conversion helpers. *)
Inductive value (num : Type) : Type :=
| VNone
| VNum (n : num)
| VStr (s : string)
| VRef (l : loc).
Arguments VNone {num}.
Arguments VNum {num} n.
Arguments VStr {num} s.
Arguments VRef {num} l.

Definition is_None {num} (v : value num) : bool :=
  match v with VNone => true | _ => false end.

(** One of [homeassistant.util.{temperature,pressure,speed,distance}]:
    the tuple of accepted unit names and [convert(value, from, to)].
    These modules are outside the excerpt and are taken as parameters. *)
Module util.
Record t (num : Type) : Type := {
  VALID_UNITS : list string;
  convert : value num -> string -> string -> result (value num)
}.
Arguments VALID_UNITS {num} _.
Arguments convert {num} _ _ _ _.
End util.

(** What the component imports: the unit names of [homeassistant.const],
    the four helper modules of [homeassistant.util] and the builtin
    [round] with and without [ndigits]. *)
Class Externals (num : Type) : Type := {
  LENGTH_INCHES : string;
  LENGTH_KILOMETERS : string;
  LENGTH_MILES : string;
  LENGTH_MILLIMETERS : string;
  PRESSURE_HPA : string;
  PRESSURE_INHG : string;
  SPEED_KILOMETERS_PER_HOUR : string;
  SPEED_METERS_PER_SECOND : string;
  SPEED_MILES_PER_HOUR : string;
  TEMP_CELSIUS : string;
  TEMP_FAHRENHEIT : string;
  distance_util : util.t num;
  pressure_util : util.t num;
  speed_util : util.t num;
  temperature_util : util.t num;
  round : value num -> result (value num);
  round_ndigits : value num -> Z -> result (value num)
}.

Definition ATTR_FORECAST := "forecast".
Definition ATTR_FORECAST_CONDITION := "condition".
Definition ATTR_FORECAST_PRECIPITATION := "precipitation".
Definition ATTR_FORECAST_PRECIPITATION_PROBABILITY := "precipitation_probability".
Definition ATTR_FORECAST_PRESSURE := "pressure".
Definition ATTR_FORECAST_TEMP := "temperature".
Definition ATTR_FORECAST_TEMP_LOW := "templow".
Definition ATTR_FORECAST_TIME := "datetime".
Definition ATTR_FORECAST_WIND_BEARING := "wind_bearing".
Definition ATTR_FORECAST_WIND_SPEED := "wind_speed".
Definition ATTR_WEATHER_HUMIDITY := "humidity".
Definition ATTR_WEATHER_OZONE := "ozone".
Definition ATTR_WEATHER_PRESSURE := "pressure".
Definition ATTR_WEATHER_TEMPERATURE := "temperature".
Definition ATTR_WEATHER_VISIBILITY := "visibility".
Definition ATTR_WEATHER_WIND_BEARING := "wind_bearing".
Definition ATTR_WEATHER_WIND_SPEED := "wind_speed".
Definition ATTR_WEATHER_PRECIPITATION := "precipitation".

Definition ROUNDING_PRECISION : Z := 2.

(** The instance attributes of [WeatherEntity], typed as annotated in the
    class body; [is_metric] is [self.hass.config.units.is_metric] and
    [_attr_forecast] refers to the stored list object. *)
Record WeatherEntity (num : Type) : Type := {
  is_metric : bool;
  _attr_forecast : option loc;
  _attr_humidity : option num;
  _attr_ozone : option num;
  _attr_pressure : option num;
  _attr_pressure_unit : option string;
  _attr_temperature_unit : option string;
  _attr_temperature : option num;
  _attr_visibility : option num;
  _attr_visibility_unit : option string;
  _attr_precipitation_unit : option string;
  _attr_wind_bearing : option (num + string);
  _attr_wind_speed : option num;
  _attr_wind_speed_unit : option string;
  _option_units_of_measurement : option (gmap string (option string))
}.
Arguments is_metric {num} _.
Arguments _attr_forecast {num} _.
Arguments _attr_humidity {num} _.
Arguments _attr_ozone {num} _.
Arguments _attr_pressure {num} _.
Arguments _attr_pressure_unit {num} _.
Arguments _attr_temperature_unit {num} _.
Arguments _attr_temperature {num} _.
Arguments _attr_visibility {num} _.
Arguments _attr_visibility_unit {num} _.
Arguments _attr_precipitation_unit {num} _.
Arguments _attr_wind_bearing {num} _.
Arguments _attr_wind_speed {num} _.
Arguments _attr_wind_speed_unit {num} _.
Arguments _option_units_of_measurement {num} _.

(** Objects of the store: the entity, dicts and lists. *)
Inductive obj (num : Type) : Type :=
| OEntity (e : WeatherEntity num)
| ODict (d : gmap string (value num))
| OList (l : list (value num)).
Arguments OEntity {num} e.
Arguments ODict {num} d.
Arguments OList {num} l.

(** *** The store and the computations over it *)

Abbreviation heap num := (gmap loc (obj num)).

(** A computation reads and updates the store and either returns or
    raises; the store survives an exception. *)
Definition M (num A : Type) : Type := heap num -> result A * heap num.

Section Store.
Context {num : Type}.
Abbreviation M := (M num).

Definition ret {A} (a : A) : M A := fun h => (Ok a, h).
Definition throw {A} (e : exn) : M A := fun h => (Raise e, h).
Definition lift {A} (r : result A) : M A := fun h => (r, h).
Definition bind {A B} (m : M A) (k : A -> M B) : M B :=
  fun h =>
    match m h with
    | (Ok a, h') => k a h'
    | (Raise e, h') => (Raise e, h')
    end.

(** Allocation of a new object: its identity is unused so far. *)
Definition new (o : obj num) : M loc :=
  fun h => let l := fresh (dom h) in (Ok l, <[l := o]> h).

(** [self.<property>]: the property getters of the class only read. *)
Definition prop {A} (self : loc) (getter : WeatherEntity num -> A) : M A :=
  fun h =>
    match h !! self with
    | Some (OEntity e) => (Ok (getter e), h)
    | _ => (Raise AttributeError, h)
    end.

(** [self.<method>(...)] for the methods that only read [self]. *)
Definition call {A} (self : loc) (method : WeatherEntity num -> result A) : M A :=
  fun h =>
    match h !! self with
    | Some (OEntity e) => (method e, h)
    | _ => (Raise AttributeError, h)
    end.

(** [d.get(k)] *)
Definition dict_get (d : loc) (k : string) : M (value num) :=
  fun h =>
    match h !! d with
    | Some (ODict m) => (Ok (default VNone (m !! k)), h)
    | _ => (Raise AttributeError, h)
    end.

(** [d[k] = v] *)
Definition dict_set (d : loc) (k : string) (v : value num) : M unit :=
  fun h =>
    match h !! d with
    | Some (ODict m) => (Ok tt, <[d := ODict (<[k := v]> m)]> h)
    | _ => (Raise TypeError, h)
    end.

(** [dict(x)]: a new dict with the items of [x] (a shallow copy). *)
Definition dict_copy (x : value num) : M loc :=
  fun h =>
    match x with
    | VRef l =>
        match h !! l with
        | Some (ODict m) => new (ODict m) h
        | _ => (Raise TypeError, h)
        end
    | _ => (Raise TypeError, h)
    end.

(** [l.append(v)] *)
Definition list_append (l : loc) (v : value num) : M unit :=
  fun h =>
    match h !! l with
    | Some (OList vs) => (Ok tt, <[l := OList (vs ++ [v])]> h)
    | _ => (Raise AttributeError, h)
    end.

(** The items a [for] loop over [l] visits.  The loops modelled here
    never change the list they iterate over, so the items are read
    once. *)
Definition list_items (l : loc) : M (list (value num)) :=
  fun h =>
    match h !! l with
    | Some (OList vs) => (Ok vs, h)
    | _ => (Raise TypeError, h)
    end.

(** [for x in items: body(x)] *)
Fixpoint for_each (items : list (value num)) (body : value num -> M unit) : M unit :=
  match items with
  | [] => ret tt
  | x :: rest => bind (body x) (fun _ => for_each rest body)
  end.

End Store.

Notation "x <- m ;; k" := (bind m (fun x => k))
  (at level 100, m at next level, right associativity,
   format "'[v' x  <-  m  ;; '/' k ']'").
Notation "m ;;; k" := (bind m (fun _ => k))
  (at level 100, right associativity, format "'[v' m  ;;; '/' k ']'").

Global Instance result_bind : MBind result :=
  fun A B (f : A -> result B) (r : result A) =>
    match r with Ok a => f a | Raise e => Raise e end.
Global Instance result_ret : MRet result := fun A (a : A) => Ok a.

(** *** Module constants and the read-only methods of [WeatherEntity] *)

Section Entity.
Context {num : Type} `{!Externals num}.
Abbreviation M := (M num).

Definition VALID_UNITS : gmap string (list string) :=
  {[ ATTR_WEATHER_TEMPERATURE := util.VALID_UNITS temperature_util;
     ATTR_WEATHER_PRESSURE := util.VALID_UNITS pressure_util;
     ATTR_WEATHER_VISIBILITY := [LENGTH_KILOMETERS; LENGTH_MILES];
     ATTR_WEATHER_WIND_SPEED :=
       [SPEED_KILOMETERS_PER_HOUR; SPEED_MILES_PER_HOUR; SPEED_METERS_PER_SECOND];
     ATTR_WEATHER_PRECIPITATION := [LENGTH_MILLIMETERS; LENGTH_INCHES] ]}.

Definition METRIC_UNITS : gmap string string :=
  {[ ATTR_WEATHER_TEMPERATURE := TEMP_CELSIUS;
     ATTR_WEATHER_PRESSURE := PRESSURE_HPA;
     ATTR_WEATHER_VISIBILITY := LENGTH_KILOMETERS;
     ATTR_WEATHER_WIND_SPEED := SPEED_KILOMETERS_PER_HOUR;
     ATTR_WEATHER_PRECIPITATION := LENGTH_MILLIMETERS ]}.

Definition IMPERIAL_UNITS : gmap string string :=
  {[ ATTR_WEATHER_TEMPERATURE := TEMP_FAHRENHEIT;
     ATTR_WEATHER_PRESSURE := PRESSURE_INHG;
     ATTR_WEATHER_VISIBILITY := LENGTH_MILES;
     ATTR_WEATHER_WIND_SPEED := SPEED_MILES_PER_HOUR;
     ATTR_WEATHER_PRECIPITATION := LENGTH_INCHES ]}.

Implicit Type self : WeatherEntity num.

Definition preferred_units self : gmap string string :=
  if is_metric self then METRIC_UNITS else IMPERIAL_UNITS.

(** Truth value of a string: the empty string is false. *)
Definition truthy (s : string) : bool := negb (String.eqb s "").

(** [options.get(quantity)] is [None] for an absent key, and the value
    stored under the key may itself be [None]; [if opt := ...] goes on
    only with a string that is not empty. *)
Definition displayed_unit self (quantity : string) : result string :=
  match preferred_units self !! quantity with
  | None => Raise KeyError
  | Some unit =>
      match _option_units_of_measurement self with
      | Some options =>
          match mjoin (options !! quantity) with
          | Some opt =>
              if truthy opt then
                match VALID_UNITS !! quantity with
                | None => Raise KeyError
                | Some units =>
                    if bool_decide (opt ∈ units) then Ok opt else Ok unit
                end
              else Ok unit
          | None => Ok unit
          end
      | None => Ok unit
      end
  end.

Definition temperature self := _attr_temperature self.
Definition temperature_unit self := _attr_temperature_unit self.
Definition pressure self := _attr_pressure self.
Definition pressure_unit self := _attr_pressure_unit self.
Definition humidity self := _attr_humidity self.
Definition wind_speed self := _attr_wind_speed self.
Definition wind_speed_unit self := _attr_wind_speed_unit self.
Definition wind_bearing self := _attr_wind_bearing self.
Definition ozone self := _attr_ozone self.
Definition visibility self := _attr_visibility self.
Definition visibility_unit self := _attr_visibility_unit self.
Definition forecast self := _attr_forecast self.
Definition precipitation_unit self := _attr_precipitation_unit self.

Definition convert_temperature self (temperature : value num) (unit : string)
  : result (value num) :=
  displayed ← displayed_unit self ATTR_WEATHER_TEMPERATURE;
  temperature ← util.convert temperature_util temperature unit displayed;
  if bool_decide (displayed = TEMP_CELSIUS)
  then round_ndigits temperature 1
  else round temperature.

Definition convert_pressure self (pressure : value num) (unit : string)
  : result (value num) :=
  displayed ← displayed_unit self ATTR_WEATHER_PRESSURE;
  pressure ← util.convert pressure_util pressure unit displayed;
  round_ndigits pressure ROUNDING_PRECISION.

Definition convert_wind_speed self (wind_speed : value num) (unit : string)
  : result (value num) :=
  displayed ← displayed_unit self ATTR_WEATHER_WIND_SPEED;
  wind_speed ← util.convert speed_util wind_speed unit displayed;
  round_ndigits wind_speed ROUNDING_PRECISION.

Definition convert_visibility self (visibility : value num) (unit : string)
  : result (value num) :=
  displayed ← displayed_unit self ATTR_WEATHER_VISIBILITY;
  visibility ← util.convert distance_util visibility unit displayed;
  round_ndigits visibility ROUNDING_PRECISION.

Definition convert_precipitation self (precipitation : value num) (unit : string)
  : result (value num) :=
  displayed ← displayed_unit self ATTR_WEATHER_PRECIPITATION;
  precipitation ← util.convert distance_util precipitation unit displayed;
  round_ndigits precipitation ROUNDING_PRECISION.

(** A wind bearing is a number or a string. *)
Definition bearing_value (b : num + string) : value num :=
  match b with inl n => VNum n | inr s => VStr s end.

(** *** [state_attributes], block by block

    [self] is the identity of the entity and [data] that of the dict
    under construction. *)

Definition temperature_block (self data : loc) : M unit :=
  temperature <- prop self temperature ;;
  match temperature with
  | Some temperature =>
      unit <- prop self temperature_unit ;;
      temperature <-
        match unit with
        | Some unit =>
            call self (fun s => convert_temperature s (VNum temperature) unit)
        | None => ret (VNum temperature)
        end ;;
      dict_set data ATTR_WEATHER_TEMPERATURE temperature
  | None => ret tt
  end.

Definition humidity_block (self data : loc) : M unit :=
  humidity <- prop self humidity ;;
  match humidity with
  | Some humidity =>
      rounded <- lift (round (VNum humidity)) ;;
      dict_set data ATTR_WEATHER_HUMIDITY rounded
  | None => ret tt
  end.

Definition ozone_block (self data : loc) : M unit :=
  ozone <- prop self ozone ;;
  match ozone with
  | Some ozone => dict_set data ATTR_WEATHER_OZONE (VNum ozone)
  | None => ret tt
  end.

Definition pressure_block (self data : loc) : M unit :=
  pressure <- prop self pressure ;;
  match pressure with
  | Some pressure =>
      unit <- prop self pressure_unit ;;
      pressure <-
        match unit with
        | Some unit =>
            call self (fun s => convert_pressure s (VNum pressure) unit)
        | None => ret (VNum pressure)
        end ;;
      rounded <- lift (round_ndigits pressure ROUNDING_PRECISION) ;;
      dict_set data ATTR_WEATHER_PRESSURE rounded
  | None => ret tt
  end.

Definition wind_bearing_block (self data : loc) : M unit :=
  wind_bearing <- prop self wind_bearing ;;
  match wind_bearing with
  | Some wind_bearing =>
      dict_set data ATTR_WEATHER_WIND_BEARING (bearing_value wind_bearing)
  | None => ret tt
  end.

Definition wind_speed_block (self data : loc) : M unit :=
  wind_speed <- prop self wind_speed ;;
  match wind_speed with
  | Some wind_speed =>
      unit <- prop self wind_speed_unit ;;
      wind_speed <-
        match unit with
        | Some unit =>
            call self (fun s => convert_wind_speed s (VNum wind_speed) unit)
        | None => ret (VNum wind_speed)
        end ;;
      dict_set data ATTR_WEATHER_WIND_SPEED wind_speed
  | None => ret tt
  end.

Definition visibility_block (self data : loc) : M unit :=
  visibility <- prop self visibility ;;
  match visibility with
  | Some visibility =>
      unit <- prop self visibility_unit ;;
      visibility <-
        match unit with
        | Some unit =>
            displayed <- call self (fun s => displayed_unit s ATTR_WEATHER_VISIBILITY) ;;
            converted <- lift (util.convert distance_util (VNum visibility) unit displayed) ;;
            lift (round_ndigits converted ROUNDING_PRECISION)
        | None => ret (VNum visibility)
        end ;;
      dict_set data ATTR_WEATHER_VISIBILITY visibility
  | None => ret tt
  end.

(** The five conversions applied to the copy [forecast_entry] of one
    forecast record. *)

Definition forecast_temp (self forecast_entry : loc) : M unit :=
  temp <- dict_get forecast_entry ATTR_FORECAST_TEMP ;;
  if is_None temp then ret tt else
    unit <- prop self temperature_unit ;;
    match unit with
    | Some unit =>
        converted <- call self (fun s => convert_temperature s temp unit) ;;
        dict_set forecast_entry ATTR_FORECAST_TEMP converted
    | None => ret tt
    end.

Definition forecast_temp_low (self forecast_entry : loc) : M unit :=
  temp <- dict_get forecast_entry ATTR_FORECAST_TEMP_LOW ;;
  if is_None temp then ret tt else
    unit <- prop self temperature_unit ;;
    match unit with
    | Some unit =>
        converted <- call self (fun s => convert_temperature s temp unit) ;;
        dict_set forecast_entry ATTR_FORECAST_TEMP_LOW converted
    | None => ret tt
    end.

Definition forecast_pressure (self forecast_entry : loc) : M unit :=
  pressure <- dict_get forecast_entry ATTR_FORECAST_PRESSURE ;;
  if is_None pressure then ret tt else
    unit <- prop self pressure_unit ;;
    match unit with
    | Some unit =>
        converted <- call self (fun s => convert_pressure s pressure unit) ;;
        dict_set forecast_entry ATTR_FORECAST_PRESSURE converted
    | None => ret tt
    end.

Definition forecast_wind_speed (self forecast_entry : loc) : M unit :=
  wind_speed <- dict_get forecast_entry ATTR_FORECAST_WIND_SPEED ;;
  if is_None wind_speed then ret tt else
    unit <- prop self wind_speed_unit ;;
    match unit with
    | Some unit =>
        converted <- call self (fun s => convert_wind_speed s wind_speed unit) ;;
        dict_set forecast_entry ATTR_FORECAST_WIND_SPEED converted
    | None => ret tt
    end.

Definition forecast_precipitation (self forecast_entry : loc) : M unit :=
  precip <- dict_get forecast_entry ATTR_FORECAST_PRECIPITATION ;;
  if is_None precip then ret tt else
    unit <- prop self precipitation_unit ;;
    match unit with
    | Some unit =>
        converted <- call self (fun s => convert_precipitation s precip unit) ;;
        dict_set forecast_entry ATTR_FORECAST_PRECIPITATION converted
    | None => ret tt
    end.

(** The body of [for forecast_entry in self.forecast]; [forecast'] is
    the local list [forecast] being built. *)
Definition forecast_loop_body (self forecast' : loc) (forecast_entry : value num)
  : M unit :=
  forecast_entry <- dict_copy forecast_entry ;;
  forecast_temp self forecast_entry ;;;
  forecast_temp_low self forecast_entry ;;;
  forecast_pressure self forecast_entry ;;;
  forecast_wind_speed self forecast_entry ;;;
  forecast_precipitation self forecast_entry ;;;
  list_append forecast' (VRef forecast_entry).

Definition forecast_block (self data : loc) : M unit :=
  stored <- prop self forecast ;;
  match stored with
  | Some _ =>
      forecast' <- new (OList []) ;;
      stored <- prop self forecast ;;
      entries <-
        match stored with
        | Some l => list_items l
        | None => throw TypeError
        end ;;
      for_each entries (forecast_loop_body self forecast') ;;;
      dict_set data ATTR_FORECAST (VRef forecast')
  | None => ret tt
  end.

Definition state_attributes (self : loc) : M loc :=
  data <- new (ODict ∅) ;;
  temperature_block self data ;;;
  humidity_block self data ;;;
  ozone_block self data ;;;
  pressure_block self data ;;;
  wind_bearing_block self data ;;;
  wind_speed_block self data ;;;
  visibility_block self data ;;;
  forecast_block self data ;;;
  ret data.

End Entity.

(** *** The conversion helpers *)

(** Modelled from the spec: [convert] of the helper modules
    [homeassistant.util.temperature], [.pressure], [.speed] and
    [.distance], which are not part of the excerpt.  The spec fixes two
    things about a helper: a unit name it does not recognise makes it
    fail loudly, and converting from a unit to the same unit is the
    identity.  What it computes between two different units is left to
    [rescale]. *)
Definition spec_convert {num} (valid_units : list string)
    (rescale : value num -> string -> string -> result (value num))
    (v : value num) (from to : string) : result (value num) :=
  if bool_decide (from ∈ valid_units) && bool_decide (to ∈ valid_units) then
    if bool_decide (from = to) then Ok v else rescale v from to
  else Raise ValueError.

Definition spec_util {num} (valid_units : list string)
    (rescale : value num -> string -> string -> result (value num)) : util.t num :=
  {| util.VALID_UNITS := valid_units;
     util.convert := spec_convert valid_units rescale |}.

(** *** What a run of [state_attributes] stores

    The blocks above are summarised by functions of the entity alone:
    the value each block files under its key, and the dict a forecast
    record is turned into.  [WeatherSpec.state_attributes_run] relates
    the two. *)

Section Views.
Context {num : Type} `{!Externals num}.
Implicit Type self : WeatherEntity num.

Definition shown_temperature self : result (option (value num)) :=
  match temperature self with
  | Some t =>
      match temperature_unit self with
      | Some u => v ← convert_temperature self (VNum t) u; Ok (Some v)
      | None => Ok (Some (VNum t))
      end
  | None => Ok None
  end.

Definition shown_humidity self : result (option (value num)) :=
  match humidity self with
  | Some x => v ← round (VNum x); Ok (Some v)
  | None => Ok None
  end.

Definition shown_ozone self : result (option (value num)) :=
  Ok (VNum <$> ozone self).

Definition shown_pressure self : result (option (value num)) :=
  match pressure self with
  | Some p =>
      c ← match pressure_unit self with
          | Some u => convert_pressure self (VNum p) u
          | None => Ok (VNum p)
          end;
      v ← round_ndigits c ROUNDING_PRECISION;
      Ok (Some v)
  | None => Ok None
  end.

Definition shown_wind_bearing self : result (option (value num)) :=
  Ok (bearing_value <$> wind_bearing self).

Definition shown_wind_speed self : result (option (value num)) :=
  match wind_speed self with
  | Some w =>
      match wind_speed_unit self with
      | Some u => v ← convert_wind_speed self (VNum w) u; Ok (Some v)
      | None => Ok (Some (VNum w))
      end
  | None => Ok None
  end.

Definition shown_visibility self : result (option (value num)) :=
  match visibility self with
  | Some x =>
      match visibility_unit self with
      | Some u => v ← convert_visibility self (VNum x) u; Ok (Some v)
      | None => Ok (Some (VNum x))
      end
  | None => Ok None
  end.

(** [d[k] = v] when there is a [v]. *)
Definition store_opt (k : string) (v : option (value num))
    (d : gmap string (value num)) : gmap string (value num) :=
  match v with Some v => <[k := v]> d | None => d end.

(** The attribute dict before the forecast is added. *)
Definition top_attributes self : result (gmap string (value num)) :=
  t ← shown_temperature self;
  hu ← shown_humidity self;
  oz ← shown_ozone self;
  p ← shown_pressure self;
  wb ← shown_wind_bearing self;
  ws ← shown_wind_speed self;
  vi ← shown_visibility self;
  Ok (store_opt ATTR_WEATHER_VISIBILITY vi
       (store_opt ATTR_WEATHER_WIND_SPEED ws
         (store_opt ATTR_WEATHER_WIND_BEARING wb
           (store_opt ATTR_WEATHER_PRESSURE p
             (store_opt ATTR_WEATHER_OZONE oz
               (store_opt ATTR_WEATHER_HUMIDITY hu
                 (store_opt ATTR_WEATHER_TEMPERATURE t ∅))))))).

(** One field of a forecast record: converted when it is present, not
    [None], and the entity has a native unit for it. *)
Definition converted_field (unit : option string)
    (conv : value num -> string -> result (value num)) (k : string)
    (d : gmap string (value num)) : result (gmap string (value num)) :=
  let v := default VNone (d !! k) in
  if is_None v then Ok d else
    match unit with
    | Some u => c ← conv v u; Ok (<[k := c]> d)
    | None => Ok d
    end.

Definition converted_entry self (d : gmap string (value num))
  : result (gmap string (value num)) :=
  d ← converted_field (temperature_unit self) (convert_temperature self)
        ATTR_FORECAST_TEMP d;
  d ← converted_field (temperature_unit self) (convert_temperature self)
        ATTR_FORECAST_TEMP_LOW d;
  d ← converted_field (pressure_unit self) (convert_pressure self)
        ATTR_FORECAST_PRESSURE d;
  d ← converted_field (wind_speed_unit self) (convert_wind_speed self)
        ATTR_FORECAST_WIND_SPEED d;
  converted_field (precipitation_unit self) (convert_precipitation self)
        ATTR_FORECAST_PRECIPITATION d.

Fixpoint converted_entries self (ds : list (gmap string (value num)))
  : result (list (gmap string (value num))) :=
  match ds with
  | [] => Ok []
  | d :: rest =>
      d' ← converted_entry self d;
      rest' ← converted_entries self rest;
      Ok (d' :: rest')
  end.

(** The stored forecast: [fl] is a list of references to the dicts
    [ds]. *)
Definition stored_forecast (h : heap num) (fl : loc)
    (ds : list (gmap string (value num))) : Prop :=
  exists ls : list loc,
    h !! fl = Some (OList (VRef <$> ls)) /\
    Forall2 (fun l d => h !! l = Some (ODict d)) ls ds.

(** A store in which [self] is the entity [e] and its forecast, if
    any, is a list of the records [ds]. *)
Definition entity_at (h : heap num) (self : loc) (e : WeatherEntity num)
    (ds : list (gmap string (value num))) : Prop :=
  h !! self = Some (OEntity e) /\
  match forecast e with
  | Some fl => stored_forecast h fl ds
  | None => ds = []
  end.

(** The result of a run that returns [data] in the store [h']: the
    attribute dict [top], plus, when there is a forecast, a list of
    newly made dicts holding [entries]. *)
Definition returned (h h' : heap num) (data : loc) (top : gmap string (value num))
    (entries : option (list (gmap string (value num)))) : Prop :=
  (data ∉ dom h) /\
  match entries with
  | None => h' !! data = Some (ODict top)
  | Some ds' =>
      exists (fl' : loc) (ls' : list loc),
        h' !! data = Some (ODict (<[ATTR_FORECAST := VRef fl']> top)) /\
        (fl' ∉ dom h) /\
        h' !! fl' = Some (OList (VRef <$> ls')) /\
        Forall2 (fun l' d' => (l' ∉ dom h) /\ h' !! l' = Some (ODict d')) ls' ds'
  end.

(** The outcome of [state_attributes] as a function of the entity and
    of its stored forecast records. *)
Definition expected self (ds : list (gmap string (value num)))
  : result (gmap string (value num) * option (list (gmap string (value num)))) :=
  top ← top_attributes self;
  match forecast self with
  | Some _ => ds' ← converted_entries self ds; Ok (top, Some ds')
  | None => Ok (top, None)
  end.

(** Reading the result: the value of an attribute of the returned
    dict, and the forecast records it refers to. *)
Definition attribute (h' : heap num) (data : loc) (k : string)
  : option (value num) :=
  match h' !! data with
  | Some (ODict d) => d !! k
  | _ => None
  end.

Definition record_at (h' : heap num) (item : value num)
  : option (gmap string (value num)) :=
  match item with
  | VRef l => match h' !! l with Some (ODict d) => Some d | _ => None end
  | _ => None
  end.

Definition forecast_records (h' : heap num) (data : loc)
  : option (list (gmap string (value num))) :=
  match attribute h' data ATTR_FORECAST with
  | Some (VRef fl') =>
      match h' !! fl' with
      | Some (OList items) => mapM (record_at h') items
      | _ => None
      end
  | _ => None
  end.

(** The objects the result is made of: the dict [data], the forecast
    list and the dicts in it. *)
Definition result_objects (h' : heap num) (data : loc) : list loc :=
  data ::
  match attribute h' data ATTR_FORECAST with
  | Some (VRef fl') =>
      fl' ::
      match h' !! fl' with
      | Some (OList items) =>
          omap (fun item => match item with VRef l => Some l | _ => None end) items
      | _ => []
      end
  | _ => []
  end.

(** The rounding rules, as relations between the value [v] handed to
    the conversion together with the native unit [u], and the value
    [r] shown. *)
Definition temperature_rule self (v : value num) (u : string) (r : value num)
  : Prop :=
  exists displayed c,
    displayed_unit self ATTR_WEATHER_TEMPERATURE = Ok displayed /\
    util.convert temperature_util v u displayed = Ok c /\
    (if bool_decide (displayed = TEMP_CELSIUS)
     then round_ndigits c 1 else round c) = Ok r.

Definition two_decimals_rule self (quantity : string) (helper : util.t num)
    (v : value num) (u : string) (r : value num) : Prop :=
  exists displayed c,
    displayed_unit self quantity = Ok displayed /\
    util.convert helper v u displayed = Ok c /\
    round_ndigits c 2 = Ok r.

(** [round(x, 2)] returns a value that [round(_, 2)] leaves alone. *)
Definition round_idempotent : Prop :=
  forall v r : value num,
    round_ndigits v ROUNDING_PRECISION = Ok r ->
    round_ndigits r ROUNDING_PRECISION = Ok r.

(** The quantities that have a unit, and the fields of a forecast
    record that are converted. *)
Definition quantities : list string :=
  [ATTR_WEATHER_TEMPERATURE; ATTR_WEATHER_PRESSURE; ATTR_WEATHER_VISIBILITY;
   ATTR_WEATHER_WIND_SPEED; ATTR_WEATHER_PRECIPITATION].

Definition converted_keys : list string :=
  [ATTR_FORECAST_TEMP; ATTR_FORECAST_TEMP_LOW; ATTR_FORECAST_PRESSURE;
   ATTR_FORECAST_WIND_SPEED; ATTR_FORECAST_PRECIPITATION].

(** The convertible fields of a forecast record hold [None] or are
    missing. *)
Definition unreported (d : gmap string (value num)) : Prop :=
  Forall (fun k => default VNone (d !! k) = VNone) converted_keys.

(** Field [k] of the record [d] as it appears in [d']: replaced by a
    value related to it by [rule] when it holds a value other than
    [None] and the entity has a native [unit], and left as it is (be
    it [None] or missing) otherwise. *)
Definition field_shown (unit : option string)
    (rule : value num -> string -> value num -> Prop) (k : string)
    (d d' : gmap string (value num)) : Prop :=
  match d !! k, unit with
  | Some v, Some u =>
      if is_None v then d' !! k = Some VNone
      else exists r, rule v u r /\ d' !! k = Some r
  | _, _ => d' !! k = d !! k
  end.

(** The helper modules behave as the spec says: see [spec_convert]. *)
Definition helper_as_specified (helper : util.t num) : Prop :=
  exists rescale,
    util.convert helper = spec_convert (util.VALID_UNITS helper) rescale.

End Views.

End Weather.

(** ** A sample platform

    Numbers with two decimals, held as their count of hundredths, stand in
    for Python's floats; the unit names are those of Home Assistant.  The
    platform instantiates the parameters of [Weather] on concrete inputs. *)

Module Sample.
Import Weather.

(** Nearest integer to [a / b] for [b > 0], halves to even. *)
Definition div_half_even (a b : Z) : Z :=
  let q := (a / b)%Z in
  let r := (a mod b)%Z in
  if (2 * r <? b)%Z then q
  else if (b <? 2 * r)%Z then (q + 1)%Z
  else if Z.even q then q else (q + 1)%Z.

(** [round(x, ndigits)] on hundredths. *)
Definition round_hundredths (x ndigits : Z) : Z :=
  if (2 <=? ndigits)%Z then x
  else let step := (10 ^ (2 - ndigits))%Z in (div_half_even x step * step)%Z.

Definition sample_round (v : value Z) : result (value Z) :=
  match v with
  | VNum x => Ok (VNum (round_hundredths x 0))
  | _ => Raise TypeError
  end.

Definition sample_round_ndigits (v : value Z) (ndigits : Z) : result (value Z) :=
  match v with
  | VNum x => Ok (VNum (round_hundredths x ndigits))
  | _ => Raise TypeError
  end.

(** Size of a unit as a fraction of the base unit of its quantity. *)
Fixpoint unit_size (table : list (string * (Z * Z))) (u : string) : Z * Z :=
  match table with
  | [] => (1, 1)%Z
  | (name, size) :: rest => if String.eqb name u then size else unit_size rest u
  end.

Definition linear (table : list (string * (Z * Z)))
    (v : value Z) (from to : string) : result (value Z) :=
  match v with
  | VNum x =>
      let '(nf, df) := unit_size table from in
      let '(nt, dt) := unit_size table to in
      Ok (VNum (div_half_even (x * nf * dt) (df * nt)))
  | _ => Raise TypeError
  end.

Definition pressure_table : list (string * (Z * Z)) :=
  [("Pa", (1, 1)); ("hPa", (100, 1)); ("inHg", (3386389, 1000))]%Z.
Definition speed_table : list (string * (Z * Z)) :=
  [("m/s", (1, 1)); ("km/h", (5, 18)); ("mph", (44704, 100000))]%Z.
Definition distance_table : list (string * (Z * Z)) :=
  [("m", (1, 1)); ("km", (1000, 1)); ("mi", (1609344, 1000));
   ("mm", (1, 1000)); ("in", (254, 10000))]%Z.

Definition temperature_rescale (v : value Z) (from to : string) : result (value Z) :=
  match v with
  | VNum x =>
      if bool_decide (from = "°F") && bool_decide (to = "°C")
      then Ok (VNum (div_half_even ((x - 3200) * 5) 9))
      else if bool_decide (from = "°C") && bool_decide (to = "°F")
      then Ok (VNum (div_half_even (x * 9) 5 + 3200)%Z)
      else Raise ValueError
  | _ => Raise TypeError
  end.

Definition platform : Externals Z :=
  {| LENGTH_INCHES := "in";
     LENGTH_KILOMETERS := "km";
     LENGTH_MILES := "mi";
     LENGTH_MILLIMETERS := "mm";
     PRESSURE_HPA := "hPa";
     PRESSURE_INHG := "inHg";
     SPEED_KILOMETERS_PER_HOUR := "km/h";
     SPEED_METERS_PER_SECOND := "m/s";
     SPEED_MILES_PER_HOUR := "mph";
     TEMP_CELSIUS := "°C";
     TEMP_FAHRENHEIT := "°F";
     distance_util := spec_util (fst <$> distance_table) (linear distance_table);
     pressure_util := spec_util (fst <$> pressure_table) (linear pressure_table);
     speed_util := spec_util (fst <$> speed_table) (linear speed_table);
     temperature_util := spec_util ["°C"; "°F"] temperature_rescale;
     round := sample_round;
     round_ndigits := sample_round_ndigits |}.

(** An entity reporting 38 °F, 1000 hPa, 10 m/s and 10 mi, with a
    stored forecast of one record whose pressure is [None]. *)
Definition entity : WeatherEntity Z :=
  {| is_metric := true;
     _attr_forecast := Some 2%positive;
     _attr_humidity := Some 5550%Z;
     _attr_ozone := Some 1234%Z;
     _attr_pressure := Some 100000%Z;
     _attr_pressure_unit := Some "hPa";
     _attr_temperature_unit := Some "°F";
     _attr_temperature := Some 3800%Z;
     _attr_visibility := Some 1000%Z;
     _attr_visibility_unit := Some "mi";
     _attr_precipitation_unit := Some "mm";
     _attr_wind_bearing := Some (inr "NNW");
     _attr_wind_speed := Some 1000%Z;
     _attr_wind_speed_unit := Some "m/s";
     _option_units_of_measurement := None |}.

Definition record : gmap string (value Z) :=
  {[ "condition" := VStr "sunny";
     "temperature" := VNum 3800%Z;
     "templow" := VNum 3200%Z;
     "pressure" := VNone;
     "wind_bearing" := VStr "NNW";
     "wind_speed" := VNum 1000%Z ]}.

Definition store : gmap loc (obj Z) :=
  {[ 1%positive := OEntity entity;
     2%positive := OList [VRef 3%positive];
     3%positive := ODict record ]}.

(** What [state_attributes] returns for [entity] and the store it leaves. *)
Definition shown : result loc * gmap loc (obj Z) :=
  state_attributes (Externals0 := platform) 1%positive store.

(** An entity that reports nothing, with a forecast of one record whose
    convertible fields are [None] or missing. *)
Definition silent : WeatherEntity Z :=
  {| is_metric := true;
     _attr_forecast := Some 2%positive;
     _attr_humidity := None;
     _attr_ozone := None;
     _attr_pressure := None;
     _attr_pressure_unit := Some "inHg";
     _attr_temperature_unit := None;
     _attr_temperature := None;
     _attr_visibility := None;
     _attr_visibility_unit := None;
     _attr_precipitation_unit := Some "mm";
     _attr_wind_bearing := None;
     _attr_wind_speed := None;
     _attr_wind_speed_unit := Some "m/s";
     _option_units_of_measurement := None |}.

Definition silent_record : gmap string (value Z) :=
  {[ "condition" := VStr "sunny";
     "pressure" := VNone;
     "wind_speed" := VNone;
     "precipitation" := VNone ]}.

Definition silent_store : gmap loc (obj Z) :=
  {[ 1%positive := OEntity silent;
     2%positive := OList [VRef 3%positive];
     3%positive := ODict silent_record ]}.

Definition silent_shown : result loc * gmap loc (obj Z) :=
  state_attributes (Externals0 := platform) 1%positive silent_store.

(** An entity that reports values (21.37, 1013.25, 12.34 and 5.67)
    without naming their units, and has no forecast. *)
Definition unitless : WeatherEntity Z :=
  {| is_metric := true;
     _attr_forecast := None;
     _attr_humidity := None;
     _attr_ozone := None;
     _attr_pressure := Some 101325%Z;
     _attr_pressure_unit := None;
     _attr_temperature_unit := None;
     _attr_temperature := Some 2137%Z;
     _attr_visibility := Some 1234%Z;
     _attr_visibility_unit := None;
     _attr_precipitation_unit := None;
     _attr_wind_bearing := None;
     _attr_wind_speed := Some 567%Z;
     _attr_wind_speed_unit := None;
     _option_units_of_measurement := None |}.

Definition unitless_store : gmap loc (obj Z) :=
  {[ 1%positive := OEntity unitless ]}.

Definition unitless_shown : result loc * gmap loc (obj Z) :=
  state_attributes (Externals0 := platform) 1%positive unitless_store.

(** A metric entity whose native units are the metric defaults, with a
    user override of the pressure unit. *)
Definition native_metric (options : option (gmap string (option string)))
  : WeatherEntity Z :=
  {| is_metric := true;
     _attr_forecast := Some 2%positive;
     _attr_humidity := None;
     _attr_ozone := None;
     _attr_pressure := Some 101325%Z;
     _attr_pressure_unit := Some "hPa";
     _attr_temperature_unit := Some "°C";
     _attr_temperature := Some 2137%Z;
     _attr_visibility := Some 1234%Z;
     _attr_visibility_unit := Some "km";
     _attr_precipitation_unit := Some "mm";
     _attr_wind_bearing := None;
     _attr_wind_speed := Some 567%Z;
     _attr_wind_speed_unit := Some "km/h";
     _option_units_of_measurement := options |}.

Definition metric_record : gmap string (value Z) :=
  {[ "temperature" := VNum 2137%Z;
     "templow" := VNum 1234%Z;
     "pressure" := VNum 101325%Z;
     "wind_speed" := VNum 567%Z;
     "precipitation" := VNum 123%Z ]}.

Definition metric_store : gmap loc (obj Z) :=
  {[ 1%positive := OEntity (native_metric None);
     2%positive := OList [VRef 3%positive];
     3%positive := ODict metric_record ]}.

Definition metric_shown : result loc * gmap loc (obj Z) :=
  state_attributes (Externals0 := platform) 1%positive metric_store.

Definition pressure_override (unit : string) : option (gmap string (option string)) :=
  Some {[ "pressure" := Some unit ]}.

(** Coordinator data of a TED 6000 with one spyder and no MTU. *)
Definition kitchen : gmap string Ted.pyval :=
  {[ "name" := Ted.PStr "Kitchen"; "consumption" := Ted.PNum 200 ]}.

Definition ted_data : gmap string Ted.pyval :=
  {[ "is_5000" := Ted.PNum 0;
     "consumption" := Ted.PNum 1500;
     "spyders" := Ted.PDict {[ "1" := Ted.PDict kitchen ]};
     "mtus" := Ted.PDict ∅ ]}.

Definition voltage_sensor : Ted.TedSensor :=
  {| Ted.description_key := "voltage"; Ted.coordinator_data := Ted.PDict ted_data |}.

Definition lost_spyder : Ted.TedBreakdownSensor :=
  {| Ted.base :=
       {| Ted.description_key := "consumption";
          Ted.coordinator_data := Ted.PDict ted_data |};
     Ted._group := "spyders";
     Ted._position := "2" |}.

End Sample.

(** ** The entity registry hook of the weather entity *)

Module Registry.
Import Weather.

Definition DOMAIN := "weather".

(** Truth value of a dict: the empty dict is false. *)
Definition nonempty {V} (d : gmap string V) : bool :=
  negb (Nat.eqb (size d) 0).

(** An entity registry entry, as far as the component reads it:
    [options] maps a domain to the options stored for it, and the
    options of the weather domain map an option name to a dict of
    units. *)
Record RegistryEntry : Type := {
  options : gmap string (gmap string (gmap string (option string)))
}.

(** The entity together with [self.registry_entry], an attribute of the
    base class [Entity]. *)
Record Registered (num : Type) : Type := {
  entity : WeatherEntity num;
  registry_entry : option RegistryEntry
}.
Arguments entity {num} _.
Arguments registry_entry {num} _.

(** [assert self.registry_entry] either goes on or raises. *)
Inductive asserted (A : Type) : Type :=
| Passed (a : A)
| AssertionError.
Arguments Passed {A} a.
Arguments AssertionError {A}.

Section Hook.
Context {num : Type}.

(** [homeassistant.const.CONF_UNITS_OF_MEASUREMENT], outside the excerpt. *)
Variable CONF_UNITS_OF_MEASUREMENT : string.

(** [self._option_units_of_measurement = units] *)
Definition set_option_units (self : WeatherEntity num)
    (units : option (gmap string (option string))) : WeatherEntity num :=
  {| is_metric := is_metric self;
     _attr_forecast := _attr_forecast self;
     _attr_humidity := _attr_humidity self;
     _attr_ozone := _attr_ozone self;
     _attr_pressure := _attr_pressure self;
     _attr_pressure_unit := _attr_pressure_unit self;
     _attr_temperature_unit := _attr_temperature_unit self;
     _attr_temperature := _attr_temperature self;
     _attr_visibility := _attr_visibility self;
     _attr_visibility_unit := _attr_visibility_unit self;
     _attr_precipitation_unit := _attr_precipitation_unit self;
     _attr_wind_bearing := _attr_wind_bearing self;
     _attr_wind_speed := _attr_wind_speed self;
     _attr_wind_speed_unit := _attr_wind_speed_unit self;
     _option_units_of_measurement := units |}.

(** [(weather_options := options.get(DOMAIN)) and
     (custom_units := weather_options.get(CONF_UNITS_OF_MEASUREMENT))]:
    the custom units when both dicts are there and not empty. *)
Definition custom_units (entry : RegistryEntry)
  : option (gmap string (option string)) :=
  match options entry !! DOMAIN with
  | Some weather_options =>
      if nonempty weather_options then
        match weather_options !! CONF_UNITS_OF_MEASUREMENT with
        | Some units => if nonempty units then Some units else None
        | None => None
        end
      else None
  | None => None
  end.

(** [async_registry_entry_updated]: the lines printed, and the entity
    after the update unless the assertion fails. *)
Definition async_registry_entry_updated (self : Registered num)
  : list string * asserted (Registered num) :=
  (["registry update!"],
   match registry_entry self with
   | None => AssertionError
   | Some entry =>
       Passed {| entity := set_option_units (entity self) (custom_units entry);
                 registry_entry := registry_entry self |}
   end).

(** [async_internal_added_to_hass]; [super_added] is what the method of
    the base class, which is outside the excerpt, does to the entity. *)
Definition async_internal_added_to_hass
    (super_added : Registered num -> Registered num) (self : Registered num)
  : list string * asserted (Registered num) :=
  let self := super_added self in
  match registry_entry self with
  | None => ([], Passed self)
  | Some _ => async_registry_entry_updated self
  end.

End Hook.

End Registry.

(** ** Setting up the TED sensors *)

Module TedSetup.

(** The constants of [homeassistant.const] and
    [homeassistant.components.sensor] that the descriptions name. *)
Inductive unit_of_measurement : Type :=
| POWER_WATT
| ENERGY_WATT_HOUR
| ELECTRIC_POTENTIAL_VOLT.

Inductive state_class_name : Type :=
| STATE_CLASS_MEASUREMENT
| STATE_CLASS_TOTAL_INCREASING.

Inductive device_class_name : Type :=
| DEVICE_CLASS_ENERGY.

Record SensorEntityDescription : Type := {
  key : string;
  name : string;
  native_unit_of_measurement : option unit_of_measurement;
  state_class : option state_class_name;
  device_class : option device_class_name
}.

Definition SENSORS : list SensorEntityDescription :=
  [ {| key := "consumption";
       name := "Current Energy Consumption";
       native_unit_of_measurement := Some POWER_WATT;
       state_class := Some STATE_CLASS_MEASUREMENT;
       device_class := None |};
    {| key := "daily_consumption";
       name := "Today's Energy Consumption";
       native_unit_of_measurement := Some ENERGY_WATT_HOUR;
       state_class := Some STATE_CLASS_MEASUREMENT;
       device_class := Some DEVICE_CLASS_ENERGY |};
    {| key := "mtd_consumption";
       name := "Month to Date Energy Consumption";
       native_unit_of_measurement := Some ENERGY_WATT_HOUR;
       state_class := Some STATE_CLASS_TOTAL_INCREASING;
       device_class := Some DEVICE_CLASS_ENERGY |} ].

Definition SPYDER_SENSORS : list SensorEntityDescription :=
  [ {| key := "consumption";
       name := "Current Energy Consumption";
       native_unit_of_measurement := Some POWER_WATT;
       state_class := Some STATE_CLASS_MEASUREMENT;
       device_class := None |};
    {| key := "mtd_consumption";
       name := "Month to Date Energy Consumption";
       native_unit_of_measurement := Some ENERGY_WATT_HOUR;
       state_class := Some STATE_CLASS_TOTAL_INCREASING;
       device_class := Some DEVICE_CLASS_ENERGY |} ].

Definition MTU_SENSORS : list SensorEntityDescription :=
  [ {| key := "consumption";
       name := "Current Energy Consumption";
       native_unit_of_measurement := Some POWER_WATT;
       state_class := Some STATE_CLASS_MEASUREMENT;
       device_class := None |};
    {| key := "voltage";
       name := "Voltage";
       native_unit_of_measurement := Some ELECTRIC_POTENTIAL_VOLT;
       state_class := None;
       device_class := None |} ].

(** What [TedSensor.__init__] stores; [data] stands for
    [self.coordinator.data] at the time a property is read. *)
Record Sensor : Type := {
  entity_description : SensorEntityDescription;
  _name : string;
  _device_id : string;
  data : Ted.pyval
}.

(** What [TedBreakdownSensor.__init__] adds. *)
Record Breakdown : Type := {
  sensor : Sensor;
  _group : string;
  _position : string
}.

Inductive entity : Type :=
| ATedSensor (s : Sensor)
| ATedBreakdownSensor (b : Breakdown).

(** The views of the two classes that [Ted.state] and
    [Ted.breakdown_state] read. *)
Definition ted_sensor (s : Sensor) : Ted.TedSensor :=
  {| Ted.description_key := key (entity_description s);
     Ted.coordinator_data := data s |}.

Definition ted_breakdown (b : Breakdown) : Ted.TedBreakdownSensor :=
  {| Ted.base := ted_sensor (sensor b);
     Ted._group := _group b;
     Ted._position := _position b |}.

(** [TedSensor.unique_id] *)
Definition unique_id (s : Sensor) : string :=
  _device_id s ++ "_" ++ key (entity_description s).

(** [TedBreakdownSensor.unique_id] *)
Definition breakdown_unique_id (b : Breakdown) : string :=
  _device_id (sensor b) ++ "_" ++ _group b ++ "_" ++ _position b ++ "_"
    ++ key (entity_description (sensor b)).

(** The properties of an entity, whichever class it has. *)
Definition entity_unique_id (x : entity) : string :=
  match x with
  | ATedSensor s => unique_id s
  | ATedBreakdownSensor b => breakdown_unique_id b
  end.

Definition entity_state (x : entity) : result Ted.pyval :=
  match x with
  | ATedSensor s => Ted.state (ted_sensor s)
  | ATedBreakdownSensor b => Ted.breakdown_state (ted_breakdown b)
  end.

Definition entity_key (x : entity) : string :=
  match x with
  | ATedSensor s => key (entity_description s)
  | ATedBreakdownSensor b => key (entity_description (sensor b))
  end.

(** Truth value of a value. *)
Definition truth (v : Ted.pyval) : bool :=
  match v with
  | Ted.PNone => false
  | Ted.PNum n => negb (Z.eqb n 0)
  | Ted.PStr s => negb (String.eqb s "")
  | Ted.PDict d => negb (Nat.eqb (size d) 0)
  end.

(** [v.items()], for a dict.  The items come in the order of the keys,
    not in the order of insertion that Python keeps; nothing proved
    below depends on the order. *)
Definition items (v : Ted.pyval) : result (list (string * Ted.pyval)) :=
  match v with
  | Ted.PDict d => Ok (map_to_list d)
  | _ => Raise AttributeError
  end.

(** [for x in xs: ys += f(x)], stopping at the first exception. *)
Fixpoint collect {A B} (f : A -> result (list B)) (xs : list A) : result (list B) :=
  match xs with
  | [] => Ok []
  | x :: rest =>
      ys ← f x;
      more ← collect f rest;
      Ok (ys ++ more)%list
  end.

Section Setup.

(** [str(v)], as the f-strings apply it to the name of a spyder or MTU. *)
Variable str : Ted.pyval -> string.

(** The first loop of [async_setup_entry]. *)
Definition aggregate_entities (coordinator_data : Ted.pyval)
    (name unique_id : string) : result (list entity) :=
  collect
    (fun sensor_description =>
       is_5000 ← Ted.subscript coordinator_data "is_5000";
       if truth is_5000 && negb (String.eqb (key sensor_description) "consumption")
       then Ok []
       else
         Ok [ATedSensor
               {| entity_description := sensor_description;
                  _name := name ++ " " ++ TedSetup.name sensor_description;
                  _device_id := unique_id;
                  data := coordinator_data |}])
    SENSORS.

(** The loops over the spyders and over the MTUs. *)
Definition breakdown_entities (group : string)
    (descriptions : list SensorEntityDescription)
    (coordinator_data : Ted.pyval) (unique_id : string) : result (list entity) :=
  positions ← Ted.subscript coordinator_data group;
  positions ← items positions;
  collect
    (fun '(position, reading) =>
       reading_name ← Ted.subscript reading "name";
       Ok ((fun sensor_description =>
              ATedBreakdownSensor
                {| sensor :=
                     {| entity_description := sensor_description;
                        _name := str reading_name ++ " "
                                   ++ TedSetup.name sensor_description;
                        _device_id := unique_id;
                        data := coordinator_data |};
                   _group := group;
                   _position := position |}) <$> descriptions))
    positions.

(** [async_setup_entry]: the entities handed to [async_add_entities], for
    the coordinator data, the name and the unique id of the config
    entry. *)
Definition async_setup_entry (coordinator_data : Ted.pyval)
    (name unique_id : string) : result (list entity) :=
  aggregate ← aggregate_entities coordinator_data name unique_id;
  spyders ← breakdown_entities "spyders" SPYDER_SENSORS coordinator_data unique_id;
  mtus ← breakdown_entities "mtus" MTU_SENSORS coordinator_data unique_id;
  Ok (aggregate ++ spyders ++ mtus)%list.

End Setup.

(** A group of the coordinator data as [async_setup_entry] needs it: a
    dict whose values are dicts with a ["name"]. *)
Definition readings_named (group : Ted.pyval) : Prop :=
  exists readings,
    group = Ted.PDict readings /\
    forall position reading,
      readings !! position = Some reading ->
      exists fields,
        reading = Ted.PDict fields /\ is_Some (fields !! "name").

(** Coordinator data with the three entries [async_setup_entry] reads. *)
Definition payload (coordinator_data : Ted.pyval) : Prop :=
  exists data is_5000 spyders mtus,
    coordinator_data = Ted.PDict data /\
    data !! "is_5000" = Some is_5000 /\
    data !! "spyders" = Some spyders /\ readings_named spyders /\
    data !! "mtus" = Some mtus /\ readings_named mtus.

(** Whether a string has an underscore in it. *)
Fixpoint has_underscore (s : string) : bool :=
  match s with
  | EmptyString => false
  | String c rest => String.eqb (String c EmptyString) "_" || has_underscore rest
  end.

End TedSetup.


(** ** The shape of a result and of a failure *)

Module Shape.
Import Weather.

(** A computation that raises, whatever the exception. *)
Definition raises {A} (r : result A) : Prop := exists ex, r = Raise ex.

(** The keys [state_attributes] can file an attribute of the entity
    under. *)
Definition attribute_keys : list string :=
  [ATTR_WEATHER_TEMPERATURE; ATTR_WEATHER_HUMIDITY; ATTR_WEATHER_OZONE;
   ATTR_WEATHER_PRESSURE; ATTR_WEATHER_WIND_BEARING; ATTR_WEATHER_WIND_SPEED;
   ATTR_WEATHER_VISIBILITY].

Section Fields.
Context {num : Type} `{!Externals num}.

(** The fields of a forecast record the loop of [state_attributes]
    converts, each with the native unit it tests and the method it
    calls. *)
Definition forecast_fields (e : WeatherEntity num)
  : list (string * option string * (value num -> string -> result (value num))) :=
  [ (ATTR_FORECAST_TEMP, temperature_unit e, convert_temperature e);
    (ATTR_FORECAST_TEMP_LOW, temperature_unit e, convert_temperature e);
    (ATTR_FORECAST_PRESSURE, pressure_unit e, convert_pressure e);
    (ATTR_FORECAST_WIND_SPEED, wind_speed_unit e, convert_wind_speed e);
    (ATTR_FORECAST_PRECIPITATION, precipitation_unit e, convert_precipitation e) ].

(** The calls of [state_attributes] that can raise, for the entity [e]
    with the stored forecast records [ds]: the conversion of a reported
    value that has a native unit, the rounding of the humidity, the
    rounding of the pressure (of the reported value when the entity
    names no pressure unit, of the converted one otherwise), and the
    conversion of a field of a forecast record that is there, is not
    [None] and has a native unit. *)
Inductive conversion_fails (e : WeatherEntity num)
    (ds : list (gmap string (value num))) : Prop :=
| temperature_fails t u :
    temperature e = Some t -> temperature_unit e = Some u ->
    raises (convert_temperature e (VNum t) u) ->
    conversion_fails e ds
| humidity_fails x :
    humidity e = Some x -> raises (round (VNum x)) ->
    conversion_fails e ds
| pressure_fails p u :
    pressure e = Some p -> pressure_unit e = Some u ->
    raises (convert_pressure e (VNum p) u) ->
    conversion_fails e ds
| pressure_rounding_fails p :
    pressure e = Some p -> pressure_unit e = None ->
    raises (round_ndigits (VNum p) ROUNDING_PRECISION) ->
    conversion_fails e ds
| converted_pressure_rounding_fails p u c :
    pressure e = Some p -> pressure_unit e = Some u ->
    convert_pressure e (VNum p) u = Ok c ->
    raises (round_ndigits c ROUNDING_PRECISION) ->
    conversion_fails e ds
| wind_speed_fails w u :
    wind_speed e = Some w -> wind_speed_unit e = Some u ->
    raises (convert_wind_speed e (VNum w) u) ->
    conversion_fails e ds
| visibility_fails x u :
    visibility e = Some x -> visibility_unit e = Some u ->
    raises (convert_visibility e (VNum x) u) ->
    conversion_fails e ds
| forecast_field_fails d k unit conv v u :
    forecast e ≠ None -> d ∈ ds ->
    (k, unit, conv) ∈ forecast_fields e ->
    d !! k = Some v -> v ≠ VNone -> unit = Some u ->
    raises (conv v u) ->
    conversion_fails e ds.

End Fields.

End Shape.

(** ** Sample registry entries, failing entities and TED payloads *)

Module Site.
Import Weather Registry TedSetup.

(** The name of the option, as the tests of the component write it. *)
Definition CONF_UNITS_OF_MEASUREMENT : string := "units_of_measurement".

(** A registry entry whose weather options hold the custom [units]. *)
Definition entry_with (units : gmap string (option string)) : RegistryEntry :=
  {| options := {[ DOMAIN := {[ CONF_UNITS_OF_MEASUREMENT := units ]} ]} |}.

(** A registry entry without options. *)
Definition plain_entry : RegistryEntry := {| options := ∅ |}.

(** The metric sample entity, shown in inHg by an override, together
    with a registry entry. *)
Definition registered (entry : option RegistryEntry) : Registered Z :=
  {| Registry.entity := Sample.native_metric (Sample.pressure_override "inHg");
     Registry.registry_entry := entry |}.

(** An entity whose temperature comes with the unit of a speed, which
    is no unit of temperature. *)
Definition mislabelled : WeatherEntity Z :=
  {| is_metric := true;
     _attr_forecast := None;
     _attr_humidity := None;
     _attr_ozone := None;
     _attr_pressure := None;
     _attr_pressure_unit := None;
     _attr_temperature_unit := Some "m/s";
     _attr_temperature := Some 2137%Z;
     _attr_visibility := None;
     _attr_visibility_unit := None;
     _attr_precipitation_unit := None;
     _attr_wind_bearing := None;
     _attr_wind_speed := None;
     _attr_wind_speed_unit := None;
     _option_units_of_measurement := None |}.

Definition mislabelled_store : gmap loc (obj Z) :=
  {[ 1%positive := OEntity mislabelled ]}.

(** An entity that names no unit and has a forecast of one record. *)
Definition bare : WeatherEntity Z :=
  {| is_metric := true;
     _attr_forecast := Some 2%positive;
     _attr_humidity := None;
     _attr_ozone := None;
     _attr_pressure := Some 101325%Z;
     _attr_pressure_unit := None;
     _attr_temperature_unit := None;
     _attr_temperature := Some 2137%Z;
     _attr_visibility := None;
     _attr_visibility_unit := None;
     _attr_precipitation_unit := None;
     _attr_wind_bearing := None;
     _attr_wind_speed := None;
     _attr_wind_speed_unit := None;
     _option_units_of_measurement := None |}.

Definition bare_store : gmap loc (obj Z) :=
  {[ 1%positive := OEntity bare;
     2%positive := OList [VRef 3%positive];
     3%positive := ODict Sample.metric_record ]}.

Definition bare_shown : result loc * gmap loc (obj Z) :=
  state_attributes (Externals0 := Sample.platform) 1%positive bare_store.

(** [str] of a name: names are strings. *)
Definition sample_str (v : Ted.pyval) : string :=
  match v with
  | Ted.PStr s => s
  | _ => ""
  end.

Definition panel : gmap string Ted.pyval :=
  {[ "name" := Ted.PStr "Panel";
     "consumption" := Ted.PNum 900;
     "voltage" := Ted.PNum 120 ]}.

(** Coordinator data with one spyder and one MTU, of a TED 6000 or of a
    TED 5000. *)
Definition ted_payload (is_5000 : Z) : gmap string Ted.pyval :=
  {[ "is_5000" := Ted.PNum is_5000;
     "consumption" := Ted.PNum 1500;
     "spyders" := Ted.PDict {[ "1" := Ted.PDict Sample.kitchen ]};
     "mtus" := Ted.PDict {[ "1" := Ted.PDict panel ]} ]}.

(** Coordinator data with a spyder stored under a key with an
    underscore. *)
Definition ted_underscored : gmap string Ted.pyval :=
  {[ "is_5000" := Ted.PNum 0;
     "spyders" := Ted.PDict {[ "1" := Ted.PDict Sample.kitchen;
                               "1_mtd" := Ted.PDict Sample.kitchen ]};
     "mtus" := Ted.PDict ∅ ]}.

(** The entities set up for coordinator data. *)
Definition made (data : gmap string Ted.pyval) : list entity :=
  match async_setup_entry sample_str (Ted.PDict data) "TED" "ted6000" with
  | Ok entities => entities
  | Raise _ => []
  end.

(** The sensor of the consumption of the spyder of [ted_payload]. *)
Definition kitchen_consumption (is_5000 : Z) : Breakdown :=
  {| sensor :=
       {| entity_description :=
            {| key := "consumption";
               name := "Current Energy Consumption";
               native_unit_of_measurement := Some POWER_WATT;
               state_class := Some STATE_CLASS_MEASUREMENT;
               device_class := None |};
          _name := "Kitchen Current Energy Consumption";
          _device_id := "ted6000";
          data := Ted.PDict (ted_payload is_5000) |};
     _group := "spyders";
     _position := "1" |}.

End Site.


(** * Properties *)

Module WeatherSpec.
Import Weather.

Section Run.
Context {num : Type} `{!Externals num}.
Implicit Types (self data : loc) (e : WeatherEntity num)
  (d : gmap string (value num)) (h : heap num).

Lemma bind_run {A B} (m : M num A) (k : A -> M num B) h :
  bind m k h =
    match m h with
    | (Ok a, h') => k a h'
    | (Raise ex, h') => (Raise ex, h')
    end.
Proof. reflexivity. Qed.

Lemma prop_run {A} self (getter : WeatherEntity num -> A) e h :
  h !! self = Some (OEntity e) -> prop self getter h = (Ok (getter e), h).
Proof. intros Hs. unfold prop. by rewrite Hs. Qed.

Lemma call_run {A} self (method : WeatherEntity num -> result A) e h :
  h !! self = Some (OEntity e) -> call self method h = (method e, h).
Proof. intros Hs. unfold call. by rewrite Hs. Qed.

Lemma dict_get_run data k d h :
  h !! data = Some (ODict d) ->
  dict_get data k h = (Ok (default VNone (d !! k)), h).
Proof. intros Hd. unfold dict_get. by rewrite Hd. Qed.

Lemma dict_set_run data k (v : value num) d h :
  h !! data = Some (ODict d) ->
  dict_set data k v h = (Ok tt, <[data := ODict (<[k := v]> d)]> h).
Proof. intros Hd. unfold dict_set. by rewrite Hd. Qed.

Lemma ret_run {A} (a : A) h : ret a h = (Ok a, h).
Proof. reflexivity. Qed.

Lemma lift_run {A} (r : result A) h : lift r h = (r, h).
Proof. reflexivity. Qed.

Lemma result_bind_ok {A B} (f : A -> result B) (a : A) : Ok a ≫= f = f a.
Proof. reflexivity. Qed.

Lemma result_bind_raise {A B} (f : A -> result B) ex :
  Raise ex ≫= f = Raise ex.
Proof. reflexivity. Qed.

(** Runs a block up to the next choice the code makes. *)
Ltac run :=
  repeat first
    [ rewrite bind_run
    | erewrite prop_run by eassumption
    | erewrite call_run by eassumption
    | erewrite dict_get_run by eassumption
    | erewrite dict_set_run by eassumption
    | rewrite ret_run
    | rewrite lift_run
    | rewrite result_bind_ok
    | rewrite result_bind_raise
    | progress cbn beta iota ].

Ltac plain x :=
  lazymatch x with
  | context [if _ then _ else _] => fail
  | context [match _ with Some _ => _ | None => _ end] => fail
  | context [match _ with Ok _ => _ | Raise _ => _ end] => fail
  | _ => idtac
  end.

Ltac choose :=
  match goal with
  | |- context [if ?b then _ else _] => plain b; destruct b eqn:?
  | |- context [match ?x with Some _ => _ | None => _ end] =>
      plain x; destruct x eqn:?
  | |- context [match ?r with Ok _ => _ | Raise _ => _ end] =>
      plain r; destruct r eqn:?
  end.

Ltac block_run := run; repeat (choose; run); try reflexivity; by rewrite insert_id.

Lemma temperature_block_run self data e d h :
  h !! self = Some (OEntity e) -> h !! data = Some (ODict d) ->
  temperature_block self data h =
    match shown_temperature e with
    | Ok v => (Ok tt, <[data := ODict (store_opt ATTR_WEATHER_TEMPERATURE v d)]> h)
    | Raise ex => (Raise ex, h)
    end.
Proof.
  intros Hs Hd. unfold temperature_block, shown_temperature. block_run.
Qed.

Lemma humidity_block_run self data e d h :
  h !! self = Some (OEntity e) -> h !! data = Some (ODict d) ->
  humidity_block self data h =
    match shown_humidity e with
    | Ok v => (Ok tt, <[data := ODict (store_opt ATTR_WEATHER_HUMIDITY v d)]> h)
    | Raise ex => (Raise ex, h)
    end.
Proof.
  intros Hs Hd. unfold humidity_block, shown_humidity. block_run.
Qed.

Lemma ozone_block_run self data e d h :
  h !! self = Some (OEntity e) -> h !! data = Some (ODict d) ->
  ozone_block self data h =
    match shown_ozone e with
    | Ok v => (Ok tt, <[data := ODict (store_opt ATTR_WEATHER_OZONE v d)]> h)
    | Raise ex => (Raise ex, h)
    end.
Proof.
  intros Hs Hd. unfold ozone_block, shown_ozone. block_run.
Qed.

Lemma pressure_block_run self data e d h :
  h !! self = Some (OEntity e) -> h !! data = Some (ODict d) ->
  pressure_block self data h =
    match shown_pressure e with
    | Ok v => (Ok tt, <[data := ODict (store_opt ATTR_WEATHER_PRESSURE v d)]> h)
    | Raise ex => (Raise ex, h)
    end.
Proof.
  intros Hs Hd. unfold pressure_block, shown_pressure. block_run.
Qed.

Lemma wind_bearing_block_run self data e d h :
  h !! self = Some (OEntity e) -> h !! data = Some (ODict d) ->
  wind_bearing_block self data h =
    match shown_wind_bearing e with
    | Ok v => (Ok tt, <[data := ODict (store_opt ATTR_WEATHER_WIND_BEARING v d)]> h)
    | Raise ex => (Raise ex, h)
    end.
Proof.
  intros Hs Hd. unfold wind_bearing_block, shown_wind_bearing. block_run.
Qed.

Lemma wind_speed_block_run self data e d h :
  h !! self = Some (OEntity e) -> h !! data = Some (ODict d) ->
  wind_speed_block self data h =
    match shown_wind_speed e with
    | Ok v => (Ok tt, <[data := ODict (store_opt ATTR_WEATHER_WIND_SPEED v d)]> h)
    | Raise ex => (Raise ex, h)
    end.
Proof.
  intros Hs Hd. unfold wind_speed_block, shown_wind_speed. block_run.
Qed.

Lemma visibility_block_run self data e d h :
  h !! self = Some (OEntity e) -> h !! data = Some (ODict d) ->
  visibility_block self data h =
    match shown_visibility e with
    | Ok v => (Ok tt, <[data := ODict (store_opt ATTR_WEATHER_VISIBILITY v d)]> h)
    | Raise ex => (Raise ex, h)
    end.
Proof.
  intros Hs Hd. unfold visibility_block, shown_visibility, convert_visibility.
  block_run.
Qed.

(** The conversions of one forecast field. *)

Lemma forecast_temp_run self l e d h :
  h !! self = Some (OEntity e) -> h !! l = Some (ODict d) ->
  forecast_temp self l h =
    match converted_field (temperature_unit e) (convert_temperature e)
            ATTR_FORECAST_TEMP d with
    | Ok d' => (Ok tt, <[l := ODict d']> h)
    | Raise ex => (Raise ex, h)
    end.
Proof.
  intros Hs Hd. unfold forecast_temp, converted_field. block_run.
Qed.

Lemma forecast_temp_low_run self l e d h :
  h !! self = Some (OEntity e) -> h !! l = Some (ODict d) ->
  forecast_temp_low self l h =
    match converted_field (temperature_unit e) (convert_temperature e)
            ATTR_FORECAST_TEMP_LOW d with
    | Ok d' => (Ok tt, <[l := ODict d']> h)
    | Raise ex => (Raise ex, h)
    end.
Proof.
  intros Hs Hd. unfold forecast_temp_low, converted_field. block_run.
Qed.

Lemma forecast_pressure_run self l e d h :
  h !! self = Some (OEntity e) -> h !! l = Some (ODict d) ->
  forecast_pressure self l h =
    match converted_field (pressure_unit e) (convert_pressure e)
            ATTR_FORECAST_PRESSURE d with
    | Ok d' => (Ok tt, <[l := ODict d']> h)
    | Raise ex => (Raise ex, h)
    end.
Proof.
  intros Hs Hd. unfold forecast_pressure, converted_field. block_run.
Qed.

Lemma forecast_wind_speed_run self l e d h :
  h !! self = Some (OEntity e) -> h !! l = Some (ODict d) ->
  forecast_wind_speed self l h =
    match converted_field (wind_speed_unit e) (convert_wind_speed e)
            ATTR_FORECAST_WIND_SPEED d with
    | Ok d' => (Ok tt, <[l := ODict d']> h)
    | Raise ex => (Raise ex, h)
    end.
Proof.
  intros Hs Hd. unfold forecast_wind_speed, converted_field. block_run.
Qed.

Lemma forecast_precipitation_run self l e d h :
  h !! self = Some (OEntity e) -> h !! l = Some (ODict d) ->
  forecast_precipitation self l h =
    match converted_field (precipitation_unit e) (convert_precipitation e)
            ATTR_FORECAST_PRECIPITATION d with
    | Ok d' => (Ok tt, <[l := ODict d']> h)
    | Raise ex => (Raise ex, h)
    end.
Proof.
  intros Hs Hd. unfold forecast_precipitation, converted_field. block_run.
Qed.

(** Allocation. *)

Lemma fresh_unused h : h !! fresh (dom h) = None.
Proof. apply not_elem_of_dom, is_fresh. Qed.

Lemma fresh_ne h l (o : obj num) : h !! l = Some o -> l ≠ fresh (dom h).
Proof. intros Hl ->. by rewrite fresh_unused in Hl. Qed.

Lemma new_run (o : obj num) h :
  new o h = (Ok (fresh (dom h)), <[fresh (dom h) := o]> h).
Proof. reflexivity. Qed.

Lemma dict_copy_run l d h :
  h !! l = Some (ODict d) ->
  dict_copy (VRef l) h = (Ok (fresh (dom h)), <[fresh (dom h) := ODict d]> h).
Proof. intros Hl. unfold dict_copy. by rewrite Hl. Qed.

Lemma list_append_run l (v : value num) vs h :
  h !! l = Some (OList vs) ->
  list_append l v h = (Ok tt, <[l := OList (vs ++ [v])]> h).
Proof. intros Hl. unfold list_append. by rewrite Hl. Qed.

Lemma list_items_run l (vs : list (value num)) h :
  h !! l = Some (OList vs) -> list_items l h = (Ok vs, h).
Proof. intros Hl. unfold list_items. by rewrite Hl. Qed.

(** One round of the forecast loop: the record is copied to a new
    dict, the copy is converted in place and appended to the list
    under construction.  When a conversion raises, the copy is left
    behind partly converted. *)
Lemma forecast_loop_body_run self fl' e l d acc h :
  h !! self = Some (OEntity e) ->
  h !! l = Some (ODict d) ->
  h !! fl' = Some (OList acc) ->
  exists dx,
    forecast_loop_body self fl' (VRef l) h =
      match converted_entry e d with
      | Ok d' =>
          (Ok tt, <[fl' := OList (acc ++ [VRef (fresh (dom h))])]>
                    (<[fresh (dom h) := ODict d']> h))
      | Raise ex => (Raise ex, <[fresh (dom h) := ODict dx]> h)
      end.
Proof.
  intros Hs Hl Hfl. unfold forecast_loop_body, converted_entry.
  set (l' := fresh (dom h)).
  assert (Hs' : forall dk, <[l' := ODict dk]> h !! self = Some (OEntity e)).
  { intros dk. rewrite lookup_insert_ne; [done|]. symmetry. by eapply fresh_ne. }
  assert (Hfl' : forall dk, <[l' := ODict dk]> h !! fl' = Some (OList acc)).
  { intros dk. rewrite lookup_insert_ne; [done|]. symmetry. by eapply fresh_ne. }
  assert (Hl' : forall dk, <[l' := ODict dk]> h !! l' = Some (ODict dk)).
  { intros dk. apply lookup_insert_eq. }
  rewrite bind_run, (dict_copy_run _ _ _ Hl). fold l'. cbn beta iota.
  rewrite bind_run, (forecast_temp_run _ _ _ _ _ (Hs' d) (Hl' d)).
  destruct (converted_field _ _ ATTR_FORECAST_TEMP d) as [d1|ex];
    [|by exists d].
  rewrite result_bind_ok, insert_insert_eq. cbn beta iota.
  rewrite bind_run, (forecast_temp_low_run _ _ _ _ _ (Hs' d1) (Hl' d1)).
  destruct (converted_field _ _ ATTR_FORECAST_TEMP_LOW d1) as [d2|ex];
    [|by exists d1].
  rewrite result_bind_ok, insert_insert_eq. cbn beta iota.
  rewrite bind_run, (forecast_pressure_run _ _ _ _ _ (Hs' d2) (Hl' d2)).
  destruct (converted_field _ _ ATTR_FORECAST_PRESSURE d2) as [d3|ex];
    [|by exists d2].
  rewrite result_bind_ok, insert_insert_eq. cbn beta iota.
  rewrite bind_run, (forecast_wind_speed_run _ _ _ _ _ (Hs' d3) (Hl' d3)).
  destruct (converted_field _ _ ATTR_FORECAST_WIND_SPEED d3) as [d4|ex];
    [|by exists d3].
  rewrite result_bind_ok, insert_insert_eq. cbn beta iota.
  rewrite bind_run, (forecast_precipitation_run _ _ _ _ _ (Hs' d4) (Hl' d4)).
  destruct (converted_field _ _ ATTR_FORECAST_PRECIPITATION d4) as [d5|ex];
    [|by exists d4].
  rewrite insert_insert_eq. cbn beta iota.
  exists d. by rewrite (list_append_run _ _ _ _ (Hfl' d5)).
Qed.

(** The forecast loop: what the records [ds] at [ls] are turned into
    is appended to the list [fl'], every store cell but [fl'] is kept,
    and the dicts the list refers to are new. *)
Lemma forecast_loop_run self fl' e ls : forall ds acc h,
  h !! self = Some (OEntity e) ->
  h !! fl' = Some (OList acc) ->
  Forall2 (fun l d => h !! l = Some (ODict d)) ls ds ->
  exists h',
    delete fl' h ⊆ h' /\
    match converted_entries e ds with
    | Ok ds' =>
        for_each (VRef <$> ls) (forecast_loop_body self fl') h = (Ok tt, h') /\
        exists ls',
          h' !! fl' = Some (OList (acc ++ (VRef <$> ls'))) /\
          Forall2 (fun l' d' => (l' ∉ dom h) /\ h' !! l' = Some (ODict d')) ls' ds'
    | Raise ex =>
        for_each (VRef <$> ls) (forecast_loop_body self fl') h = (Raise ex, h')
    end.
Proof.
  induction ls as [|l ls IH]; intros ds acc h Hs Hfl Hsrc.
  - apply Forall2_nil_inv_l in Hsrc as ->. exists h. split.
    + apply delete_subseteq.
    + simpl. split; [done|]. exists []. by rewrite app_nil_r.
  - apply Forall2_cons_inv_l in Hsrc as (d & ds0 & Hl & Hsrc & ->).
    destruct (forecast_loop_body_run self fl' e l d acc h Hs Hl Hfl) as [dx Hbody].
    set (l' := fresh (dom h)) in *.
    assert (Hl' : h !! l' = None) by apply fresh_unused.
    assert (Hfl_ne : fl' ≠ l') by (by eapply fresh_ne).
    cbn [fmap list_fmap for_each converted_entries]. rewrite bind_run, Hbody.
    destruct (converted_entry e d) as [d'|ex]; cbn beta iota.
    2:{ rewrite result_bind_raise. eexists; split; [|done].
        etrans; [apply delete_subseteq|]. by apply insert_subseteq. }
    rewrite result_bind_ok.
    set (h2 := <[fl' := OList (acc ++ [VRef l'])]> (<[l' := ODict d']> h)).
    assert (Hkeep : forall x o, x ≠ fl' -> h !! x = Some o -> h2 !! x = Some o).
    { intros x o Hx Hxo. unfold h2. rewrite !lookup_insert_ne; [done| |done].
      symmetry. by eapply fresh_ne. }
    assert (Hsub : delete fl' h ⊆ delete fl' h2).
    { unfold h2. rewrite delete_insert_eq, delete_insert_ne by done.
      apply insert_subseteq. by rewrite lookup_delete_ne. }
    destruct (IH ds0 (acc ++ [VRef l'])%list h2) as (h' & Hframe & Hrest).
    { apply Hkeep; [|done]. intros ->. by rewrite Hs in Hfl. }
    { unfold h2. apply lookup_insert_eq. }
    { eapply Forall2_impl; [exact Hsrc|]. intros x dxx Hx. cbn beta in Hx.
      apply Hkeep; [|done]. intros ->. by rewrite Hx in Hfl. }
    exists h'. split; [by etrans|].
    destruct (converted_entries e ds0) as [ds0'|ex]; cbn beta iota;
      [|by rewrite result_bind_raise].
    rewrite result_bind_ok. destruct Hrest as (Hrun & ls' & Hlist & Hnew).
    split; [done|]. exists (l' :: ls'). split.
    + by rewrite Hlist, <- app_assoc.
    + constructor.
      * split; [by apply not_elem_of_dom|].
        eapply lookup_weaken; [|exact Hframe].
        rewrite lookup_delete_ne by done. unfold h2.
        rewrite lookup_insert_ne by done. apply lookup_insert_eq.
      * eapply Forall2_impl; [exact Hnew|]. intros x dxx [Hx Hxd]. split; [|done].
        intros Hin. apply Hx. unfold h2. rewrite !dom_insert_L. set_solver.
Qed.

Lemma stored_forecast_weaken h h' fl ds :
  h ⊆ h' -> stored_forecast h fl ds -> stored_forecast h' fl ds.
Proof.
  intros Hsub (ls & Hfl & Hsrc). exists ls. split.
  - eapply lookup_weaken; eassumption.
  - eapply Forall2_impl; [exact Hsrc|]. intros l d Hl. cbn beta in Hl. eapply lookup_weaken; eassumption.
Qed.

(** The forecast block: every store cell but [data] is kept. *)
Lemma forecast_block_run self data e top ds h :
  h !! self = Some (OEntity e) ->
  h !! data = Some (ODict top) ->
  match forecast e with
  | Some fl => stored_forecast h fl ds
  | None => ds = []
  end ->
  exists h',
    delete data h ⊆ h' /\
    match forecast e with
    | None => forecast_block self data h = (Ok tt, h') /\ h' = h
    | Some _ =>
        match converted_entries e ds with
        | Ok ds' =>
            forecast_block self data h = (Ok tt, h') /\
            exists fl' ls',
              h' !! data = Some (ODict (<[ATTR_FORECAST := VRef fl']> top)) /\
              (fl' ∉ dom h) /\
              h' !! fl' = Some (OList (VRef <$> ls')) /\
              Forall2 (fun l' d' => (l' ∉ dom h) /\ h' !! l' = Some (ODict d'))
                ls' ds'
        | Raise ex => forecast_block self data h = (Raise ex, h')
        end
    end.
Proof.
  intros Hs Hd Hfc. unfold forecast_block.
  rewrite bind_run, (prop_run _ _ _ _ Hs). cbn beta iota.
  destruct (forecast e) as [fl|] eqn:Hforecast.
  2:{ exists h. split; [apply delete_subseteq|done]. }
  destruct Hfc as (ls & Hfl & Hsrc).
  rewrite bind_run, new_run. cbn beta iota.
  set (fl' := fresh (dom h)).
  set (h1 := <[fl' := OList []]> h).
  assert (Hnew : h !! fl' = None) by apply fresh_unused.
  assert (Hsub1 : h ⊆ h1) by (by apply insert_subseteq).
  assert (Hs1 : h1 !! self = Some (OEntity e)) by (eapply lookup_weaken; eassumption).
  rewrite bind_run, (prop_run _ _ _ _ Hs1), Hforecast. cbn beta iota.
  rewrite bind_run, (list_items_run fl (VRef <$> ls) h1)
    by (eapply lookup_weaken; eassumption).
  cbn beta iota. rewrite bind_run.
  destruct (forecast_loop_run self fl' e ls ds [] h1) as (h2 & Hframe & Hloop).
  { done. }
  { apply lookup_insert_eq. }
  { eapply Forall2_impl; [exact Hsrc|]. intros l d Hl. cbn beta in Hl. eapply lookup_weaken; eassumption. }
  assert (Hsub2 : h ⊆ h2).
  { etrans; [|exact Hframe]. unfold h1.
    by rewrite delete_insert_eq, delete_id. }
  destruct (converted_entries e ds) as [ds'|ex].
  2:{ rewrite Hloop. exists h2. split; [|done].
      etrans; [apply delete_subseteq|done]. }
  destruct Hloop as (-> & ls' & Hlist & Hnews). cbn beta iota.
  assert (Hd2 : h2 !! data = Some (ODict top)) by (eapply lookup_weaken; eassumption).
  rewrite (dict_set_run _ _ _ _ _ Hd2).
  assert (Hne : data ≠ fl') by (by eapply fresh_ne).
  eexists. split.
  { apply map_subseteq_spec. intros x o [Hx Hxo]%lookup_delete_Some.
    rewrite lookup_insert_ne by done. eapply lookup_weaken; eassumption. }
  split; [done|]. exists fl', ls'. split; [apply lookup_insert_eq|].
  split; [by apply not_elem_of_dom|]. split.
  { by rewrite lookup_insert_ne. }
  eapply Forall2_impl; [exact Hnews|]. intros l' d' [Hl' Hl'd]. split.
  - intros Hin. apply Hl'. by eapply (subseteq_dom h h1).
  - rewrite lookup_insert_ne; [done|]. intros <-. apply Hl'.
    apply elem_of_dom. by rewrite (lookup_weaken _ _ _ _ Hd Hsub1).
Qed.

(** The run of [state_attributes] on a store holding the entity and
    its forecast records: the old store is kept as it is, and the
    outcome is the one [expected] computes. *)
Lemma state_attributes_run self e ds h :
  entity_at h self e ds ->
  exists h',
    h ⊆ h' /\
    match expected e ds with
    | Ok (top, entries) =>
        exists data,
          state_attributes self h = (Ok data, h') /\
          returned h h' data top entries
    | Raise ex => state_attributes self h = (Raise ex, h')
    end.
Proof.
  intros [Hs Hfc]. unfold state_attributes, expected, top_attributes.
  rewrite bind_run, new_run. cbn beta iota.
  set (data := fresh (dom h)).
  assert (Hnew : h !! data = None) by apply fresh_unused.
  assert (Hsub : forall dk, h ⊆ <[data := ODict dk]> h).
  { intros dk. by apply insert_subseteq. }
  assert (Hs' : forall dk, <[data := ODict dk]> h !! self = Some (OEntity e)).
  { intros dk. eapply lookup_weaken; [exact Hs|apply Hsub]. }
  assert (Hd' : forall dk, <[data := ODict dk]> h !! data = Some (ODict dk)).
  { intros dk. apply lookup_insert_eq. }
  rewrite bind_run, (temperature_block_run _ _ _ _ _ (Hs' _) (Hd' _)).
  destruct (shown_temperature e) as [t|ex];
    [|rewrite result_bind_raise; eexists; split; [apply Hsub|reflexivity]].
  rewrite result_bind_ok, insert_insert_eq.
  rewrite bind_run, (humidity_block_run _ _ _ _ _ (Hs' _) (Hd' _)).
  destruct (shown_humidity e) as [hu|ex];
    [|rewrite result_bind_raise; eexists; split; [apply Hsub|reflexivity]].
  rewrite result_bind_ok, insert_insert_eq.
  rewrite bind_run, (ozone_block_run _ _ _ _ _ (Hs' _) (Hd' _)).
  destruct (shown_ozone e) as [oz|ex];
    [|rewrite result_bind_raise; eexists; split; [apply Hsub|reflexivity]].
  rewrite result_bind_ok, insert_insert_eq.
  rewrite bind_run, (pressure_block_run _ _ _ _ _ (Hs' _) (Hd' _)).
  destruct (shown_pressure e) as [p|ex];
    [|rewrite result_bind_raise; eexists; split; [apply Hsub|reflexivity]].
  rewrite result_bind_ok, insert_insert_eq.
  rewrite bind_run, (wind_bearing_block_run _ _ _ _ _ (Hs' _) (Hd' _)).
  destruct (shown_wind_bearing e) as [wb|ex];
    [|rewrite result_bind_raise; eexists; split; [apply Hsub|reflexivity]].
  rewrite result_bind_ok, insert_insert_eq.
  rewrite bind_run, (wind_speed_block_run _ _ _ _ _ (Hs' _) (Hd' _)).
  destruct (shown_wind_speed e) as [ws|ex];
    [|rewrite result_bind_raise; eexists; split; [apply Hsub|reflexivity]].
  rewrite result_bind_ok, insert_insert_eq.
  rewrite bind_run, (visibility_block_run _ _ _ _ _ (Hs' _) (Hd' _)).
  destruct (shown_visibility e) as [vi|ex];
    [|rewrite result_bind_raise; eexists; split; [apply Hsub|reflexivity]].
  rewrite !result_bind_ok, insert_insert_eq. cbn beta iota.
  match goal with
  | |- context [<[data := ODict ?d]> h] => set (top := d)
  end.
  destruct (forecast_block_run self data e top ds (<[data := ODict top]> h))
    as (h' & Hframe & Hrun).
  { apply Hs'. }
  { apply Hd'. }
  { destruct (forecast e); [|done]. eapply stored_forecast_weaken; [|done]. apply Hsub. }
  rewrite delete_insert_eq, delete_id in Hframe by done.
  exists h'. split; [done|]. rewrite bind_run.
  assert (Hdom : forall x, x ∉ dom (<[data := ODict top]> h) -> x ∉ dom h).
  { intros x Hx Hin. apply Hx. eapply (subseteq_dom h); [apply Hsub|done]. }
  destruct (forecast e) as [fl|].
  - destruct (converted_entries e ds) as [ds'|ex]; [|by rewrite Hrun].
    destruct Hrun as (-> & fl' & ls' & Hdata & Hfl' & Hlist & Hnews).
    rewrite result_bind_ok. exists data. split; [done|].
    split; [by apply not_elem_of_dom|]. exists fl', ls'.
    split; [done|]. split; [by apply Hdom|]. split; [done|].
    eapply Forall2_impl; [exact Hnews|]. intros l' d' [Hl' Hl'd].
    split; [by apply Hdom|done].
  - destruct Hrun as [-> ->]. exists data. split; [done|].
    split; [by apply not_elem_of_dom|]. apply Hd'.
Qed.

(** *** Consequences of [state_attributes_run] *)

Lemma state_attributes_frame self e ds h r h' :
  entity_at h self e ds -> state_attributes self h = (r, h') -> h ⊆ h'.
Proof.
  intros Hat Hrun. destruct (state_attributes_run _ _ _ _ Hat) as (h2 & Hsub & Hout).
  destruct (expected e ds) as [[top entries]|ex].
  - destruct Hout as (data & Hrun' & _). rewrite Hrun in Hrun'.
    by injection Hrun' as -> ->.
  - rewrite Hrun in Hout. by injection Hout as -> ->.
Qed.

Lemma state_attributes_ok self e ds h data h' :
  entity_at h self e ds ->
  state_attributes self h = (Ok data, h') ->
  exists top entries,
    expected e ds = Ok (top, entries) /\ returned h h' data top entries.
Proof.
  intros Hat Hrun. destruct (state_attributes_run _ _ _ _ Hat) as (h2 & Hsub & Hout).
  destruct (expected e ds) as [[top entries]|ex].
  - destruct Hout as (data' & Hrun' & Hret). exists top, entries.
    split; [done|]. rewrite Hrun in Hrun'. by injection Hrun' as -> ->.
  - rewrite Hrun in Hout. discriminate.
Qed.

Lemma state_attributes_returns self e ds h top entries :
  entity_at h self e ds ->
  expected e ds = Ok (top, entries) ->
  exists data h',
    state_attributes self h = (Ok data, h') /\ returned h h' data top entries.
Proof.
  intros Hat Hexp. destruct (state_attributes_run _ _ _ _ Hat) as (h2 & Hsub & Hout).
  rewrite Hexp in Hout. destruct Hout as (data & Hrun & Hret). eauto.
Qed.

Lemma returned_attribute h h' data top entries k :
  returned h h' data top entries -> k ≠ ATTR_FORECAST ->
  attribute h' data k = top !! k.
Proof.
  intros [_ Hret] Hk. unfold attribute. destruct entries as [ds'|].
  - destruct Hret as (fl' & ls' & -> & _). by rewrite lookup_insert_ne.
  - by rewrite Hret.
Qed.

Lemma returned_forecast_records h h' data top ds' :
  returned h h' data top (Some ds') -> forecast_records h' data = Some ds'.
Proof.
  intros [_ (fl' & ls' & Hdata & _ & Hlist & Hnews)].
  unfold forecast_records, attribute. rewrite Hdata, lookup_insert_eq, Hlist.
  apply mapM_Some, Forall2_fmap_l.
  eapply Forall2_impl; [exact Hnews|]. intros l' d' [_ Hl']. simpl. by rewrite Hl'.
Qed.

Lemma returned_objects_new h h' data top entries :
  top !! ATTR_FORECAST = None ->
  returned h h' data top entries ->
  Forall (fun l => l ∉ dom h) (result_objects h' data).
Proof.
  intros Htop [Hdata Hret]. unfold result_objects, attribute.
  constructor; [done|]. destruct entries as [ds'|].
  - destruct Hret as (fl' & ls' & Hd & Hfl' & Hlist & Hnews).
    rewrite Hd, lookup_insert_eq, Hlist. constructor; [done|].
    clear -Hnews. revert ds' Hnews.
    induction ls' as [|l' ls' IH]; intros ds' Hnews; [constructor|].
    apply Forall2_cons_inv_l in Hnews as (d' & ds0 & [Hl' _] & Hnews & ->).
    cbn. constructor; [done|]. by eapply IH.
  - rewrite Hret, Htop. constructor.
Qed.

Lemma lookup_store_opt_ne k k' (v : option (value num)) d :
  k ≠ k' -> store_opt k v d !! k' = d !! k'.
Proof. intros Hk. destruct v; simpl; [by rewrite lookup_insert_ne|done]. Qed.

Lemma lookup_store_opt_eq k (v : option (value num)) d :
  d !! k = None -> store_opt k v d !! k = v.
Proof. intros Hk. destruct v; simpl; [by rewrite lookup_insert_eq|done]. Qed.

(** The seven attributes of the dict that [top_attributes] builds. *)
Lemma top_attributes_inv e top :
  top_attributes e = Ok top ->
  shown_temperature e = Ok (top !! ATTR_WEATHER_TEMPERATURE) /\
  shown_humidity e = Ok (top !! ATTR_WEATHER_HUMIDITY) /\
  shown_ozone e = Ok (top !! ATTR_WEATHER_OZONE) /\
  shown_pressure e = Ok (top !! ATTR_WEATHER_PRESSURE) /\
  shown_wind_bearing e = Ok (top !! ATTR_WEATHER_WIND_BEARING) /\
  shown_wind_speed e = Ok (top !! ATTR_WEATHER_WIND_SPEED) /\
  shown_visibility e = Ok (top !! ATTR_WEATHER_VISIBILITY) /\
  top !! ATTR_FORECAST = None.
Proof.
  unfold top_attributes. intros Htop.
  destruct (shown_temperature e) as [t|]; [|done].
  destruct (shown_humidity e) as [hu|]; [|done].
  destruct (shown_ozone e) as [oz|]; [|done].
  destruct (shown_pressure e) as [p|]; [|done].
  destruct (shown_wind_bearing e) as [wb|]; [|done].
  destruct (shown_wind_speed e) as [ws|]; [|done].
  destruct (shown_visibility e) as [vi|]; [|done].
  rewrite !result_bind_ok in Htop. injection Htop as <-.
  repeat split; f_equal;
    repeat first
      [ rewrite lookup_store_opt_ne by done
      | rewrite lookup_store_opt_eq; [reflexivity|] ];
    by rewrite ?lookup_empty.
Qed.

Lemma expected_inv e ds top entries :
  expected e ds = Ok (top, entries) ->
  top_attributes e = Ok top /\
  match forecast e with
  | Some _ => exists ds', converted_entries e ds = Ok ds' /\ entries = Some ds'
  | None => entries = None
  end.
Proof.
  unfold expected. destruct (top_attributes e) as [top'|]; [|done].
  rewrite result_bind_ok. destruct (forecast e).
  - destruct (converted_entries e ds) as [ds'|]; [|done].
    rewrite result_bind_ok. intros [= <- <-]. eauto.
  - intros [= <- <-]. done.
Qed.

Lemma converted_entries_inv e ds ds' :
  converted_entries e ds = Ok ds' ->
  Forall2 (fun d d' => converted_entry e d = Ok d') ds ds'.
Proof.
  revert ds'. induction ds as [|d ds IH]; intros ds'; simpl.
  - intros [= <-]. constructor.
  - destruct (converted_entry e d) as [d'|] eqn:Hd; [|done].
    rewrite result_bind_ok.
    destruct (converted_entries e ds) as [rest|]; [|done].
    rewrite result_bind_ok. intros [= <-]. constructor; auto.
Qed.

Lemma converted_field_inv unit conv k d d' :
  converted_field unit conv k d = Ok d' ->
  field_shown unit (fun v u c => conv v u = Ok c) k d d' /\
  (forall k', k' ≠ k -> d' !! k' = d !! k').
Proof.
  unfold converted_field, field_shown.
  destruct (d !! k) as [v|] eqn:Hk; simpl.
  - destruct (is_None v) eqn:Hv.
    + intros [= <-]. split; [|done]. destruct v; try done.
      by destruct unit.
    + destruct unit as [u|]; [|by intros [= <-]].
      destruct (conv v u) as [c|] eqn:Hc; [|done].
      rewrite result_bind_ok. intros [= <-]. split.
      * exists c. by rewrite lookup_insert_eq.
      * intros k' Hk'. by rewrite lookup_insert_ne.
  - intros [= <-]. done.
Qed.

Lemma field_shown_transport unit rule k d0 d d1 d' :
  d !! k = d0 !! k -> d' !! k = d1 !! k ->
  field_shown unit rule k d d1 -> field_shown unit rule k d0 d'.
Proof. unfold field_shown. by intros <- ->. Qed.

Lemma field_shown_impl unit (rule rule' : value num -> string -> value num -> Prop)
    k d d' :
  (forall v u r, rule v u r -> rule' v u r) ->
  field_shown unit rule k d d' -> field_shown unit rule' k d d'.
Proof.
  intros Himpl. unfold field_shown.
  destruct (d !! k) as [v|]; [|done]. destruct unit as [u|]; [|done].
  destruct (is_None v); [done|]. intros (r & Hr & Hk). eauto.
Qed.

Lemma converted_entry_inv e d d' :
  converted_entry e d = Ok d' ->
  field_shown (temperature_unit e)
    (fun v u r => convert_temperature e v u = Ok r) ATTR_FORECAST_TEMP d d' /\
  field_shown (temperature_unit e)
    (fun v u r => convert_temperature e v u = Ok r) ATTR_FORECAST_TEMP_LOW d d' /\
  field_shown (pressure_unit e)
    (fun v u r => convert_pressure e v u = Ok r) ATTR_FORECAST_PRESSURE d d' /\
  field_shown (wind_speed_unit e)
    (fun v u r => convert_wind_speed e v u = Ok r) ATTR_FORECAST_WIND_SPEED d d' /\
  field_shown (precipitation_unit e)
    (fun v u r => convert_precipitation e v u = Ok r)
    ATTR_FORECAST_PRECIPITATION d d' /\
  (forall k, k ∉ converted_keys -> d' !! k = d !! k).
Proof.
  unfold converted_entry. intros Hd'.
  destruct (converted_field _ _ ATTR_FORECAST_TEMP d) as [d1|] eqn:H1; [|done].
  rewrite result_bind_ok in Hd'.
  destruct (converted_field _ _ ATTR_FORECAST_TEMP_LOW d1) as [d2|] eqn:H2; [|done].
  rewrite result_bind_ok in Hd'.
  destruct (converted_field _ _ ATTR_FORECAST_PRESSURE d2) as [d3|] eqn:H3; [|done].
  rewrite result_bind_ok in Hd'.
  destruct (converted_field _ _ ATTR_FORECAST_WIND_SPEED d3) as [d4|] eqn:H4; [|done].
  rewrite result_bind_ok in Hd'.
  apply converted_field_inv in H1 as [F1 O1], H2 as [F2 O2], H3 as [F3 O3],
    H4 as [F4 O4], Hd' as [F5 O5].
  repeat split.
  - eapply field_shown_transport; [| |exact F1]; [done|].
    by rewrite O5, O4, O3, O2.
  - eapply field_shown_transport; [| |exact F2]; [by rewrite O1|].
    by rewrite O5, O4, O3.
  - eapply field_shown_transport; [| |exact F3]; [by rewrite O2, O1|].
    by rewrite O5, O4.
  - eapply field_shown_transport; [| |exact F4]; [by rewrite O3, O2, O1|].
    by rewrite O5.
  - eapply field_shown_transport; [| |exact F5]; [|done].
    by rewrite O4, O3, O2, O1.
  - intros k Hk. unfold converted_keys in Hk.
    rewrite !not_elem_of_cons in Hk. destruct Hk as (?&?&?&?&?&_).
    by rewrite O5, O4, O3, O2, O1.
Qed.

(** *** The displayed unit *)

Lemma unit_tables quantity :
  quantity ∈ quantities ->
  exists metric imperial units,
    METRIC_UNITS !! quantity = Some metric /\
    IMPERIAL_UNITS !! quantity = Some imperial /\
    VALID_UNITS !! quantity = Some units.
Proof.
  unfold quantities. rewrite !elem_of_cons, elem_of_nil.
  intros [->|[->|[->|[->|[->|[]]]]]]; do 3 eexists; repeat split; reflexivity.
Qed.

(** C1 -- For each of the five quantities that have a unit, the
    displayed unit is the default of the system profile (the metric or
    the imperial table), unless the override map is present, has an
    entry for the quantity, and that entry is a member of the
    quantity's tuple of valid units: then it is the override unit.  An
    override outside the valid units is ignored and nothing is raised.
    The unit tuples come from outside the excerpt; they are assumed
    not to contain the empty name. *)
Theorem displayed_unit_resolution e quantity :
  quantity ∈ quantities ->
  (forall units, VALID_UNITS !! quantity = Some units -> "" ∉ units) ->
  exists default units,
    (if is_metric e then METRIC_UNITS else IMPERIAL_UNITS) !! quantity
      = Some default /\
    VALID_UNITS !! quantity = Some units /\
    displayed_unit e quantity =
      Ok match _option_units_of_measurement e with
         | Some options =>
             match options !! quantity with
             | Some (Some unit) =>
                 if bool_decide (unit ∈ units) then unit else default
             | _ => default
             end
         | None => default
         end.
Proof.
  intros Hq Hnamed.
  destruct (unit_tables quantity Hq) as (metric & imperial & units & Hm & Hi & Hv).
  specialize (Hnamed units Hv).
  exists (if is_metric e then metric else imperial), units.
  split; [by destruct (is_metric e)|]. split; [done|].
  unfold displayed_unit, preferred_units.
  assert ((if is_metric e then METRIC_UNITS else IMPERIAL_UNITS) !! quantity
          = Some (if is_metric e then metric else imperial)) as ->
    by (by destruct (is_metric e)).
  destruct (_option_units_of_measurement e) as [options|]; [|done].
  destruct (options !! quantity) as [[unit|]|]; simpl. 2,3: reflexivity.
  unfold truthy. rewrite Hv.
  destruct (String.eqb_spec unit "") as [->|Hne]; simpl.
  - by rewrite bool_decide_eq_false_2.
  - by destruct (bool_decide (unit ∈ units)).
Qed.

(** *** The attributes and the forecast of a run that returns *)

Lemma run_attributes self e ds h data h' :
  entity_at h self e ds ->
  state_attributes self h = (Ok data, h') ->
  shown_temperature e = Ok (attribute h' data ATTR_WEATHER_TEMPERATURE) /\
  shown_humidity e = Ok (attribute h' data ATTR_WEATHER_HUMIDITY) /\
  shown_ozone e = Ok (attribute h' data ATTR_WEATHER_OZONE) /\
  shown_pressure e = Ok (attribute h' data ATTR_WEATHER_PRESSURE) /\
  shown_wind_bearing e = Ok (attribute h' data ATTR_WEATHER_WIND_BEARING) /\
  shown_wind_speed e = Ok (attribute h' data ATTR_WEATHER_WIND_SPEED) /\
  shown_visibility e = Ok (attribute h' data ATTR_WEATHER_VISIBILITY).
Proof.
  intros Hat Hrun.
  destruct (state_attributes_ok _ _ _ _ _ _ Hat Hrun) as (top & entries & Hexp & Hret).
  apply expected_inv in Hexp as [Htop _].
  apply top_attributes_inv in Htop as (?&?&?&?&?&?&?&_).
  rewrite !(returned_attribute _ _ _ _ _ _ Hret) by done. done.
Qed.

Lemma run_records self e ds h data h' :
  entity_at h self e ds ->
  state_attributes self h = (Ok data, h') ->
  forecast e ≠ None ->
  exists ds',
    forecast_records h' data = Some ds' /\
    Forall2 (fun d d' => converted_entry e d = Ok d') ds ds'.
Proof.
  intros Hat Hrun Hfc.
  destruct (state_attributes_ok _ _ _ _ _ _ Hat Hrun) as (top & entries & Hexp & Hret).
  apply expected_inv in Hexp as [_ Hentries].
  destruct (forecast e); [|done].
  destruct Hentries as (ds' & Hds' & ->). exists ds'. split.
  - by eapply returned_forecast_records.
  - by apply converted_entries_inv.
Qed.

(** The conversion methods follow the rounding rules. *)

Lemma convert_temperature_rule e v u r :
  convert_temperature e v u = Ok r -> temperature_rule e v u r.
Proof.
  unfold convert_temperature, temperature_rule.
  destruct (displayed_unit e ATTR_WEATHER_TEMPERATURE) as [displayed|]; [|done].
  rewrite result_bind_ok.
  destruct (util.convert temperature_util v u displayed) as [c|] eqn:Hc; [|done].
  rewrite result_bind_ok. intros Hr. by exists displayed, c.
Qed.

Lemma convert_pressure_rule e v u r :
  convert_pressure e v u = Ok r ->
  two_decimals_rule e ATTR_WEATHER_PRESSURE pressure_util v u r.
Proof.
  unfold convert_pressure, two_decimals_rule.
  destruct (displayed_unit e ATTR_WEATHER_PRESSURE) as [displayed|]; [|done].
  rewrite result_bind_ok.
  destruct (util.convert pressure_util v u displayed) as [c|] eqn:Hc; [|done].
  rewrite result_bind_ok. intros Hr. by exists displayed, c.
Qed.

Lemma convert_wind_speed_rule e v u r :
  convert_wind_speed e v u = Ok r ->
  two_decimals_rule e ATTR_WEATHER_WIND_SPEED speed_util v u r.
Proof.
  unfold convert_wind_speed, two_decimals_rule.
  destruct (displayed_unit e ATTR_WEATHER_WIND_SPEED) as [displayed|]; [|done].
  rewrite result_bind_ok.
  destruct (util.convert speed_util v u displayed) as [c|] eqn:Hc; [|done].
  rewrite result_bind_ok. intros Hr. by exists displayed, c.
Qed.

Lemma convert_visibility_rule e v u r :
  convert_visibility e v u = Ok r ->
  two_decimals_rule e ATTR_WEATHER_VISIBILITY distance_util v u r.
Proof.
  unfold convert_visibility, two_decimals_rule.
  destruct (displayed_unit e ATTR_WEATHER_VISIBILITY) as [displayed|]; [|done].
  rewrite result_bind_ok.
  destruct (util.convert distance_util v u displayed) as [c|] eqn:Hc; [|done].
  rewrite result_bind_ok. intros Hr. by exists displayed, c.
Qed.

Lemma convert_precipitation_rule e v u r :
  convert_precipitation e v u = Ok r ->
  two_decimals_rule e ATTR_WEATHER_PRECIPITATION distance_util v u r.
Proof.
  unfold convert_precipitation, two_decimals_rule.
  destruct (displayed_unit e ATTR_WEATHER_PRECIPITATION) as [displayed|]; [|done].
  rewrite result_bind_ok.
  destruct (util.convert distance_util v u displayed) as [c|] eqn:Hc; [|done].
  rewrite result_bind_ok. intros Hr. by exists displayed, c.
Qed.

(** The five fields of a converted record, by the rounding rules. *)
Lemma converted_entry_rules e d d' :
  converted_entry e d = Ok d' ->
  field_shown (temperature_unit e) (temperature_rule e) ATTR_FORECAST_TEMP d d' /\
  field_shown (temperature_unit e) (temperature_rule e) ATTR_FORECAST_TEMP_LOW d d' /\
  field_shown (pressure_unit e)
    (two_decimals_rule e ATTR_WEATHER_PRESSURE pressure_util)
    ATTR_FORECAST_PRESSURE d d' /\
  field_shown (wind_speed_unit e)
    (two_decimals_rule e ATTR_WEATHER_WIND_SPEED speed_util)
    ATTR_FORECAST_WIND_SPEED d d' /\
  field_shown (precipitation_unit e)
    (two_decimals_rule e ATTR_WEATHER_PRECIPITATION distance_util)
    ATTR_FORECAST_PRECIPITATION d d' /\
  (forall k, k ∉ converted_keys -> d' !! k = d !! k).
Proof.
  intros (F1 & F2 & F3 & F4 & F5 & Hrest)%converted_entry_inv.
  repeat split; [ | | | | |done];
    (eapply field_shown_impl; [|eassumption]);
    eauto using convert_temperature_rule, convert_pressure_rule,
      convert_wind_speed_rule, convert_precipitation_rule.
Qed.

(** A field of a record that holds a value other than [None]. *)
Lemma field_shown_value unit rule k d d' v u :
  field_shown unit rule k d d' ->
  unit = Some u -> d !! k = Some v -> v ≠ VNone ->
  exists r, rule v u r /\ d' !! k = Some r.
Proof.
  unfold field_shown. intros Hf -> Hk Hv. rewrite Hk in Hf.
  by destruct v.
Qed.

(** A field of a record that is [None] or missing stays so. *)
Lemma field_shown_null unit rule k d d' :
  field_shown unit rule k d d' ->
  default VNone (d !! k) = VNone -> d' !! k = d !! k.
Proof.
  unfold field_shown. destruct (d !! k) as [v|]; [|done]. simpl.
  intros Hf ->. by destruct unit.
Qed.

Lemma converted_entry_null e d d' k :
  converted_entry e d = Ok d' ->
  default VNone (d !! k) = VNone -> d' !! k = d !! k.
Proof.
  intros (F1 & F2 & F3 & F4 & F5 & Hrest)%converted_entry_rules Hk.
  destruct (decide (k ∈ converted_keys)) as [Hin|Hout]; [|by apply Hrest].
  unfold converted_keys in Hin. rewrite !elem_of_cons, elem_of_nil in Hin.
  destruct Hin as [->|[->|[->|[->|[->|[]]]]]]; by eapply field_shown_null.
Qed.

(** The entity's own attributes, by the rounding rules. *)
Lemma run_top_rules self e ds h data h' :
  entity_at h self e ds ->
  state_attributes self h = (Ok data, h') ->
  (forall t u,
      temperature e = Some t -> temperature_unit e = Some u ->
      exists r,
        temperature_rule e (VNum t) u r /\
        attribute h' data ATTR_WEATHER_TEMPERATURE = Some r) /\
  (forall p u,
     pressure e = Some p -> pressure_unit e = Some u ->
     exists c r,
       two_decimals_rule e ATTR_WEATHER_PRESSURE pressure_util (VNum p) u c /\
       round_ndigits c ROUNDING_PRECISION = Ok r /\
       attribute h' data ATTR_WEATHER_PRESSURE = Some r) /\
  (forall w u,
     wind_speed e = Some w -> wind_speed_unit e = Some u ->
     exists r,
       two_decimals_rule e ATTR_WEATHER_WIND_SPEED speed_util (VNum w) u r /\
       attribute h' data ATTR_WEATHER_WIND_SPEED = Some r) /\
  (forall x u,
     visibility e = Some x -> visibility_unit e = Some u ->
     exists r,
       two_decimals_rule e ATTR_WEATHER_VISIBILITY distance_util (VNum x) u r /\
       attribute h' data ATTR_WEATHER_VISIBILITY = Some r).
Proof.
  intros Hat Hrun.
  destruct (run_attributes _ _ _ _ _ _ Hat Hrun)
    as (Ht & _ & _ & Hp & _ & Hw & Hv).
  repeat split.
  - intros t u Hte Hu. unfold shown_temperature in Ht. rewrite Hte, Hu in Ht.
    destruct (convert_temperature e (VNum t) u) as [r|] eqn:Hr; [|done].
    rewrite result_bind_ok in Ht. injection Ht as <-.
    exists r. split; [by apply convert_temperature_rule|done].
  - intros p u Hpe Hu. unfold shown_pressure in Hp. rewrite Hpe, Hu in Hp.
    destruct (convert_pressure e (VNum p) u) as [c|] eqn:Hc; [|done].
    rewrite result_bind_ok in Hp.
    destruct (round_ndigits c ROUNDING_PRECISION) as [r|] eqn:Hr; [|done].
    rewrite result_bind_ok in Hp. injection Hp as <-.
    exists c, r. split; [by apply convert_pressure_rule|done].
  - intros w u Hwe Hu. unfold shown_wind_speed in Hw. rewrite Hwe, Hu in Hw.
    destruct (convert_wind_speed e (VNum w) u) as [r|] eqn:Hr; [|done].
    rewrite result_bind_ok in Hw. injection Hw as <-.
    exists r. split; [by apply convert_wind_speed_rule|done].
  - intros x u Hxe Hu. unfold shown_visibility in Hv. rewrite Hxe, Hu in Hv.
    destruct (convert_visibility e (VNum x) u) as [r|] eqn:Hr; [|done].
    rewrite result_bind_ok in Hv. injection Hv as <-.
    exists r. split; [by apply convert_visibility_rule|done].
Qed.

(** Same-unit conversion by a helper that is as the spec says. *)
Lemma spec_convert_same_unit valid_units rescale (v c : value num) u :
  spec_convert valid_units rescale v u u = Ok c -> c = v.
Proof.
  unfold spec_convert.
  destruct (bool_decide (u ∈ valid_units) && bool_decide (u ∈ valid_units));
    [|done].
  rewrite bool_decide_eq_true_2 by done. by intros [= ->].
Qed.

Lemma temperature_rule_same_unit e v u r :
  helper_as_specified temperature_util ->
  displayed_unit e ATTR_WEATHER_TEMPERATURE = Ok u ->
  temperature_rule e v u r ->
  (if bool_decide (u = TEMP_CELSIUS) then round_ndigits v 1 else round v) = Ok r.
Proof.
  intros [rescale Hspec] Hu (displayed & c & Hdisp & Hconv & Hround).
  rewrite Hu in Hdisp. injection Hdisp as <-.
  rewrite Hspec in Hconv. by apply spec_convert_same_unit in Hconv as ->.
Qed.

Lemma two_decimals_rule_same_unit e quantity helper v u r :
  helper_as_specified helper ->
  displayed_unit e quantity = Ok u ->
  two_decimals_rule e quantity helper v u r ->
  round_ndigits v ROUNDING_PRECISION = Ok r.
Proof.
  intros [rescale Hspec] Hu (displayed & c & Hdisp & Hconv & Hround).
  rewrite Hu in Hdisp. injection Hdisp as <-.
  rewrite Hspec in Hconv. by apply spec_convert_same_unit in Hconv as ->.
Qed.

(** *** The claims about [state_attributes] *)

(** C3 -- A temperature that is reported together with its native
    unit is shown converted to the displayed temperature unit and
    rounded to one decimal when that unit is Celsius, to an integer
    otherwise ([temperature_rule]).  This holds for the entity's own
    temperature and for the [temperature] and [templow] fields of
    every forecast record. *)
Theorem temperature_shown self e ds h data h' :
  entity_at h self e ds ->
  state_attributes self h = (Ok data, h') ->
  (forall t u,
      temperature e = Some t -> temperature_unit e = Some u ->
      exists r,
        temperature_rule e (VNum t) u r /\
        attribute h' data ATTR_WEATHER_TEMPERATURE = Some r) /\
  (forall u,
      temperature_unit e = Some u -> forecast e ≠ None ->
      exists ds',
        forecast_records h' data = Some ds' /\
        Forall2
          (fun d d' =>
             forall k v,
               k ∈ [ATTR_FORECAST_TEMP; ATTR_FORECAST_TEMP_LOW] ->
               d !! k = Some v -> v ≠ VNone ->
               exists r, temperature_rule e v u r /\ d' !! k = Some r)
          ds ds').
Proof.
  intros Hat Hrun. split.
  - by destruct (run_top_rules _ _ _ _ _ _ Hat Hrun) as (Ht & _).
  - intros u Hu Hfc.
    destruct (run_records _ _ _ _ _ _ Hat Hrun Hfc) as (ds' & Hds' & Hall).
    exists ds'. split; [done|].
    eapply Forall2_impl; [exact Hall|]. intros d d' Hd k v Hk Hv Hnn.
    apply converted_entry_rules in Hd as (F1 & F2 & _).
    rewrite !elem_of_cons, elem_of_nil in Hk.
    destruct Hk as [->|[->|[]]]; by eapply field_shown_value.
Qed.

(** C4 -- A pressure, wind speed or visibility that is reported
    together with its native unit is shown converted to the displayed
    unit of its quantity and rounded to two decimals
    ([two_decimals_rule]); so are the [pressure], [wind_speed] and
    [precipitation] fields of every forecast record (precipitation
    occurs in forecast records only).  The entity's own pressure is
    rounded a second time, which changes nothing when [round(_, 2)]
    is idempotent. *)
Theorem two_decimals_shown self e ds h data h' :
  entity_at h self e ds ->
  state_attributes self h = (Ok data, h') ->
  (round_idempotent ->
   forall p u,
     pressure e = Some p -> pressure_unit e = Some u ->
     exists r,
       two_decimals_rule e ATTR_WEATHER_PRESSURE pressure_util (VNum p) u r /\
       attribute h' data ATTR_WEATHER_PRESSURE = Some r) /\
  (forall w u,
     wind_speed e = Some w -> wind_speed_unit e = Some u ->
     exists r,
       two_decimals_rule e ATTR_WEATHER_WIND_SPEED speed_util (VNum w) u r /\
       attribute h' data ATTR_WEATHER_WIND_SPEED = Some r) /\
  (forall x u,
     visibility e = Some x -> visibility_unit e = Some u ->
     exists r,
       two_decimals_rule e ATTR_WEATHER_VISIBILITY distance_util (VNum x) u r /\
       attribute h' data ATTR_WEATHER_VISIBILITY = Some r) /\
  (forecast e ≠ None ->
   exists ds',
     forecast_records h' data = Some ds' /\
     Forall2
       (fun d d' =>
          (forall v u,
             pressure_unit e = Some u ->
             d !! ATTR_FORECAST_PRESSURE = Some v -> v ≠ VNone ->
             exists r,
               two_decimals_rule e ATTR_WEATHER_PRESSURE pressure_util v u r /\
               d' !! ATTR_FORECAST_PRESSURE = Some r) /\
          (forall v u,
             wind_speed_unit e = Some u ->
             d !! ATTR_FORECAST_WIND_SPEED = Some v -> v ≠ VNone ->
             exists r,
               two_decimals_rule e ATTR_WEATHER_WIND_SPEED speed_util v u r /\
               d' !! ATTR_FORECAST_WIND_SPEED = Some r) /\
          (forall v u,
             precipitation_unit e = Some u ->
             d !! ATTR_FORECAST_PRECIPITATION = Some v -> v ≠ VNone ->
             exists r,
               two_decimals_rule e ATTR_WEATHER_PRECIPITATION distance_util v u r /\
               d' !! ATTR_FORECAST_PRECIPITATION = Some r))
       ds ds').
Proof.
  intros Hat Hrun.
  destruct (run_top_rules _ _ _ _ _ _ Hat Hrun) as (_ & Hp & Hw & Hv).
  split; [|split; [done|split; [done|]]].
  - intros Hidem p u Hpe Hu.
    destruct (Hp p u Hpe Hu) as (c & r & Hrule & Hround & Hattr).
    destruct Hrule as (displayed & c0 & Hdisp & Hconv & Hc).
    rewrite (Hidem _ _ Hc) in Hround. injection Hround as <-.
    exists c. split; [|done]. by exists displayed, c0.
  - intros Hfc.
    destruct (run_records _ _ _ _ _ _ Hat Hrun Hfc) as (ds' & Hds' & Hall).
    exists ds'. split; [done|].
    eapply Forall2_impl; [exact Hall|]. intros d d' Hd.
    apply converted_entry_rules in Hd as (_ & _ & F3 & F4 & F5 & _).
    repeat split; intros v u Hu Hk Hnn; by eapply field_shown_value.
Qed.

(** C5 -- A reported humidity is shown rounded to an integer and is
    not converted; a reported wind bearing, be it a number or a string,
    and a reported ozone value are shown as they are.  The wind bearing
    of a forecast record is passed on as it is, too. *)
Theorem humidity_bearing_ozone_shown self e ds h data h' :
  entity_at h self e ds ->
  state_attributes self h = (Ok data, h') ->
  (forall x,
     humidity e = Some x ->
     exists r,
       round (VNum x) = Ok r /\
       attribute h' data ATTR_WEATHER_HUMIDITY = Some r) /\
  (forall x,
     wind_bearing e = Some (inl x) ->
     attribute h' data ATTR_WEATHER_WIND_BEARING = Some (VNum x)) /\
  (forall s,
     wind_bearing e = Some (inr s) ->
     attribute h' data ATTR_WEATHER_WIND_BEARING = Some (VStr s)) /\
  (forall x,
     ozone e = Some x ->
     attribute h' data ATTR_WEATHER_OZONE = Some (VNum x)) /\
  (forecast e ≠ None ->
   exists ds',
     forecast_records h' data = Some ds' /\
     Forall2
       (fun d d' =>
          d' !! ATTR_FORECAST_WIND_BEARING = d !! ATTR_FORECAST_WIND_BEARING)
       ds ds').
Proof.
  intros Hat Hrun.
  destruct (run_attributes _ _ _ _ _ _ Hat Hrun)
    as (_ & Hhu & Hoz & _ & Hwb & _ & _).
  repeat split.
  - intros x Hx. unfold shown_humidity in Hhu. rewrite Hx in Hhu.
    destruct (round (VNum x)) as [r|]; [|done].
    rewrite result_bind_ok in Hhu. injection Hhu as <-. by exists r.
  - intros x Hb. unfold shown_wind_bearing in Hwb. rewrite Hb in Hwb.
    by injection Hwb as <-.
  - intros s Hb. unfold shown_wind_bearing in Hwb. rewrite Hb in Hwb.
    by injection Hwb as <-.
  - intros x Hx. unfold shown_ozone in Hoz. rewrite Hx in Hoz.
    by injection Hoz as <-.
  - intros Hfc.
    destruct (run_records _ _ _ _ _ _ Hat Hrun Hfc) as (ds' & Hds' & Hall).
    exists ds'. split; [done|].
    eapply Forall2_impl; [exact Hall|]. intros d d' Hd.
    apply converted_entry_rules in Hd as (_ & _ & _ & _ & _ & Hrest).
    apply Hrest. unfold converted_keys. rewrite !not_elem_of_cons.
    repeat split; try done. apply not_elem_of_nil.
Qed.

(** C9 -- A reported pressure without a native pressure unit is shown
    unconverted but still rounded to two decimals, while a reported
    temperature, wind speed or visibility without its native unit is
    shown exactly as reported. *)
Theorem unitless_values_shown self e ds h data h' :
  entity_at h self e ds ->
  state_attributes self h = (Ok data, h') ->
  (forall p,
     pressure e = Some p -> pressure_unit e = None ->
     exists r,
       round_ndigits (VNum p) ROUNDING_PRECISION = Ok r /\
       attribute h' data ATTR_WEATHER_PRESSURE = Some r) /\
  (forall t,
     temperature e = Some t -> temperature_unit e = None ->
     attribute h' data ATTR_WEATHER_TEMPERATURE = Some (VNum t)) /\
  (forall w,
     wind_speed e = Some w -> wind_speed_unit e = None ->
     attribute h' data ATTR_WEATHER_WIND_SPEED = Some (VNum w)) /\
  (forall x,
     visibility e = Some x -> visibility_unit e = None ->
     attribute h' data ATTR_WEATHER_VISIBILITY = Some (VNum x)).
Proof.
  intros Hat Hrun.
  destruct (run_attributes _ _ _ _ _ _ Hat Hrun)
    as (Ht & _ & _ & Hp & _ & Hw & Hv).
  repeat split.
  - intros p Hpe Hu. unfold shown_pressure in Hp. rewrite Hpe, Hu in Hp.
    rewrite result_bind_ok in Hp.
    destruct (round_ndigits (VNum p) ROUNDING_PRECISION) as [r|]; [|done].
    rewrite result_bind_ok in Hp. injection Hp as <-. by exists r.
  - intros t Hte Hu. unfold shown_temperature in Ht. rewrite Hte, Hu in Ht.
    by injection Ht as <-.
  - intros w Hwe Hu. unfold shown_wind_speed in Hw. rewrite Hwe, Hu in Hw.
    by injection Hw as <-.
  - intros x Hxe Hu. unfold shown_visibility in Hv. rewrite Hxe, Hu in Hv.
    by injection Hv as <-.
Qed.

Lemma converted_field_null unit conv k d :
  default VNone (d !! k) = VNone -> converted_field unit conv k d = Ok d.
Proof. intros Hk. unfold converted_field. by rewrite Hk. Qed.

Lemma converted_entry_missing e d d' k :
  converted_entry e d = Ok d' -> d !! k = None -> d' !! k = None.
Proof.
  intros Hd Hk. rewrite (converted_entry_null _ _ _ _ Hd); [done|].
  by rewrite Hk.
Qed.

(** C6 -- The forecast of the result has one record per stored record,
    in the same order, and each is the conversion of its own stored
    record alone ([converted_entry]): its five convertible fields
    follow the rounding rules with the displayed units of the entity
    (the units [displayed_unit] resolves for the entity's own
    attributes) and the entity's native units, every other field is
    passed on as it is, and a field the stored record lacks is lacking
    in the result. *)
Theorem forecast_entries_converted self e ds h data h' :
  entity_at h self e ds ->
  state_attributes self h = (Ok data, h') ->
  forecast e ≠ None ->
  exists ds',
    forecast_records h' data = Some ds' /\
    Forall2
      (fun d d' =>
         converted_entry e d = Ok d' /\
         field_shown (temperature_unit e) (temperature_rule e)
           ATTR_FORECAST_TEMP d d' /\
         field_shown (temperature_unit e) (temperature_rule e)
           ATTR_FORECAST_TEMP_LOW d d' /\
         field_shown (pressure_unit e)
           (two_decimals_rule e ATTR_WEATHER_PRESSURE pressure_util)
           ATTR_FORECAST_PRESSURE d d' /\
         field_shown (wind_speed_unit e)
           (two_decimals_rule e ATTR_WEATHER_WIND_SPEED speed_util)
           ATTR_FORECAST_WIND_SPEED d d' /\
         field_shown (precipitation_unit e)
           (two_decimals_rule e ATTR_WEATHER_PRECIPITATION distance_util)
           ATTR_FORECAST_PRECIPITATION d d' /\
         (forall k, k ∉ converted_keys -> d' !! k = d !! k) /\
         (forall k, d !! k = None -> d' !! k = None))
      ds ds'.
Proof.
  intros Hat Hrun Hfc.
  destruct (run_records _ _ _ _ _ _ Hat Hrun Hfc) as (ds' & Hds' & Hall).
  exists ds'. split; [done|].
  eapply Forall2_impl; [exact Hall|]. intros d d' Hd. cbn beta in Hd.
  split; [done|].
  destruct (converted_entry_rules _ _ _ Hd) as (F1 & F2 & F3 & F4 & F5 & Hrest).
  repeat split; try done.
  intros k Hk. by eapply converted_entry_missing.
Qed.

(** C8 -- Whatever the outcome of [state_attributes], every object of
    the store it started from is unchanged afterwards: the entity with
    all its native attributes, the stored forecast list and each
    stored forecast record.  When it returns, the objects the result
    is made of (the attribute dict, the forecast list and its records)
    did not exist before. *)
Theorem state_attributes_leaves_store self e ds h r h' :
  entity_at h self e ds ->
  state_attributes self h = (r, h') ->
  (forall l o, h !! l = Some o -> h' !! l = Some o) /\
  entity_at h' self e ds /\
  (forall data,
     r = Ok data -> Forall (fun l => l ∉ dom h) (result_objects h' data)).
Proof.
  intros Hat Hrun.
  pose proof (state_attributes_frame _ _ _ _ _ _ Hat Hrun) as Hsub.
  split; [|split].
  - intros l o Hl. eapply lookup_weaken; eassumption.
  - destruct Hat as [Hs Hfc]. split; [eapply lookup_weaken; eassumption|].
    destruct (forecast e); [|done]. by eapply stored_forecast_weaken.
  - intros data ->.
    destruct (state_attributes_ok _ _ _ _ _ _ Hat Hrun)
      as (top & entries & Hexp & Hret).
    apply expected_inv in Hexp as [Htop _].
    apply top_attributes_inv in Htop as (_&_&_&_&_&_&_&Htop).
    by eapply returned_objects_new.
Qed.

(** A block of [state_attributes] whose quantity is [None] returns at
    once and leaves the store as it is, and so does the conversion of a
    forecast field that is [None] or missing. *)
Lemma null_blocks_skip self e h :
  h !! self = Some (OEntity e) ->
  (forall data,
     (temperature e = None -> temperature_block self data h = (Ok tt, h)) /\
     (humidity e = None -> humidity_block self data h = (Ok tt, h)) /\
     (ozone e = None -> ozone_block self data h = (Ok tt, h)) /\
     (pressure e = None -> pressure_block self data h = (Ok tt, h)) /\
     (wind_bearing e = None -> wind_bearing_block self data h = (Ok tt, h)) /\
     (wind_speed e = None -> wind_speed_block self data h = (Ok tt, h)) /\
     (visibility e = None -> visibility_block self data h = (Ok tt, h))) /\
  (forall l d,
     h !! l = Some (ODict d) ->
     (default VNone (d !! ATTR_FORECAST_TEMP) = VNone ->
      forecast_temp self l h = (Ok tt, h)) /\
     (default VNone (d !! ATTR_FORECAST_TEMP_LOW) = VNone ->
      forecast_temp_low self l h = (Ok tt, h)) /\
     (default VNone (d !! ATTR_FORECAST_PRESSURE) = VNone ->
      forecast_pressure self l h = (Ok tt, h)) /\
     (default VNone (d !! ATTR_FORECAST_WIND_SPEED) = VNone ->
      forecast_wind_speed self l h = (Ok tt, h)) /\
     (default VNone (d !! ATTR_FORECAST_PRECIPITATION) = VNone ->
      forecast_precipitation self l h = (Ok tt, h))).
Proof.
  intros Hs. split.
  - intros data. repeat split; intros Hnone.
    + unfold temperature_block. run. by rewrite Hnone.
    + unfold humidity_block. run. by rewrite Hnone.
    + unfold ozone_block. run. by rewrite Hnone.
    + unfold pressure_block. run. by rewrite Hnone.
    + unfold wind_bearing_block. run. by rewrite Hnone.
    + unfold wind_speed_block. run. by rewrite Hnone.
    + unfold visibility_block. run. by rewrite Hnone.
  - intros l d Hl. repeat split; intros Hnone.
    + unfold forecast_temp. run. by rewrite Hnone.
    + unfold forecast_temp_low. run. by rewrite Hnone.
    + unfold forecast_pressure. run. by rewrite Hnone.
    + unfold forecast_wind_speed. run. by rewrite Hnone.
    + unfold forecast_precipitation. run. by rewrite Hnone.
Qed.

(** C2, as amended -- A quantity of the entity whose native value is
    [None] gets no entry in the attribute dict (it is left out, not
    stored as [None]); a field of a forecast record that holds [None]
    holds [None] in the result.  No conversion takes part and nothing
    is raised: the block of a quantity that is [None] returns at once
    with the store as it was, whatever the conversion helpers and [round]
    do, and so a run on an entity all of whose native values are [None],
    with forecast records whose convertible fields are [None] or missing,
    returns an attribute dict that holds nothing but the forecast, whose
    records are as stored. *)
Theorem null_values_left_unconverted self e ds h :
  entity_at h self e ds ->
  (forall data,
     (temperature e = None -> temperature_block self data h = (Ok tt, h)) /\
     (humidity e = None -> humidity_block self data h = (Ok tt, h)) /\
     (ozone e = None -> ozone_block self data h = (Ok tt, h)) /\
     (pressure e = None -> pressure_block self data h = (Ok tt, h)) /\
     (wind_bearing e = None -> wind_bearing_block self data h = (Ok tt, h)) /\
     (wind_speed e = None -> wind_speed_block self data h = (Ok tt, h)) /\
     (visibility e = None -> visibility_block self data h = (Ok tt, h))) /\
  (forall l d,
     h !! l = Some (ODict d) ->
     (default VNone (d !! ATTR_FORECAST_TEMP) = VNone ->
      forecast_temp self l h = (Ok tt, h)) /\
     (default VNone (d !! ATTR_FORECAST_TEMP_LOW) = VNone ->
      forecast_temp_low self l h = (Ok tt, h)) /\
     (default VNone (d !! ATTR_FORECAST_PRESSURE) = VNone ->
      forecast_pressure self l h = (Ok tt, h)) /\
     (default VNone (d !! ATTR_FORECAST_WIND_SPEED) = VNone ->
      forecast_wind_speed self l h = (Ok tt, h)) /\
     (default VNone (d !! ATTR_FORECAST_PRECIPITATION) = VNone ->
      forecast_precipitation self l h = (Ok tt, h))) /\
  (forall data h',
     state_attributes self h = (Ok data, h') ->
     (temperature e = None -> attribute h' data ATTR_WEATHER_TEMPERATURE = None) /\
     (humidity e = None -> attribute h' data ATTR_WEATHER_HUMIDITY = None) /\
     (ozone e = None -> attribute h' data ATTR_WEATHER_OZONE = None) /\
     (pressure e = None -> attribute h' data ATTR_WEATHER_PRESSURE = None) /\
     (wind_bearing e = None -> attribute h' data ATTR_WEATHER_WIND_BEARING = None) /\
     (wind_speed e = None -> attribute h' data ATTR_WEATHER_WIND_SPEED = None) /\
     (visibility e = None -> attribute h' data ATTR_WEATHER_VISIBILITY = None) /\
     (forecast e ≠ None ->
      exists ds',
        forecast_records h' data = Some ds' /\
        Forall2
          (fun d d' => forall k, d !! k = Some VNone -> d' !! k = Some VNone)
          ds ds')) /\
  (temperature e = None -> humidity e = None -> ozone e = None ->
   pressure e = None -> wind_bearing e = None -> wind_speed e = None ->
   visibility e = None -> Forall unreported ds ->
   exists data h',
     state_attributes self h = (Ok data, h') /\
     (forall k, k ≠ ATTR_FORECAST -> attribute h' data k = None) /\
     (forecast e ≠ None -> forecast_records h' data = Some ds)).
Proof.
  intros Hat.
  destruct (null_blocks_skip self e h (proj1 Hat)) as [Hblocks Hfields].
  split; [exact Hblocks|]. split; [exact Hfields|]. split.
  - intros data h' Hrun.
    destruct (run_attributes _ _ _ _ _ _ Hat Hrun)
      as (Ht & Hhu & Hoz & Hp & Hwb & Hws & Hvi).
    repeat split.
    + intros Hn. unfold shown_temperature in Ht. rewrite Hn in Ht.
      by injection Ht as <-.
    + intros Hn. unfold shown_humidity in Hhu. rewrite Hn in Hhu.
      by injection Hhu as <-.
    + intros Hn. unfold shown_ozone in Hoz. rewrite Hn in Hoz.
      by injection Hoz as <-.
    + intros Hn. unfold shown_pressure in Hp. rewrite Hn in Hp.
      by injection Hp as <-.
    + intros Hn. unfold shown_wind_bearing in Hwb. rewrite Hn in Hwb.
      by injection Hwb as <-.
    + intros Hn. unfold shown_wind_speed in Hws. rewrite Hn in Hws.
      by injection Hws as <-.
    + intros Hn. unfold shown_visibility in Hvi. rewrite Hn in Hvi.
      by injection Hvi as <-.
    + intros Hfc.
      destruct (run_records _ _ _ _ _ _ Hat Hrun Hfc) as (ds' & Hds' & Hall).
      exists ds'. split; [done|].
      eapply Forall2_impl; [exact Hall|]. intros d d' Hd k Hk. cbn beta in Hd.
      rewrite (converted_entry_null _ _ _ _ Hd); [done|]. by rewrite Hk.
  - intros Ht Hhu Hoz Hp Hwb Hws Hvi Hds.
    assert (Htop : top_attributes e = Ok ∅).
    { unfold top_attributes, shown_temperature, shown_humidity, shown_ozone,
        shown_pressure, shown_wind_bearing, shown_wind_speed, shown_visibility.
      by rewrite Ht, Hhu, Hoz, Hp, Hwb, Hws, Hvi. }
    assert (Hentries : converted_entries e ds = Ok ds).
    { clear -Hds. induction Hds as [|d ds Hd _ IH]; [done|]. simpl.
      assert (converted_entry e d = Ok d) as ->.
      { unfold unreported, converted_keys in Hd.
        rewrite !Forall_cons in Hd. destruct Hd as (H1 & H2 & H3 & H4 & H5 & _).
        unfold converted_entry.
        rewrite (converted_field_null _ _ ATTR_FORECAST_TEMP) by done.
        rewrite result_bind_ok.
        rewrite (converted_field_null _ _ ATTR_FORECAST_TEMP_LOW) by done.
        rewrite result_bind_ok.
        rewrite (converted_field_null _ _ ATTR_FORECAST_PRESSURE) by done.
        rewrite result_bind_ok.
        rewrite (converted_field_null _ _ ATTR_FORECAST_WIND_SPEED) by done.
        rewrite result_bind_ok.
        by apply converted_field_null. }
      by rewrite result_bind_ok, IH. }
    destruct (state_attributes_returns self e ds h ∅
                (match forecast e with Some _ => Some ds | None => None end) Hat)
      as (data & h' & Hrun & Hret).
    { unfold expected. rewrite Htop, result_bind_ok.
      destruct (forecast e); [|done]. by rewrite Hentries. }
    exists data, h'. split; [done|]. split.
    + intros k Hk. by rewrite (returned_attribute _ _ _ _ _ _ Hret).
    + intros Hfc. destruct (forecast e); [|done].
      by eapply returned_forecast_records.
Qed.

(** C7 -- With conversion helpers that are as the spec describes them
    ([spec_convert]), a value whose native unit is the displayed unit
    of its quantity is shown as the value itself under the rounding
    of the quantity: one decimal or an integer for a temperature, two
    decimals for pressure, wind speed, visibility and precipitation.
    This holds for the entity's own attributes and for the fields of
    the forecast records.  As in C4, the second rounding of the
    entity's own pressure is taken to change nothing. *)
Theorem same_unit_shown_unconverted self e ds h data h' :
  helper_as_specified temperature_util ->
  helper_as_specified pressure_util ->
  helper_as_specified speed_util ->
  helper_as_specified distance_util ->
  entity_at h self e ds ->
  state_attributes self h = (Ok data, h') ->
  (forall t u,
     temperature e = Some t -> temperature_unit e = Some u ->
     displayed_unit e ATTR_WEATHER_TEMPERATURE = Ok u ->
     exists r,
       (if bool_decide (u = TEMP_CELSIUS)
        then round_ndigits (VNum t) 1 else round (VNum t)) = Ok r /\
       attribute h' data ATTR_WEATHER_TEMPERATURE = Some r) /\
  (round_idempotent ->
   forall p u,
     pressure e = Some p -> pressure_unit e = Some u ->
     displayed_unit e ATTR_WEATHER_PRESSURE = Ok u ->
     exists r,
       round_ndigits (VNum p) ROUNDING_PRECISION = Ok r /\
       attribute h' data ATTR_WEATHER_PRESSURE = Some r) /\
  (forall w u,
     wind_speed e = Some w -> wind_speed_unit e = Some u ->
     displayed_unit e ATTR_WEATHER_WIND_SPEED = Ok u ->
     exists r,
       round_ndigits (VNum w) ROUNDING_PRECISION = Ok r /\
       attribute h' data ATTR_WEATHER_WIND_SPEED = Some r) /\
  (forall x u,
     visibility e = Some x -> visibility_unit e = Some u ->
     displayed_unit e ATTR_WEATHER_VISIBILITY = Ok u ->
     exists r,
       round_ndigits (VNum x) ROUNDING_PRECISION = Ok r /\
       attribute h' data ATTR_WEATHER_VISIBILITY = Some r) /\
  (forecast e ≠ None ->
   exists ds',
     forecast_records h' data = Some ds' /\
     Forall2
       (fun d d' =>
          (forall k v u,
             k ∈ [ATTR_FORECAST_TEMP; ATTR_FORECAST_TEMP_LOW] ->
             temperature_unit e = Some u ->
             displayed_unit e ATTR_WEATHER_TEMPERATURE = Ok u ->
             d !! k = Some v -> v ≠ VNone ->
             exists r,
               (if bool_decide (u = TEMP_CELSIUS)
                then round_ndigits v 1 else round v) = Ok r /\
               d' !! k = Some r) /\
          (forall v u,
             pressure_unit e = Some u ->
             displayed_unit e ATTR_WEATHER_PRESSURE = Ok u ->
             d !! ATTR_FORECAST_PRESSURE = Some v -> v ≠ VNone ->
             exists r,
               round_ndigits v ROUNDING_PRECISION = Ok r /\
               d' !! ATTR_FORECAST_PRESSURE = Some r) /\
          (forall v u,
             wind_speed_unit e = Some u ->
             displayed_unit e ATTR_WEATHER_WIND_SPEED = Ok u ->
             d !! ATTR_FORECAST_WIND_SPEED = Some v -> v ≠ VNone ->
             exists r,
               round_ndigits v ROUNDING_PRECISION = Ok r /\
               d' !! ATTR_FORECAST_WIND_SPEED = Some r) /\
          (forall v u,
             precipitation_unit e = Some u ->
             displayed_unit e ATTR_WEATHER_PRECIPITATION = Ok u ->
             d !! ATTR_FORECAST_PRECIPITATION = Some v -> v ≠ VNone ->
             exists r,
               round_ndigits v ROUNDING_PRECISION = Ok r /\
               d' !! ATTR_FORECAST_PRECIPITATION = Some r))
       ds ds').
Proof.
  intros HT HP HS HD Hat Hrun.
  destruct (run_top_rules _ _ _ _ _ _ Hat Hrun) as (Ht & Hp & Hw & Hv).
  split; [|split; [|split; [|split]]].
  - intros t u Hte Hu Hdisp. destruct (Ht t u Hte Hu) as (r & Hrule & Hattr).
    exists r. split; [|done]. exact (temperature_rule_same_unit _ _ _ _ HT Hdisp Hrule).
  - intros Hidem p u Hpe Hu Hdisp.
    destruct (Hp p u Hpe Hu) as (c & r & Hrule & Hround & Hattr).
    apply (two_decimals_rule_same_unit _ _ _ _ _ _ HP Hdisp) in Hrule.
    rewrite (Hidem _ _ Hrule) in Hround. injection Hround as <-. by exists c.
  - intros w u Hwe Hu Hdisp. destruct (Hw w u Hwe Hu) as (r & Hrule & Hattr).
    exists r. split; [|done].
    exact (two_decimals_rule_same_unit _ _ _ _ _ _ HS Hdisp Hrule).
  - intros x u Hxe Hu Hdisp. destruct (Hv x u Hxe Hu) as (r & Hrule & Hattr).
    exists r. split; [|done].
    exact (two_decimals_rule_same_unit _ _ _ _ _ _ HD Hdisp Hrule).
  - intros Hfc.
    destruct (run_records _ _ _ _ _ _ Hat Hrun Hfc) as (ds' & Hds' & Hall).
    exists ds'. split; [done|].
    eapply Forall2_impl; [exact Hall|]. intros d d' Hd.
    apply converted_entry_rules in Hd as (F1 & F2 & F3 & F4 & F5 & _).
    split; [|split; [|split]].
    + intros k v u Hk Hu Hdisp Hv' Hnn.
      rewrite !elem_of_cons, elem_of_nil in Hk.
      destruct Hk as [->|[->|[]]].
      * destruct (field_shown_value _ _ _ _ _ _ _ F1 Hu Hv' Hnn) as (r & Hr & Hk).
        exists r. split; [|done].
        exact (temperature_rule_same_unit _ _ _ _ HT Hdisp Hr).
      * destruct (field_shown_value _ _ _ _ _ _ _ F2 Hu Hv' Hnn) as (r & Hr & Hk).
        exists r. split; [|done].
        exact (temperature_rule_same_unit _ _ _ _ HT Hdisp Hr).
    + intros v u Hu Hdisp Hv' Hnn.
      destruct (field_shown_value _ _ _ _ _ _ _ F3 Hu Hv' Hnn) as (r & Hr & Hk).
      exists r. split; [|done].
      exact (two_decimals_rule_same_unit _ _ _ _ _ _ HP Hdisp Hr).
    + intros v u Hu Hdisp Hv' Hnn.
      destruct (field_shown_value _ _ _ _ _ _ _ F4 Hu Hv' Hnn) as (r & Hr & Hk).
      exists r. split; [|done].
      exact (two_decimals_rule_same_unit _ _ _ _ _ _ HS Hdisp Hr).
    + intros v u Hu Hdisp Hv' Hnn.
      destruct (field_shown_value _ _ _ _ _ _ _ F5 Hu Hv' Hnn) as (r & Hr & Hk).
      exists r. split; [|done].
      exact (two_decimals_rule_same_unit _ _ _ _ _ _ HD Hdisp Hr).
Qed.

End Run.

(** *** The claims on the sample platform *)

Ltac listed :=
  repeat first [apply list_elem_of_here | apply list_elem_of_further].

Ltac not_listed :=
  let H := fresh in
  intros H;
  repeat (apply elem_of_cons in H as [H|H]; [discriminate H|]);
  by apply elem_of_nil in H.

Lemma sample_entity_at :
  entity_at Sample.store 1%positive Sample.entity [Sample.record].
Proof.
  split; [reflexivity|]. exists [3%positive]. split; [reflexivity|].
  repeat constructor.
Qed.

Lemma sample_run :
  state_attributes (Externals0 := Sample.platform) 1%positive Sample.store
  = (Ok 4%positive, Sample.shown.2).
Proof. vm_compute. reflexivity. Qed.

Lemma silent_entity_at :
  entity_at Sample.silent_store 1%positive Sample.silent [Sample.silent_record].
Proof.
  split; [reflexivity|]. exists [3%positive]. split; [reflexivity|].
  repeat constructor.
Qed.

Lemma silent_run :
  state_attributes (Externals0 := Sample.platform) 1%positive Sample.silent_store
  = (Ok 4%positive, Sample.silent_shown.2).
Proof. vm_compute. reflexivity. Qed.

Lemma unitless_entity_at :
  entity_at Sample.unitless_store 1%positive Sample.unitless [].
Proof. split; reflexivity. Qed.

Lemma unitless_run :
  state_attributes (Externals0 := Sample.platform) 1%positive Sample.unitless_store
  = (Ok 2%positive, Sample.unitless_shown.2).
Proof. vm_compute. reflexivity. Qed.

Lemma metric_entity_at :
  entity_at Sample.metric_store 1%positive (Sample.native_metric None)
    [Sample.metric_record].
Proof.
  split; [reflexivity|]. exists [3%positive]. split; [reflexivity|].
  repeat constructor.
Qed.

Lemma metric_run :
  state_attributes (Externals0 := Sample.platform) 1%positive Sample.metric_store
  = (Ok 4%positive, Sample.metric_shown.2).
Proof. vm_compute. reflexivity. Qed.

Lemma sample_round_idempotent : round_idempotent (Externals0 := Sample.platform).
Proof. intros [|x|s|l] r; simpl; [done| |done|done]. by intros [= <-]. Qed.

Lemma sample_helpers_as_specified :
  helper_as_specified (temperature_util (Externals := Sample.platform)) /\
  helper_as_specified (pressure_util (Externals := Sample.platform)) /\
  helper_as_specified (speed_util (Externals := Sample.platform)) /\
  helper_as_specified (distance_util (Externals := Sample.platform)).
Proof. repeat split; eexists; reflexivity. Qed.

(** The examples of the component's tests, on the sample platform:
    38 degrees Fahrenheit shown in Celsius, 1000 hPa shown in inHg by a
    user override, an override that is no pressure unit, and a quantity
    without unit. *)

Example fahrenheit_shown_in_celsius :
  convert_temperature (Externals0 := Sample.platform) Sample.entity
    (VNum 3800%Z) "°F" = Ok (VNum 330%Z).
Proof. reflexivity. Qed.

Example hpa_shown_in_inhg :
  convert_pressure (Externals0 := Sample.platform)
    (Sample.native_metric (Sample.pressure_override "inHg"))
    (VNum 100000%Z) "hPa" = Ok (VNum 2953%Z).
Proof. reflexivity. Qed.

Example peer_pressure_ignored :
  displayed_unit (Externals0 := Sample.platform)
    (Sample.native_metric (Sample.pressure_override "peer_pressure")) "pressure"
  = Ok "hPa".
Proof. reflexivity. Qed.

Example humidity_has_no_unit :
  displayed_unit (Externals0 := Sample.platform) Sample.entity
    ATTR_WEATHER_HUMIDITY = Raise KeyError.
Proof. reflexivity. Qed.

Lemma displayed_unit_resolution_witness :
  displayed_unit (Externals0 := Sample.platform)
    (Sample.native_metric (Sample.pressure_override "inHg")) "pressure"
  = Ok "inHg".
Proof.
  destruct (displayed_unit_resolution (Externals0 := Sample.platform)
              (Sample.native_metric (Sample.pressure_override "inHg")) "pressure")
    as (default & units & Hdefault & Hunits & Hshown).
  - unfold quantities. listed.
  - intros units Hunits. vm_compute in Hunits. injection Hunits as <-.
    not_listed.
  - vm_compute in Hunits. injection Hunits as <-. rewrite Hshown. reflexivity.
Defined.

Lemma null_values_left_unconverted_witness :
  exists data h',
    state_attributes (Externals0 := Sample.platform) 1%positive Sample.silent_store
      = (Ok data, h') /\
    (forall k, k ≠ ATTR_FORECAST -> attribute h' data k = None) /\
    (forecast Sample.silent ≠ None ->
     forecast_records h' data = Some [Sample.silent_record]).
Proof.
  destruct (null_values_left_unconverted (Externals0 := Sample.platform)
              1%positive Sample.silent [Sample.silent_record] Sample.silent_store
              silent_entity_at) as (_ & _ & _ & Hreturns).
  apply Hreturns; try reflexivity.
  repeat constructor.
Defined.

(** C2, as stated, fails -- The entity [Sample.silent] reports no
    temperature, and the attribute dict returned for it has no
    ["temperature"] entry at all: the output does not contain [None]
    for that quantity, the quantity is left out. *)
Lemma null_temperature_left_out :
  entity_at Sample.silent_store 1%positive Sample.silent [Sample.silent_record] /\
  temperature Sample.silent = None /\
  state_attributes (Externals0 := Sample.platform) 1%positive Sample.silent_store
    = (Ok 4%positive, Sample.silent_shown.2) /\
  attribute Sample.silent_shown.2 4%positive ATTR_WEATHER_TEMPERATURE
    ≠ Some VNone.
Proof.
  split; [exact silent_entity_at|]. split; [reflexivity|].
  split; [exact silent_run|]. vm_compute. discriminate.
Qed.

Lemma temperature_shown_witness :
  exists r,
    temperature_rule (Externals0 := Sample.platform) Sample.entity
      (VNum 3800%Z) "°F" r /\
    attribute Sample.shown.2 4%positive ATTR_WEATHER_TEMPERATURE = Some r.
Proof.
  destruct (temperature_shown (Externals0 := Sample.platform)
              1%positive Sample.entity [Sample.record] Sample.store
              4%positive Sample.shown.2 sample_entity_at sample_run)
    as [Hown _].
  apply Hown; reflexivity.
Defined.

Lemma two_decimals_shown_witness :
  exists r,
    two_decimals_rule (Externals0 := Sample.platform) Sample.entity
      ATTR_WEATHER_PRESSURE (pressure_util (Externals := Sample.platform))
      (VNum 100000%Z) "hPa" r /\
    attribute Sample.shown.2 4%positive ATTR_WEATHER_PRESSURE = Some r.
Proof.
  destruct (two_decimals_shown (Externals0 := Sample.platform)
              1%positive Sample.entity [Sample.record] Sample.store
              4%positive Sample.shown.2 sample_entity_at sample_run)
    as [Hpressure _].
  apply Hpressure; [exact sample_round_idempotent|reflexivity|reflexivity].
Defined.

Lemma humidity_bearing_ozone_shown_witness :
  (exists r,
     round (Externals := Sample.platform) (VNum 5550%Z) = Ok r /\
     attribute Sample.shown.2 4%positive ATTR_WEATHER_HUMIDITY = Some r) /\
  attribute Sample.shown.2 4%positive ATTR_WEATHER_WIND_BEARING
    = Some (VStr "NNW") /\
  attribute Sample.shown.2 4%positive ATTR_WEATHER_OZONE = Some (VNum 1234%Z) /\
  exists ds',
    forecast_records Sample.shown.2 4%positive = Some ds' /\
    Forall2
      (fun d d' =>
         d' !! ATTR_FORECAST_WIND_BEARING = d !! ATTR_FORECAST_WIND_BEARING)
      [Sample.record] ds'.
Proof.
  destruct (humidity_bearing_ozone_shown (Externals0 := Sample.platform)
              1%positive Sample.entity [Sample.record] Sample.store
              4%positive Sample.shown.2 sample_entity_at sample_run)
    as (Hhumidity & _ & Hbearing & Hozone & Hforecast).
  split; [|split; [|split]].
  - apply Hhumidity; reflexivity.
  - apply Hbearing; reflexivity.
  - apply Hozone; reflexivity.
  - apply Hforecast. discriminate.
Defined.

Lemma forecast_entries_converted_witness :
  exists ds',
    forecast_records Sample.shown.2 4%positive = Some ds' /\
    Forall2
      (fun d d' =>
         converted_entry (Externals0 := Sample.platform) Sample.entity d = Ok d')
      [Sample.record] ds'.
Proof.
  destruct (forecast_entries_converted (Externals0 := Sample.platform)
              1%positive Sample.entity [Sample.record] Sample.store
              4%positive Sample.shown.2 sample_entity_at sample_run)
    as (ds' & Hrecords & Hall).
  - discriminate.
  - exists ds'. split; [exact Hrecords|].
    eapply Forall2_impl; [exact Hall|]. intros d d' Hd. exact (proj1 Hd).
Defined.

Lemma same_unit_shown_unconverted_witness :
  exists r,
    round_ndigits (Externals := Sample.platform) (VNum 2137%Z) 1 = Ok r /\
    attribute Sample.metric_shown.2 4%positive ATTR_WEATHER_TEMPERATURE = Some r.
Proof.
  destruct sample_helpers_as_specified as (HT & HP & HS & HD).
  destruct (same_unit_shown_unconverted (Externals0 := Sample.platform)
              1%positive (Sample.native_metric None) [Sample.metric_record]
              Sample.metric_store 4%positive Sample.metric_shown.2
              HT HP HS HD metric_entity_at metric_run)
    as [Hown _].
  apply (Hown 2137%Z "°C"); reflexivity.
Defined.

Lemma state_attributes_leaves_store_witness :
  (forall l o, Sample.store !! l = Some o -> Sample.shown.2 !! l = Some o) /\
  entity_at Sample.shown.2 1%positive Sample.entity [Sample.record] /\
  (forall data,
     Ok 4%positive = Ok data ->
     Forall (fun l => l ∉ dom Sample.store) (result_objects Sample.shown.2 data)).
Proof.
  apply (state_attributes_leaves_store (Externals0 := Sample.platform)
           1%positive Sample.entity [Sample.record] Sample.store
           (Ok 4%positive) Sample.shown.2).
  - exact sample_entity_at.
  - exact sample_run.
Defined.

Lemma unitless_values_shown_witness :
  exists r,
    round_ndigits (Externals := Sample.platform) (VNum 101325%Z) ROUNDING_PRECISION
      = Ok r /\
    attribute Sample.unitless_shown.2 2%positive ATTR_WEATHER_PRESSURE = Some r.
Proof.
  destruct (unitless_values_shown (Externals0 := Sample.platform)
              1%positive Sample.unitless [] Sample.unitless_store
              2%positive Sample.unitless_shown.2 unitless_entity_at unitless_run)
    as [Hpressure _].
  apply Hpressure; reflexivity.
Defined.

End WeatherSpec.

Module TedSpec.
Import Ted.

(** C10 -- [TedSensor.state] returns [None] when the key of the sensor
    is absent from the coordinator data.  [TedBreakdownSensor.state]
    raises when its position is absent from the mapping of its group:
    [.get(position)] returns [None], and [None] has no [get]. *)
Theorem state_of_absent_key_and_position :
  (forall (self : TedSensor) (data : gmap string pyval),
     coordinator_data self = PDict data ->
     data !! description_key self = None ->
     state self = Ok PNone) /\
  (forall (self : TedBreakdownSensor) (data group : gmap string pyval),
     coordinator_data (base self) = PDict data ->
     data !! _group self = Some (PDict group) ->
     group !! _position self = None ->
     breakdown_state self = Raise AttributeError).
Proof.
  split.
  - intros self data Hdata Hkey. unfold state, get. by rewrite Hdata, Hkey.
  - intros self data group Hdata Hgroup Hposition.
    unfold breakdown_state, subscript, get.
    by rewrite Hdata, Hgroup, Hposition.
Qed.

Lemma state_of_absent_key_and_position_witness :
  state Sample.voltage_sensor = Ok PNone /\
  breakdown_state Sample.lost_spyder = Raise AttributeError.
Proof.
  destruct state_of_absent_key_and_position as [Hsensor Hbreakdown].
  split.
  - apply (Hsensor Sample.voltage_sensor Sample.ted_data); reflexivity.
  - apply (Hbreakdown Sample.lost_spyder Sample.ted_data
             {[ "1" := PDict Sample.kitchen ]}); reflexivity.
Defined.

End TedSpec.


(** * Further properties of the weather entity *)

Module WeatherMore.
Import Weather Registry Shape.

Section Units.
Context {num : Type} `{!Externals num}.
Implicit Types (e : WeatherEntity num).

(** The tables have no entry for a quantity outside [quantities]. *)
Lemma preferred_units_unknown e quantity :
  quantity ∉ quantities -> preferred_units e !! quantity = None.
Proof.
  unfold quantities. rewrite !not_elem_of_cons.
  intros (H1 & H2 & H3 & H4 & H5 & _).
  unfold preferred_units, METRIC_UNITS, IMPERIAL_UNITS.
  destruct (is_metric e);
    by rewrite !lookup_insert_ne, lookup_singleton_ne by done.
Qed.

(** X1 -- Asking for the displayed unit of a quantity that has no unit
    (humidity, ozone, wind bearing, or any other name outside the five
    of the tables) raises [KeyError], whatever the override map holds. *)
Theorem displayed_unit_unknown_quantity e quantity :
  quantity ∉ quantities -> displayed_unit e quantity = Raise KeyError.
Proof.
  intros Hq. unfold displayed_unit. by rewrite (preferred_units_unknown e quantity Hq).
Qed.

(** X2 -- For each of the five quantities [displayed_unit] returns, and
    what it returns is the default of the system profile or a member of
    the quantity's valid units: an override never makes the entity show
    a unit outside that tuple. *)
Theorem displayed_unit_default_or_valid e quantity :
  quantity ∈ quantities ->
  exists default units u,
    preferred_units e !! quantity = Some default /\
    VALID_UNITS !! quantity = Some units /\
    displayed_unit e quantity = Ok u /\
    (u = default \/ u ∈ units).
Proof.
  intros Hq.
  destruct (WeatherSpec.unit_tables quantity Hq)
    as (metric & imperial & units & Hm & Hi & Hv).
  assert (Hdefault : preferred_units e !! quantity
                     = Some (if is_metric e then metric else imperial)).
  { unfold preferred_units. by destruct (is_metric e). }
  exists (if is_metric e then metric else imperial), units.
  unfold displayed_unit. rewrite Hdefault, Hv.
  assert (Hkeep : exists u,
             Some (if is_metric e then metric else imperial)
             = Some (if is_metric e then metric else imperial) /\
             Some units = Some units /\
             Ok (if is_metric e then metric else imperial) = Ok u /\
             (u = (if is_metric e then metric else imperial) \/ u ∈ units)).
  { eexists. repeat split. by left. }
  destruct (_option_units_of_measurement e) as [options|]; [|done].
  destruct (mjoin (options !! quantity)) as [opt|]; [|done].
  destruct (truthy opt); [|done].
  destruct (bool_decide (opt ∈ units)) eqn:Hin; [|done].
  apply bool_decide_eq_true_1 in Hin. exists opt. repeat split. by right.
Qed.

(** X3 -- The displayed unit of a quantity depends on the override map
    through the entry of that quantity alone: setting or changing the
    override of another quantity changes nothing, and an override map
    without an entry for the quantity is as good as no override map. *)
Theorem displayed_unit_local e quantity :
  (forall options other (unit : option string),
     other ≠ quantity ->
     displayed_unit (set_option_units e (Some (<[other := unit]> options))) quantity
     = displayed_unit (set_option_units e (Some options)) quantity) /\
  (forall options,
     options !! quantity = None ->
     displayed_unit (set_option_units e (Some options)) quantity
     = displayed_unit (set_option_units e None) quantity).
Proof.
  split.
  - intros options other unit Hne. unfold displayed_unit, preferred_units. simpl.
    by rewrite lookup_insert_ne.
  - intros options Hnone. unfold displayed_unit, preferred_units. simpl.
    by rewrite Hnone.
Qed.

End Units.

(** ** The registry hook *)

Section Hook.
Context {num : Type} `{!Externals num}.
Variable CONF_UNITS_OF_MEASUREMENT : string.
Implicit Types (self : Registered num) (entry : RegistryEntry).

Lemma nonempty_lookup {V} (d : gmap string V) k v :
  d !! k = Some v -> nonempty d = true.
Proof.
  intros Hk. unfold nonempty. destruct (Nat.eqb_spec (size d) 0) as [Hsize|]; [|done].
  apply map_size_empty_iff in Hsize. by rewrite Hsize, lookup_empty in Hk.
Qed.

Lemma nonempty_true {V} (d : gmap string V) : nonempty d = true <-> d ≠ ∅.
Proof.
  unfold nonempty. rewrite <- map_size_empty_iff.
  destruct (Nat.eqb_spec (size d) 0); simpl; split; try done.
Qed.

(** X4 -- The custom units the hook reads from a registry entry are the
    dict stored under the weather domain and the units option, provided
    that dict is not empty: an empty dict of units counts as no custom
    units at all (and an empty dict of weather options cannot hold
    any). *)
Theorem custom_units_read entry units :
  custom_units CONF_UNITS_OF_MEASUREMENT entry = Some units <->
  exists weather_options,
    options entry !! DOMAIN = Some weather_options /\
    weather_options !! CONF_UNITS_OF_MEASUREMENT = Some units /\
    units ≠ ∅.
Proof.
  unfold custom_units. split.
  - destruct (options entry !! DOMAIN) as [weather_options|]; [|done].
    destruct (nonempty weather_options); [|done].
    destruct (weather_options !! CONF_UNITS_OF_MEASUREMENT) as [units'|] eqn:Hu;
      [|done].
    destruct (nonempty units') eqn:Hne; [|done].
    intros [= <-]. exists weather_options. by rewrite <- nonempty_true.
  - intros (weather_options & -> & Hu & Hne).
    rewrite (nonempty_lookup _ _ _ Hu), Hu.
    apply nonempty_true in Hne. by rewrite Hne.
Qed.

(** X5 -- An update from a registry entry without custom units clears
    the override: whatever override the entity had, each of the five
    quantities is again shown in the default unit of the system profile.
    Nothing but the override is touched: putting the old override back
    gives the entity as it was. *)
Theorem registry_update_clears self entry :
  registry_entry self = Some entry ->
  custom_units CONF_UNITS_OF_MEASUREMENT entry = None ->
  exists self',
    async_registry_entry_updated CONF_UNITS_OF_MEASUREMENT self
      = (["registry update!"], Passed self') /\
    registry_entry self' = Some entry /\
    set_option_units (entity self') (_option_units_of_measurement (entity self))
      = entity self /\
    forall quantity,
      quantity ∈ quantities ->
      exists default,
        preferred_units (entity self) !! quantity = Some default /\
        displayed_unit (entity self') quantity = Ok default.
Proof.
  intros Hentry Hnone. unfold async_registry_entry_updated. rewrite Hentry, Hnone.
  eexists. split; [reflexivity|]. simpl. split; [done|]. split.
  { by destruct (entity self). }
  intros quantity Hq.
  destruct (WeatherSpec.unit_tables quantity Hq)
    as (metric & imperial & units & Hm & Hi & Hv).
  exists (if is_metric (entity self) then metric else imperial).
  assert (Hdefault : preferred_units (entity self) !! quantity
                     = Some (if is_metric (entity self) then metric else imperial)).
  { unfold preferred_units. by destruct (is_metric (entity self)). }
  split; [done|].
  unfold displayed_unit. unfold preferred_units in *. simpl. by rewrite Hdefault.
Qed.

(** X6 -- An update from a registry entry with custom units makes them
    the override as a whole, replacing the one the entity had: a
    quantity with a valid custom unit is shown in it, and a quantity the
    custom units do not mention is shown in the default unit even if the
    old override had a unit for it. *)
Theorem registry_update_replaces self entry units :
  registry_entry self = Some entry ->
  custom_units CONF_UNITS_OF_MEASUREMENT entry = Some units ->
  exists self',
    async_registry_entry_updated CONF_UNITS_OF_MEASUREMENT self
      = (["registry update!"], Passed self') /\
    forall quantity,
      quantity ∈ quantities ->
      exists default valid,
        preferred_units (entity self) !! quantity = Some default /\
        VALID_UNITS !! quantity = Some valid /\
        (forall unit,
           units !! quantity = Some (Some unit) -> unit ≠ "" -> unit ∈ valid ->
           displayed_unit (entity self') quantity = Ok unit) /\
        (units !! quantity = None ->
         displayed_unit (entity self') quantity = Ok default).
Proof.
  intros Hentry Hunits. unfold async_registry_entry_updated. rewrite Hentry, Hunits.
  eexists. split; [reflexivity|]. simpl.
  intros quantity Hq.
  destruct (WeatherSpec.unit_tables quantity Hq)
    as (metric & imperial & valid & Hm & Hi & Hv).
  exists (if is_metric (entity self) then metric else imperial), valid.
  assert (Hdefault : preferred_units (entity self) !! quantity
                     = Some (if is_metric (entity self) then metric else imperial)).
  { unfold preferred_units. by destruct (is_metric (entity self)). }
  split; [done|]. split; [done|].
  unfold displayed_unit. unfold preferred_units in *. simpl. rewrite Hdefault, Hv.
  split.
  - intros unit -> Hne Hin. simpl. unfold truthy.
    destruct (String.eqb_spec unit "") as [->|_]; [done|]. simpl.
    by rewrite bool_decide_eq_true_2.
  - by intros ->.
Qed.

(** X7 -- [async_internal_added_to_hass] never fails the assertion of
    [async_registry_entry_updated]: without a registry entry it returns
    the entity as the base class left it and prints nothing; with one,
    the update runs.  Called on its own without a registry entry, the
    update fails the assertion (after printing). *)
Theorem added_to_hass_guards_assertion
    (super_added : Registered num -> Registered num) self :
  snd (async_internal_added_to_hass CONF_UNITS_OF_MEASUREMENT super_added self)
    ≠ AssertionError /\
  (registry_entry (super_added self) = None ->
   async_internal_added_to_hass CONF_UNITS_OF_MEASUREMENT super_added self
   = ([], Passed (super_added self))) /\
  (registry_entry (super_added self) ≠ None ->
   async_internal_added_to_hass CONF_UNITS_OF_MEASUREMENT super_added self
   = async_registry_entry_updated CONF_UNITS_OF_MEASUREMENT (super_added self)) /\
  (registry_entry self = None ->
   async_registry_entry_updated CONF_UNITS_OF_MEASUREMENT self
   = (["registry update!"], AssertionError)).
Proof.
  unfold async_internal_added_to_hass, async_registry_entry_updated.
  destruct (registry_entry (super_added self)) as [entry|] eqn:Hentry; simpl.
  - repeat split; try done. by intros ->.
  - repeat split; try done. by intros ->.
Qed.

End Hook.

(** ** More about [state_attributes] *)

Section Attributes.
Context {num : Type} `{!Externals num}.
Implicit Types (self data : loc) (e : WeatherEntity num)
  (d : gmap string (value num)) (h : heap num).

Lemma top_attributes_other e top k :
  top_attributes e = Ok top -> k ∉ attribute_keys -> top !! k = None.
Proof.
  unfold top_attributes, attribute_keys. intros Htop.
  rewrite !not_elem_of_cons. intros (?&?&?&?&?&?&?&_).
  destruct (shown_temperature e) as [t|]; [|done].
  destruct (shown_humidity e) as [hu|]; [|done].
  destruct (shown_ozone e) as [oz|]; [|done].
  destruct (shown_pressure e) as [p|]; [|done].
  destruct (shown_wind_bearing e) as [wb|]; [|done].
  destruct (shown_wind_speed e) as [ws|]; [|done].
  destruct (shown_visibility e) as [vi|]; [|done].
  rewrite !WeatherSpec.result_bind_ok in Htop. injection Htop as <-.
  by rewrite !WeatherSpec.lookup_store_opt_ne, lookup_empty by done.
Qed.

Lemma returned_forecast_attribute h h' data top entries :
  top !! ATTR_FORECAST = None ->
  returned h h' data top entries ->
  is_Some (attribute h' data ATTR_FORECAST) <-> is_Some entries.
Proof.
  intros Htop [_ Hret]. unfold attribute. destruct entries as [ds'|].
  - destruct Hret as (fl' & ls' & -> & _). rewrite lookup_insert_eq.
    split; eauto.
  - rewrite Hret, Htop. split; by intros [? ?].
Qed.

(** X8 -- The dict a run returns has an entry for a quantity exactly
    when the entity reports it, a ["forecast"] entry exactly when the
    entity has a forecast (be it an empty list), and no other entry: in
    particular no precipitation, which only forecast records carry. *)
Theorem attributes_present_iff_reported self e ds h data h' :
  entity_at h self e ds ->
  state_attributes self h = (Ok data, h') ->
  (is_Some (attribute h' data ATTR_WEATHER_TEMPERATURE) <-> is_Some (temperature e)) /\
  (is_Some (attribute h' data ATTR_WEATHER_HUMIDITY) <-> is_Some (humidity e)) /\
  (is_Some (attribute h' data ATTR_WEATHER_OZONE) <-> is_Some (ozone e)) /\
  (is_Some (attribute h' data ATTR_WEATHER_PRESSURE) <-> is_Some (pressure e)) /\
  (is_Some (attribute h' data ATTR_WEATHER_WIND_BEARING)
   <-> is_Some (wind_bearing e)) /\
  (is_Some (attribute h' data ATTR_WEATHER_WIND_SPEED) <-> is_Some (wind_speed e)) /\
  (is_Some (attribute h' data ATTR_WEATHER_VISIBILITY) <-> is_Some (visibility e)) /\
  (is_Some (attribute h' data ATTR_FORECAST) <-> is_Some (forecast e)) /\
  (forall k,
     k ∉ ATTR_FORECAST :: attribute_keys -> attribute h' data k = None).
Proof.
  intros Hat Hrun.
  destruct (WeatherSpec.run_attributes _ _ _ _ _ _ Hat Hrun)
    as (Ht & Hhu & Hoz & Hp & Hwb & Hws & Hvi).
  destruct (WeatherSpec.state_attributes_ok _ _ _ _ _ _ Hat Hrun)
    as (top & entries & Hexp & Hret).
  apply WeatherSpec.expected_inv in Hexp as [Htop Hentries].
  repeat split.
  - intros [v Hv]. rewrite Hv in Ht. unfold shown_temperature in Ht.
    by destruct (temperature e).
  - intros [t Hte]. unfold shown_temperature in Ht. rewrite Hte in Ht.
    destruct (temperature_unit e) as [u|].
    + destruct (convert_temperature e (VNum t) u); [|done].
      rewrite WeatherSpec.result_bind_ok in Ht. injection Ht as <-. eauto.
    + injection Ht as <-. eauto.
  - intros [v Hv]. rewrite Hv in Hhu. unfold shown_humidity in Hhu.
    by destruct (humidity e).
  - intros [x Hx]. unfold shown_humidity in Hhu. rewrite Hx in Hhu.
    destruct (round (VNum x)); [|done].
    rewrite WeatherSpec.result_bind_ok in Hhu. injection Hhu as <-. eauto.
  - intros [v Hv]. rewrite Hv in Hoz. unfold shown_ozone in Hoz.
    by destruct (ozone e).
  - intros [x Hx]. unfold shown_ozone in Hoz. rewrite Hx in Hoz.
    injection Hoz as <-. eauto.
  - intros [v Hv]. rewrite Hv in Hp. unfold shown_pressure in Hp.
    by destruct (pressure e).
  - intros [p Hpe]. unfold shown_pressure in Hp. rewrite Hpe in Hp.
    destruct (match pressure_unit e with
              | Some u => convert_pressure e (VNum p) u
              | None => Ok (VNum p)
              end) as [c|]; [|done].
    rewrite WeatherSpec.result_bind_ok in Hp.
    destruct (round_ndigits c ROUNDING_PRECISION); [|done].
    rewrite WeatherSpec.result_bind_ok in Hp. injection Hp as <-. eauto.
  - intros [v Hv]. rewrite Hv in Hwb. unfold shown_wind_bearing in Hwb.
    by destruct (wind_bearing e).
  - intros [b Hb]. unfold shown_wind_bearing in Hwb. rewrite Hb in Hwb.
    injection Hwb as <-. eauto.
  - intros [v Hv]. rewrite Hv in Hws. unfold shown_wind_speed in Hws.
    by destruct (wind_speed e).
  - intros [w Hw]. unfold shown_wind_speed in Hws. rewrite Hw in Hws.
    destruct (wind_speed_unit e) as [u|].
    + destruct (convert_wind_speed e (VNum w) u); [|done].
      rewrite WeatherSpec.result_bind_ok in Hws. injection Hws as <-. eauto.
    + injection Hws as <-. eauto.
  - intros [v Hv]. rewrite Hv in Hvi. unfold shown_visibility in Hvi.
    by destruct (visibility e).
  - intros [x Hx]. unfold shown_visibility in Hvi. rewrite Hx in Hvi.
    destruct (visibility_unit e) as [u|].
    + destruct (convert_visibility e (VNum x) u); [|done].
      rewrite WeatherSpec.result_bind_ok in Hvi. injection Hvi as <-. eauto.
    + injection Hvi as <-. eauto.
  - intros Hsome.
    apply (returned_forecast_attribute _ _ _ _ _
             (proj2 (proj2 (proj2 (proj2 (proj2 (proj2 (proj2
                (WeatherSpec.top_attributes_inv _ _ Htop)))))))) Hret) in Hsome.
    destruct (forecast e); [eauto|]. subst entries. by destruct Hsome.
  - intros Hsome.
    apply (returned_forecast_attribute _ _ _ _ _
             (proj2 (proj2 (proj2 (proj2 (proj2 (proj2 (proj2
                (WeatherSpec.top_attributes_inv _ _ Htop)))))))) Hret).
    destruct (forecast e); [|by destruct Hsome].
    destruct Hentries as (ds' & _ & ->). eauto.
  - intros k Hk. apply not_elem_of_cons in Hk as [Hne Hk].
    rewrite (WeatherSpec.returned_attribute _ _ _ _ _ _ Hret) by done.
    by eapply top_attributes_other.
Qed.

Lemma raises_bind {A B} (r : result A) (f : A -> result B) :
  raises r -> raises (r ≫= f).
Proof. intros [ex ->]. by exists ex. Qed.

Lemma run_raises self e ds h :
  entity_at h self e ds ->
  raises (expected e ds) -> raises (state_attributes self h).1.
Proof.
  intros Hat [ex Hex].
  destruct (WeatherSpec.state_attributes_run _ _ _ _ Hat) as (h' & _ & Hrun).
  rewrite Hex in Hrun. rewrite Hrun. by exists ex.
Qed.

Lemma top_attributes_raises e :
  raises (shown_temperature e) \/ raises (shown_humidity e) \/
  raises (shown_ozone e) \/ raises (shown_pressure e) \/
  raises (shown_wind_bearing e) \/ raises (shown_wind_speed e) \/
  raises (shown_visibility e) ->
  raises (top_attributes e).
Proof.
  unfold top_attributes. intros Hany.
  destruct (shown_temperature e) as [t|ex]; [|by exists ex].
  destruct (shown_humidity e) as [hu|ex]; [|by exists ex].
  destruct (shown_ozone e) as [oz|ex]; [|by exists ex].
  destruct (shown_pressure e) as [p|ex]; [|by exists ex].
  destruct (shown_wind_bearing e) as [wb|ex]; [|by exists ex].
  destruct (shown_wind_speed e) as [ws|ex]; [|by exists ex].
  destruct (shown_visibility e) as [vi|ex]; [|by exists ex].
  destruct Hany as [[? ?]|[[? ?]|[[? ?]|[[? ?]|[[? ?]|[[? ?]|[? ?]]]]]]]; done.
Qed.

Lemma converted_field_raises unit conv k d v u :
  d !! k = Some v -> v ≠ VNone -> unit = Some u -> raises (conv v u) ->
  raises (converted_field unit conv k d).
Proof.
  intros Hk Hv -> [ex Hex]. unfold converted_field. rewrite Hk. simpl.
  destruct v; try done; simpl; rewrite Hex; by exists ex.
Qed.

Lemma converted_entry_raises e d k unit conv v u :
  (k, unit, conv) ∈ forecast_fields e ->
  d !! k = Some v -> v ≠ VNone -> unit = Some u -> raises (conv v u) ->
  raises (converted_entry e d).
Proof.
  intros Hin Hk Hv Hu Hex. unfold converted_entry.
  unfold forecast_fields in Hin. rewrite !elem_of_cons, elem_of_nil in Hin.
  destruct (converted_field (temperature_unit e) (convert_temperature e)
              ATTR_FORECAST_TEMP d) as [d1|ex1] eqn:H1.
  2:{ by exists ex1. }
  rewrite WeatherSpec.result_bind_ok.
  assert (H1' := H1). apply WeatherSpec.converted_field_inv in H1' as [_ O1].
  destruct Hin as [[= -> -> ->]|Hin].
  { destruct (converted_field_raises _ _ _ _ _ _ Hk Hv Hu Hex) as [ex Hr].
    rewrite Hr in H1. done. }
  destruct (converted_field (temperature_unit e) (convert_temperature e)
              ATTR_FORECAST_TEMP_LOW d1) as [d2|ex2] eqn:H2.
  2:{ by exists ex2. }
  rewrite WeatherSpec.result_bind_ok.
  assert (H2' := H2). apply WeatherSpec.converted_field_inv in H2' as [_ O2].
  destruct Hin as [[= -> -> ->]|Hin].
  { rewrite <- O1 in Hk by done.
    destruct (converted_field_raises _ _ _ _ _ _ Hk Hv Hu Hex) as [ex Hr].
    rewrite Hr in H2. done. }
  destruct (converted_field (pressure_unit e) (convert_pressure e)
              ATTR_FORECAST_PRESSURE d2) as [d3|ex3] eqn:H3.
  2:{ by exists ex3. }
  rewrite WeatherSpec.result_bind_ok.
  assert (H3' := H3). apply WeatherSpec.converted_field_inv in H3' as [_ O3].
  destruct Hin as [[= -> -> ->]|Hin].
  { rewrite <- O1, <- O2 in Hk by done.
    destruct (converted_field_raises _ _ _ _ _ _ Hk Hv Hu Hex) as [ex Hr].
    rewrite Hr in H3. done. }
  destruct (converted_field (wind_speed_unit e) (convert_wind_speed e)
              ATTR_FORECAST_WIND_SPEED d3) as [d4|ex4] eqn:H4.
  2:{ by exists ex4. }
  rewrite WeatherSpec.result_bind_ok.
  assert (H4' := H4). apply WeatherSpec.converted_field_inv in H4' as [_ O4].
  destruct Hin as [[= -> -> ->]|Hin].
  { rewrite <- O1, <- O2, <- O3 in Hk by done.
    destruct (converted_field_raises _ _ _ _ _ _ Hk Hv Hu Hex) as [ex Hr].
    rewrite Hr in H4. done. }
  destruct Hin as [[= -> -> ->]|[]].
  rewrite <- O1, <- O2, <- O3, <- O4 in Hk by done.
  by eapply converted_field_raises.
Qed.

Lemma converted_entries_raises e ds d :
  d ∈ ds -> raises (converted_entry e d) -> raises (converted_entries e ds).
Proof.
  intros Hin Hd. induction ds as [|d0 ds IH]; [by apply elem_of_nil in Hin|].
  simpl. apply elem_of_cons in Hin as [<-|Hin].
  - by apply raises_bind.
  - destruct (converted_entry e d0) as [d0'|ex]; [|by exists ex].
    rewrite WeatherSpec.result_bind_ok. by apply raises_bind, IH.
Qed.

Lemma run_raises_inv self e ds h :
  entity_at h self e ds ->
  raises (state_attributes self h).1 -> raises (expected e ds).
Proof.
  intros Hat [ex Hex].
  destruct (WeatherSpec.state_attributes_run _ _ _ _ Hat) as (h' & _ & Hrun).
  destruct (expected e ds) as [[top entries]|ex']; [|by exists ex'].
  destruct Hrun as (data & Hrun & _). by rewrite Hrun in Hex.
Qed.

Lemma top_attributes_raises_inv e ds :
  raises (top_attributes e) -> conversion_fails e ds.
Proof.
  unfold top_attributes. intros Hraises.
  destruct (shown_temperature e) as [t|ex] eqn:Ht.
  2:{ unfold shown_temperature in Ht.
      destruct (temperature e) as [t|] eqn:Hv; [|done].
      destruct (temperature_unit e) as [u|] eqn:Hu; [|done].
      destruct (convert_temperature e (VNum t) u) as [c|ex'] eqn:Hc; [done|].
      apply (temperature_fails e ds t u Hv Hu). rewrite Hc. by exists ex'. }
  rewrite WeatherSpec.result_bind_ok in Hraises.
  destruct (shown_humidity e) as [hu|ex] eqn:Hhu.
  2:{ unfold shown_humidity in Hhu.
      destruct (humidity e) as [x|] eqn:Hv; [|done].
      destruct (round (VNum x)) as [c|ex'] eqn:Hc; [done|].
      apply (humidity_fails e ds x Hv). rewrite Hc. by exists ex'. }
  rewrite WeatherSpec.result_bind_ok in Hraises.
  unfold shown_ozone in Hraises. rewrite WeatherSpec.result_bind_ok in Hraises.
  destruct (shown_pressure e) as [p|ex] eqn:Hp.
  2:{ unfold shown_pressure in Hp.
      destruct (pressure e) as [p|] eqn:Hv; [|done].
      destruct (pressure_unit e) as [u|] eqn:Hu.
      - destruct (convert_pressure e (VNum p) u) as [c|ex'] eqn:Hc.
        + rewrite WeatherSpec.result_bind_ok in Hp.
          destruct (round_ndigits c ROUNDING_PRECISION) as [r|ex'] eqn:Hr; [done|].
          apply (converted_pressure_rounding_fails e ds p u c Hv Hu Hc).
          rewrite Hr. by exists ex'.
        + apply (pressure_fails e ds p u Hv Hu). rewrite Hc. by exists ex'.
      - rewrite WeatherSpec.result_bind_ok in Hp.
        destruct (round_ndigits (VNum p) ROUNDING_PRECISION) as [r|ex'] eqn:Hr;
          [done|].
        apply (pressure_rounding_fails e ds p Hv Hu). rewrite Hr. by exists ex'. }
  rewrite WeatherSpec.result_bind_ok in Hraises.
  unfold shown_wind_bearing in Hraises.
  rewrite WeatherSpec.result_bind_ok in Hraises.
  destruct (shown_wind_speed e) as [ws|ex] eqn:Hws.
  2:{ unfold shown_wind_speed in Hws.
      destruct (wind_speed e) as [w|] eqn:Hv; [|done].
      destruct (wind_speed_unit e) as [u|] eqn:Hu; [|done].
      destruct (convert_wind_speed e (VNum w) u) as [c|ex'] eqn:Hc; [done|].
      apply (wind_speed_fails e ds w u Hv Hu). rewrite Hc. by exists ex'. }
  rewrite WeatherSpec.result_bind_ok in Hraises.
  destruct (shown_visibility e) as [vi|ex] eqn:Hvi.
  2:{ unfold shown_visibility in Hvi.
      destruct (visibility e) as [x|] eqn:Hv; [|done].
      destruct (visibility_unit e) as [u|] eqn:Hu; [|done].
      destruct (convert_visibility e (VNum x) u) as [c|ex'] eqn:Hc; [done|].
      apply (visibility_fails e ds x u Hv Hu). rewrite Hc. by exists ex'. }
  rewrite WeatherSpec.result_bind_ok in Hraises. by destruct Hraises.
Qed.

Lemma converted_field_raises_inv unit conv k d :
  raises (converted_field unit conv k d) ->
  exists v u,
    d !! k = Some v /\ v ≠ VNone /\ unit = Some u /\ raises (conv v u).
Proof.
  unfold converted_field. intros [ex Hex].
  destruct (d !! k) as [v|]; simpl in Hex; [|done].
  destruct (is_None v) eqn:Hv; [done|].
  destruct unit as [u|]; [|done].
  destruct (conv v u) as [c|ex'] eqn:Hc; [done|].
  exists v, u. repeat split; [by intros ->|]. by exists ex'.
Qed.

Lemma converted_entry_raises_inv e d :
  raises (converted_entry e d) ->
  exists k unit conv v u,
    (k, unit, conv) ∈ forecast_fields e /\
    d !! k = Some v /\ v ≠ VNone /\ unit = Some u /\ raises (conv v u).
Proof.
  unfold converted_entry, forecast_fields. intros Hraises.
  destruct (converted_field (temperature_unit e) (convert_temperature e)
              ATTR_FORECAST_TEMP d) as [d1|ex1] eqn:H1.
  2:{ destruct (converted_field_raises_inv _ _ _ _ (ex_intro _ ex1 H1))
        as (v & u & Hk & Hv & Hu & Hex).
      exists ATTR_FORECAST_TEMP, (temperature_unit e), (convert_temperature e), v, u.
      split; [WeatherSpec.listed|done]. }
  rewrite WeatherSpec.result_bind_ok in Hraises.
  apply WeatherSpec.converted_field_inv in H1 as [_ O1].
  destruct (converted_field (temperature_unit e) (convert_temperature e)
              ATTR_FORECAST_TEMP_LOW d1) as [d2|ex2] eqn:H2.
  2:{ destruct (converted_field_raises_inv _ _ _ _ (ex_intro _ ex2 H2))
        as (v & u & Hk & Hv & Hu & Hex).
      rewrite O1 in Hk by done.
      exists ATTR_FORECAST_TEMP_LOW, (temperature_unit e), (convert_temperature e),
        v, u.
      split; [WeatherSpec.listed|done]. }
  rewrite WeatherSpec.result_bind_ok in Hraises.
  apply WeatherSpec.converted_field_inv in H2 as [_ O2].
  destruct (converted_field (pressure_unit e) (convert_pressure e)
              ATTR_FORECAST_PRESSURE d2) as [d3|ex3] eqn:H3.
  2:{ destruct (converted_field_raises_inv _ _ _ _ (ex_intro _ ex3 H3))
        as (v & u & Hk & Hv & Hu & Hex).
      rewrite O2, O1 in Hk by done.
      exists ATTR_FORECAST_PRESSURE, (pressure_unit e), (convert_pressure e), v, u.
      split; [WeatherSpec.listed|done]. }
  rewrite WeatherSpec.result_bind_ok in Hraises.
  apply WeatherSpec.converted_field_inv in H3 as [_ O3].
  destruct (converted_field (wind_speed_unit e) (convert_wind_speed e)
              ATTR_FORECAST_WIND_SPEED d3) as [d4|ex4] eqn:H4.
  2:{ destruct (converted_field_raises_inv _ _ _ _ (ex_intro _ ex4 H4))
        as (v & u & Hk & Hv & Hu & Hex).
      rewrite O3, O2, O1 in Hk by done.
      exists ATTR_FORECAST_WIND_SPEED, (wind_speed_unit e), (convert_wind_speed e),
        v, u.
      split; [WeatherSpec.listed|done]. }
  rewrite WeatherSpec.result_bind_ok in Hraises.
  apply WeatherSpec.converted_field_inv in H4 as [_ O4].
  destruct (converted_field_raises_inv _ _ _ _ Hraises)
    as (v & u & Hk & Hv & Hu & Hex).
  rewrite O4, O3, O2, O1 in Hk by done.
  exists ATTR_FORECAST_PRECIPITATION, (precipitation_unit e),
    (convert_precipitation e), v, u.
  split; [WeatherSpec.listed|done].
Qed.

Lemma converted_entries_raises_inv e ds :
  raises (converted_entries e ds) ->
  exists d, d ∈ ds /\ raises (converted_entry e d).
Proof.
  induction ds as [|d0 ds IH]; simpl; intros Hraises.
  - by destruct Hraises.
  - destruct (converted_entry e d0) as [d0'|ex] eqn:Hd0.
    + rewrite WeatherSpec.result_bind_ok in Hraises.
      destruct (converted_entries e ds) as [rest|ex] eqn:Hrest.
      * by destruct Hraises.
      * destruct IH as (d & Hd & Hex); [by exists ex|].
        exists d. split; [by apply list_elem_of_further|done].
    + exists d0. split; [apply list_elem_of_here|]. rewrite Hd0. by exists ex.
Qed.

(** X9 -- [state_attributes] raises exactly when one of its conversions
    or roundings raises: the conversion of a reported temperature,
    pressure, wind speed or visibility that has a native unit, the
    rounding of the humidity, the rounding of the pressure (converted
    or not), or the conversion of a field of a forecast record.  No
    such exception is swallowed, and the run raises for no other
    reason.  An exception of the conversion of the entity's temperature
    is the very one the run raises, the temperature being handled
    first. *)
Theorem conversion_errors_propagate self e ds h :
  entity_at h self e ds ->
  (raises (state_attributes self h).1 <-> conversion_fails e ds) /\
  (forall t u ex,
     temperature e = Some t -> temperature_unit e = Some u ->
     convert_temperature e (VNum t) u = Raise ex ->
     (state_attributes self h).1 = Raise ex).
Proof.
  intros Hat.
  assert (Htop :
            (raises (shown_temperature e) \/ raises (shown_humidity e) \/
             raises (shown_ozone e) \/ raises (shown_pressure e) \/
             raises (shown_wind_bearing e) \/ raises (shown_wind_speed e) \/
             raises (shown_visibility e)) ->
            raises (state_attributes self h).1).
  { intros Hany. apply (run_raises _ _ _ _ Hat). unfold expected.
    by apply raises_bind, top_attributes_raises. }
  split; [split|].
  - intros Hraises. apply (run_raises_inv _ _ _ _ Hat) in Hraises.
    unfold expected in Hraises.
    destruct (top_attributes e) as [top|ex] eqn:Htop'.
    2:{ apply top_attributes_raises_inv. rewrite Htop'. by exists ex. }
    rewrite WeatherSpec.result_bind_ok in Hraises.
    destruct (forecast e) as [fl|] eqn:Hfc; [|by destruct Hraises].
    destruct (converted_entries e ds) as [ds'|ex] eqn:Hds; [by destruct Hraises|].
    destruct (converted_entries_raises_inv e ds) as (d & Hd & Hex).
    { rewrite Hds. by exists ex. }
    apply converted_entry_raises_inv in Hex
      as (k & unit & conv & v & u & Hin & Hk & Hv & Hu & Hex).
    apply (forecast_field_fails e ds d k unit conv v u); try done.
    by rewrite Hfc.
  - intros [t u Ht Hu Hex|x Hx Hex|p u Hp Hu Hex|p Hp Hu Hex|p u c Hp Hu Hc Hex
            |w u Hw Hu Hex|x u Hx Hu Hex|d k unit conv v u Hfc Hd Hin Hk Hv Hu Hex].
    + apply Htop. left. unfold shown_temperature. rewrite Ht, Hu.
      by apply raises_bind.
    + apply Htop. right; left. unfold shown_humidity. rewrite Hx.
      by apply raises_bind.
    + apply Htop. do 3 right; left. unfold shown_pressure. rewrite Hp, Hu.
      by apply raises_bind.
    + apply Htop. do 3 right; left. unfold shown_pressure. rewrite Hp, Hu.
      rewrite WeatherSpec.result_bind_ok. by apply raises_bind.
    + apply Htop. do 3 right; left. unfold shown_pressure. rewrite Hp, Hu, Hc.
      rewrite WeatherSpec.result_bind_ok. by apply raises_bind.
    + apply Htop. do 5 right; left. unfold shown_wind_speed. rewrite Hw, Hu.
      by apply raises_bind.
    + apply Htop. do 6 right. unfold shown_visibility. rewrite Hx, Hu.
      by apply raises_bind.
    + apply (run_raises _ _ _ _ Hat). unfold expected.
      destruct (top_attributes e) as [top|ex]; [|by exists ex].
      rewrite WeatherSpec.result_bind_ok. destruct (forecast e); [|done].
      apply raises_bind. eapply converted_entries_raises; [exact Hd|].
      by eapply converted_entry_raises.
  - intros t u ex Ht Hu Hex.
    destruct (WeatherSpec.state_attributes_run _ _ _ _ Hat) as (h' & _ & Hrun).
    unfold expected, top_attributes, shown_temperature in Hrun.
    rewrite Ht, Hu, Hex in Hrun. by rewrite Hrun.
Qed.

Lemma entity_at_weaken h h' self e ds :
  h ⊆ h' -> entity_at h self e ds -> entity_at h' self e ds.
Proof.
  intros Hsub [Hs Hfc]. split; [eapply lookup_weaken; eassumption|].
  destruct (forecast e); [|done]. by eapply WeatherSpec.stored_forecast_weaken.
Qed.

Lemma returned_no_forecast_records h h' data top :
  top !! ATTR_FORECAST = None ->
  returned h h' data top None -> forecast_records h' data = None.
Proof.
  intros Htop [_ Hret]. unfold forecast_records, attribute. by rewrite Hret, Htop.
Qed.

(** X10 -- Reading the attributes a second time, in the store the first
    read left, has the same outcome: the same exception, or the same
    attribute values and forecast records, held by objects none of which
    existed after the first read (so the two results share no dict or
    list). *)
Theorem reading_twice self e ds h r1 h1 :
  entity_at h self e ds ->
  state_attributes self h = (r1, h1) ->
  exists r2 h2,
    state_attributes self h1 = (r2, h2) /\
    match r1, r2 with
    | Ok data1, Ok data2 =>
        data2 ≠ data1 /\
        Forall (fun l => l ∉ dom h1) (result_objects h2 data2) /\
        (forall k, k ≠ ATTR_FORECAST ->
                   attribute h2 data2 k = attribute h1 data1 k) /\
        forecast_records h2 data2 = forecast_records h1 data1
    | Raise ex1, Raise ex2 => ex1 = ex2
    | _, _ => False
    end.
Proof.
  intros Hat Hrun1.
  pose proof (WeatherSpec.state_attributes_frame _ _ _ _ _ _ Hat Hrun1) as Hsub.
  pose proof (entity_at_weaken _ _ _ _ _ Hsub Hat) as Hat1.
  destruct (WeatherSpec.state_attributes_run _ _ _ _ Hat) as (h1' & _ & Hout1).
  destruct (WeatherSpec.state_attributes_run _ _ _ _ Hat1) as (h2 & _ & Hout2).
  destruct (expected e ds) as [[top entries]|ex] eqn:Hexp.
  - destruct Hout1 as (data1 & Hrun1' & Hret1).
    destruct Hout2 as (data2 & Hrun2 & Hret2).
    rewrite Hrun1 in Hrun1'. injection Hrun1' as -> ->.
    exists (Ok data2), h2. split; [done|].
    apply WeatherSpec.expected_inv in Hexp as [Htop _].
    apply WeatherSpec.top_attributes_inv in Htop as (_&_&_&_&_&_&_&Htop).
    split; [|split; [|split]].
    + intros ->. destruct Hret2 as [Hnew _]. apply Hnew.
      destruct Hret1 as [_ Hret1]. apply elem_of_dom.
      destruct entries as [ds'|]; [destruct Hret1 as (?&?&->&_)|rewrite Hret1];
        eauto.
    + by eapply WeatherSpec.returned_objects_new.
    + intros k Hk.
      by rewrite (WeatherSpec.returned_attribute _ _ _ _ _ _ Hret1),
        (WeatherSpec.returned_attribute _ _ _ _ _ _ Hret2).
    + destruct entries as [ds'|].
      * by rewrite (WeatherSpec.returned_forecast_records _ _ _ _ _ Hret1),
          (WeatherSpec.returned_forecast_records _ _ _ _ _ Hret2).
      * by rewrite (returned_no_forecast_records _ _ _ _ Htop Hret1),
          (returned_no_forecast_records _ _ _ _ Htop Hret2).
  - rewrite Hrun1 in Hout1. injection Hout1 as -> ->.
    exists (Raise ex), h2. done.
Qed.

Lemma converted_field_dom unit conv k d d' :
  converted_field unit conv k d = Ok d' -> dom d' = dom d.
Proof.
  unfold converted_field. destruct (d !! k) as [v|] eqn:Hk; simpl.
  - destruct (is_None v); [by intros [= <-]|].
    destruct unit as [u|]; [|by intros [= <-]].
    destruct (conv v u) as [c|]; [|done].
    rewrite WeatherSpec.result_bind_ok. intros [= <-].
    rewrite dom_insert_L. apply subseteq_union_1_L, singleton_subseteq_l.
    apply elem_of_dom. by exists v.
  - by intros [= <-].
Qed.

Lemma converted_entry_dom e d d' :
  converted_entry e d = Ok d' -> dom d' = dom d.
Proof.
  unfold converted_entry. intros Hd'.
  destruct (converted_field _ _ ATTR_FORECAST_TEMP d) as [d1|] eqn:H1; [|done].
  rewrite WeatherSpec.result_bind_ok in Hd'.
  destruct (converted_field _ _ ATTR_FORECAST_TEMP_LOW d1) as [d2|] eqn:H2; [|done].
  rewrite WeatherSpec.result_bind_ok in Hd'.
  destruct (converted_field _ _ ATTR_FORECAST_PRESSURE d2) as [d3|] eqn:H3; [|done].
  rewrite WeatherSpec.result_bind_ok in Hd'.
  destruct (converted_field _ _ ATTR_FORECAST_WIND_SPEED d3) as [d4|] eqn:H4; [|done].
  rewrite WeatherSpec.result_bind_ok in Hd'.
  apply converted_field_dom in H1, H2, H3, H4, Hd'. congruence.
Qed.

(** X11 -- The conversion of the forecast keeps the shape of every
    record: the returned record has exactly the keys of the stored one,
    no field is added and none is dropped. *)
Theorem forecast_keys_kept self e ds h data h' :
  entity_at h self e ds ->
  state_attributes self h = (Ok data, h') ->
  forecast e ≠ None ->
  exists ds',
    forecast_records h' data = Some ds' /\
    Forall2 (fun d d' => dom d' = dom d) ds ds'.
Proof.
  intros Hat Hrun Hfc.
  destruct (WeatherSpec.run_records _ _ _ _ _ _ Hat Hrun Hfc) as (ds' & Hds' & Hall).
  exists ds'. split; [done|].
  eapply Forall2_impl; [exact Hall|]. intros d d' Hd. cbn beta in Hd.
  exact (converted_entry_dom _ _ _ Hd).
Qed.

(** X12 -- A forecast field whose quantity has no native unit on the
    entity is passed on exactly as stored, pressure included (the
    entity's own pressure is rounded even then).  When the entity names
    none of the four units the returned records are equal to the stored
    ones. *)
Theorem forecast_without_units_copied self e ds h data h' :
  entity_at h self e ds ->
  state_attributes self h = (Ok data, h') ->
  forecast e ≠ None ->
  exists ds',
    forecast_records h' data = Some ds' /\
    Forall2
      (fun d d' =>
         (temperature_unit e = None ->
          d' !! ATTR_FORECAST_TEMP = d !! ATTR_FORECAST_TEMP /\
          d' !! ATTR_FORECAST_TEMP_LOW = d !! ATTR_FORECAST_TEMP_LOW) /\
         (pressure_unit e = None ->
          d' !! ATTR_FORECAST_PRESSURE = d !! ATTR_FORECAST_PRESSURE) /\
         (wind_speed_unit e = None ->
          d' !! ATTR_FORECAST_WIND_SPEED = d !! ATTR_FORECAST_WIND_SPEED) /\
         (precipitation_unit e = None ->
          d' !! ATTR_FORECAST_PRECIPITATION = d !! ATTR_FORECAST_PRECIPITATION))
      ds ds' /\
    (temperature_unit e = None -> pressure_unit e = None ->
     wind_speed_unit e = None -> precipitation_unit e = None -> ds' = ds).
Proof.
  intros Hat Hrun Hfc.
  destruct (WeatherSpec.run_records _ _ _ _ _ _ Hat Hrun Hfc) as (ds' & Hds' & Hall).
  assert (Hfield : forall rule k d d',
            field_shown None rule k d d' -> d' !! k = d !! k).
  { intros rule k d d'. unfold field_shown. by destruct (d !! k). }
  exists ds'. split; [done|]. split.
  - eapply Forall2_impl; [exact Hall|]. intros d d' Hd.
    apply WeatherSpec.converted_entry_rules in Hd as (F1 & F2 & F3 & F4 & F5 & _).
    split; [|split; [|split]]; intros Hu.
    + rewrite Hu in F1, F2. split; by eapply Hfield.
    + rewrite Hu in F3. by eapply Hfield.
    + rewrite Hu in F4. by eapply Hfield.
    + rewrite Hu in F5. by eapply Hfield.
  - intros Ht Hp Hw Hr. symmetry. apply list_eq_Forall2.
    eapply Forall2_impl; [exact Hall|]. intros d d' Hd. cbn beta in Hd.
    apply WeatherSpec.converted_entry_rules in Hd as (F1 & F2 & F3 & F4 & F5 & Hrest).
    rewrite Ht in F1, F2. rewrite Hp in F3. rewrite Hw in F4. rewrite Hr in F5.
    apply map_eq. intros k. symmetry.
    destruct (decide (k ∈ converted_keys)) as [Hin|Hout]; [|by apply Hrest].
    unfold converted_keys in Hin. rewrite !elem_of_cons, elem_of_nil in Hin.
    destruct Hin as [->|[->|[->|[->|[->|[]]]]]]; by eapply Hfield.
Qed.

(** X13 -- The visibility is converted by code written out inside
    [state_attributes]; it stores what the method [convert_visibility],
    which nothing calls, returns for the same value and unit. *)
Theorem visibility_as_by_method self e ds h data h' x u :
  entity_at h self e ds ->
  state_attributes self h = (Ok data, h') ->
  visibility e = Some x -> visibility_unit e = Some u ->
  exists r,
    convert_visibility e (VNum x) u = Ok r /\
    attribute h' data ATTR_WEATHER_VISIBILITY = Some r.
Proof.
  intros Hat Hrun Hx Hu.
  destruct (WeatherSpec.run_attributes _ _ _ _ _ _ Hat Hrun)
    as (_ & _ & _ & _ & _ & _ & Hvi).
  unfold shown_visibility in Hvi. rewrite Hx, Hu in Hvi.
  destruct (convert_visibility e (VNum x) u) as [r|]; [|done].
  rewrite WeatherSpec.result_bind_ok in Hvi. injection Hvi as <-. by exists r.
Qed.

(** The dicts the forecast loop appends are pairwise different objects
    that did not exist when the loop started. *)
Lemma forecast_loop_distinct self fl' e ls : forall ds acc h h',
  h !! self = Some (OEntity e) ->
  h !! fl' = Some (OList acc) ->
  Forall2 (fun l d => h !! l = Some (ODict d)) ls ds ->
  for_each (VRef <$> ls) (forecast_loop_body self fl') h = (Ok tt, h') ->
  (forall x o, x ≠ fl' -> h !! x = Some o -> is_Some (h' !! x)) /\
  exists ls',
    h' !! fl' = Some (OList (acc ++ (VRef <$> ls'))) /\
    NoDup ls' /\
    Forall (fun l' => h !! l' = None /\ is_Some (h' !! l')) ls'.
Proof.
  induction ls as [|l ls IH]; intros ds acc h h' Hs Hfl Hsrc Hrun.
  - cbn in Hrun. injection Hrun as <-. split; [eauto|].
    exists []. rewrite app_nil_r. repeat split; [done|constructor|constructor].
  - apply Forall2_cons_inv_l in Hsrc as (d & ds0 & Hl & Hsrc & ->).
    destruct (WeatherSpec.forecast_loop_body_run self fl' e l d acc h Hs Hl Hfl)
      as [dx Hbody].
    set (l' := fresh (dom h)) in *.
    assert (Hl' : h !! l' = None) by apply WeatherSpec.fresh_unused.
    assert (Hfl_ne : fl' ≠ l') by (by eapply WeatherSpec.fresh_ne).
    cbn [fmap list_fmap for_each] in Hrun.
    rewrite WeatherSpec.bind_run, Hbody in Hrun.
    destruct (converted_entry e d) as [d'|ex]; [|done].
    set (h2 := <[fl' := OList (acc ++ [VRef l'])]> (<[l' := ODict d']> h)) in *.
    assert (Hkeep : forall x o, x ≠ fl' -> h !! x = Some o -> h2 !! x = Some o).
    { intros x o Hx Hxo. unfold h2. rewrite !lookup_insert_ne; [done| |done].
      symmetry. by eapply WeatherSpec.fresh_ne. }
    destruct (IH ds0 (acc ++ [VRef l'])%list h2 h') as (Hstay & ls' & Hlist & Hnd & Hnew).
    { apply Hkeep; [|done]. intros ->. by rewrite Hs in Hfl. }
    { unfold h2. apply lookup_insert_eq. }
    { eapply Forall2_impl; [exact Hsrc|]. intros x dxx Hx. cbn beta in Hx.
      apply Hkeep; [|done]. intros ->. by rewrite Hx in Hfl. }
    { exact Hrun. }
    assert (Hl2 : h2 !! l' = Some (ODict d')).
    { unfold h2. rewrite lookup_insert_ne by done. apply lookup_insert_eq. }
    split.
    { intros x o Hx Hxo. eapply Hstay; [done|]. by eapply Hkeep. }
    exists (l' :: ls'). split; [by rewrite Hlist, <- app_assoc|]. split.
    + constructor; [|done]. intros Hin.
      rewrite Forall_forall in Hnew. destruct (Hnew _ Hin) as [Hnone _].
      by rewrite Hl2 in Hnone.
    + constructor.
      * split; [done|]. eapply Hstay; [|exact Hl2]. done.
      * eapply Forall_impl; [exact Hnew|]. intros x [Hx Hx']. split; [|done].
        destruct (h !! x) as [o|] eqn:Hhx; [|done].
        destruct (decide (x = fl')) as [->|Hne].
        -- unfold h2 in Hx. by rewrite lookup_insert_eq in Hx.
        -- by rewrite (Hkeep _ _ Hne Hhx) in Hx.
Qed.

(** X14 -- The objects a returned result is made of are pairwise
    different: the attribute dict, the forecast list and the forecast
    records are separate objects, so that changing one returned record
    changes no other record and not the attribute dict. *)
Theorem result_objects_distinct self e ds h data h' :
  entity_at h self e ds ->
  state_attributes self h = (Ok data, h') ->
  NoDup (result_objects h' data).
Proof.
  intros [Hs Hfc] Hrun. unfold state_attributes in Hrun.
  rewrite WeatherSpec.bind_run, WeatherSpec.new_run in Hrun. cbn beta iota in Hrun.
  assert (Hnew : h !! fresh (dom h) = None) by apply WeatherSpec.fresh_unused.
  revert Hnew Hrun. generalize (fresh (dom h)). intros data0 Hnew Hrun.
  assert (Hsub : forall dk, h ⊆ <[data0 := ODict dk]> h).
  { intros dk. by apply insert_subseteq. }
  assert (Hs' : forall dk, <[data0 := ODict dk]> h !! self = Some (OEntity e)).
  { intros dk. eapply lookup_weaken; [exact Hs|apply Hsub]. }
  assert (Hd' : forall dk, <[data0 := ODict dk]> h !! data0 = Some (ODict dk)).
  { intros dk. apply lookup_insert_eq. }
  rewrite WeatherSpec.bind_run,
    (WeatherSpec.temperature_block_run _ _ _ _ _ (Hs' _) (Hd' _)) in Hrun.
  destruct (shown_temperature e) as [t|]; [|done].
  rewrite insert_insert_eq in Hrun.
  rewrite WeatherSpec.bind_run,
    (WeatherSpec.humidity_block_run _ _ _ _ _ (Hs' _) (Hd' _)) in Hrun.
  destruct (shown_humidity e) as [hu|]; [|done].
  rewrite insert_insert_eq in Hrun.
  rewrite WeatherSpec.bind_run,
    (WeatherSpec.ozone_block_run _ _ _ _ _ (Hs' _) (Hd' _)) in Hrun.
  destruct (shown_ozone e) as [oz|]; [|done].
  rewrite insert_insert_eq in Hrun.
  rewrite WeatherSpec.bind_run,
    (WeatherSpec.pressure_block_run _ _ _ _ _ (Hs' _) (Hd' _)) in Hrun.
  destruct (shown_pressure e) as [p|]; [|done].
  rewrite insert_insert_eq in Hrun.
  rewrite WeatherSpec.bind_run,
    (WeatherSpec.wind_bearing_block_run _ _ _ _ _ (Hs' _) (Hd' _)) in Hrun.
  destruct (shown_wind_bearing e) as [wb|]; [|done].
  rewrite insert_insert_eq in Hrun.
  rewrite WeatherSpec.bind_run,
    (WeatherSpec.wind_speed_block_run _ _ _ _ _ (Hs' _) (Hd' _)) in Hrun.
  destruct (shown_wind_speed e) as [ws|]; [|done].
  rewrite insert_insert_eq in Hrun.
  rewrite WeatherSpec.bind_run,
    (WeatherSpec.visibility_block_run _ _ _ _ _ (Hs' _) (Hd' _)) in Hrun.
  destruct (shown_visibility e) as [vi|]; [|done].
  rewrite insert_insert_eq in Hrun. cbn beta iota in Hrun.
  match type of Hrun with
  | context [<[data0 := ODict ?d]> h] =>
      assert (Htop : d !! ATTR_FORECAST = None);
      [by rewrite !WeatherSpec.lookup_store_opt_ne, lookup_empty by done|];
      revert Htop Hrun; generalize d; intros top Htop Hrun
  end.
  specialize (Hs' top). specialize (Hd' top). specialize (Hsub top).
  revert Hs' Hd' Hsub Hrun. generalize (<[data0 := ODict top]> h).
  intros h0 Hs0 Hd0 Hsub0 Hrun.
  rewrite WeatherSpec.bind_run in Hrun. unfold forecast_block in Hrun.
  rewrite WeatherSpec.bind_run, (WeatherSpec.prop_run _ _ _ _ Hs0) in Hrun.
  cbn beta iota in Hrun.
  destruct (forecast e) as [fl|] eqn:Hforecast.
  2:{ cbn in Hrun. injection Hrun as <- <-.
      unfold result_objects, attribute. rewrite Hd0, Htop.
      apply NoDup_singleton. }
  destruct Hfc as (ls & Hfl & Hsrc).
  rewrite WeatherSpec.bind_run, WeatherSpec.new_run in Hrun. cbn beta iota in Hrun.
  assert (Hfl'new : h0 !! fresh (dom h0) = None) by apply WeatherSpec.fresh_unused.
  revert Hfl'new Hrun. generalize (fresh (dom h0)). intros fl' Hfl'new Hrun.
  assert (Hsub1 : h ⊆ <[fl' := OList []]> h0).
  { etrans; [exact Hsub0|]. by apply insert_subseteq. }
  assert (Hne : data0 ≠ fl').
  { intros Heq. rewrite <- Heq in Hfl'new. by rewrite Hd0 in Hfl'new. }
  assert (Hd1 : <[fl' := OList []]> h0 !! data0 = Some (ODict top)).
  { by rewrite lookup_insert_ne. }
  assert (Hl1 : <[fl' := OList []]> h0 !! fl' = Some (OList [])).
  { apply lookup_insert_eq. }
  revert Hsub1 Hd1 Hl1 Hrun. generalize (<[fl' := OList []]> h0).
  intros h1 Hsub1 Hd1 Hl1 Hrun.
  assert (Hs1 : h1 !! self = Some (OEntity e))
    by exact (lookup_weaken _ _ _ _ Hs Hsub1).
  rewrite WeatherSpec.bind_run, (WeatherSpec.prop_run _ _ _ _ Hs1), Hforecast in Hrun.
  cbn beta iota in Hrun.
  rewrite WeatherSpec.bind_run, (WeatherSpec.list_items_run fl (VRef <$> ls) h1) in Hrun
    by exact (lookup_weaken _ _ _ _ Hfl Hsub1).
  cbn beta iota in Hrun. rewrite WeatherSpec.bind_run in Hrun.
  destruct (for_each (VRef <$> ls) (forecast_loop_body self fl') h1)
    as [[[]|ex] h2] eqn:Hloop; cbn beta iota in Hrun; [|done].
  destruct (forecast_loop_distinct self fl' e ls ds [] h1 h2)
    as (Hstay & ls' & Hlist & Hnd & Hnews).
  { done. }
  { done. }
  { eapply Forall2_impl; [exact Hsrc|]. intros l d Hl. cbn beta in Hl.
    exact (lookup_weaken _ _ _ _ Hl Hsub1). }
  { exact Hloop. }
  destruct (Hstay data0 _ Hne Hd1) as [o Hd2].
  unfold dict_set in Hrun. rewrite Hd2 in Hrun.
  assert (Hdata_new : Forall (fun l' => l' ≠ data0 /\ l' ≠ fl') ls').
  { eapply Forall_impl; [exact Hnews|]. intros x [Hx _]. split.
    - intros ->. by rewrite Hd1 in Hx.
    - intros ->. by rewrite Hl1 in Hx. }
  destruct o as [| dtop |]; [done| |done].
  injection Hrun as <- <-.
  unfold result_objects, attribute.
  rewrite lookup_insert_eq, lookup_insert_eq, lookup_insert_ne, Hlist by done.
  cbn [app].
  assert (Homap : omap (fun item : value num =>
                          match item with VRef l => Some l | _ => None end)
                    (VRef <$> ls') = ls').
  { clear. induction ls' as [|x xs IH]; [done|]. cbn. by rewrite IH. }
  rewrite Homap. rewrite Forall_forall in Hdata_new.
  constructor.
  { rewrite not_elem_of_cons. split; [done|]. intros Hin.
    by destruct (Hdata_new _ Hin). }
  constructor; [|done]. intros Hin. by destruct (Hdata_new _ Hin).
Qed.

End Attributes.

(** *** On the sample platform *)

Lemma bare_entity_at :
  entity_at Site.bare_store 1%positive Site.bare [Sample.metric_record].
Proof.
  split; [reflexivity|]. exists [3%positive]. split; [reflexivity|].
  repeat constructor.
Qed.

Lemma bare_run :
  state_attributes (Externals0 := Sample.platform) 1%positive Site.bare_store
  = (Ok 4%positive, Site.bare_shown.2).
Proof. vm_compute. reflexivity. Qed.

Lemma mislabelled_entity_at :
  entity_at Site.mislabelled_store 1%positive Site.mislabelled [].
Proof. split; reflexivity. Qed.

Lemma inhg_is_custom :
  custom_units Site.CONF_UNITS_OF_MEASUREMENT
    (Site.entry_with {[ "pressure" := Some "inHg" ]})
  = Some {[ "pressure" := Some "inHg" ]}.
Proof. vm_compute. reflexivity. Qed.

Lemma displayed_unit_unknown_quantity_witness :
  displayed_unit (Externals0 := Sample.platform) Sample.entity ATTR_WEATHER_OZONE
  = Raise KeyError.
Proof.
  apply (displayed_unit_unknown_quantity (Externals0 := Sample.platform)).
  unfold quantities. WeatherSpec.not_listed.
Defined.

Lemma displayed_unit_default_or_valid_witness :
  exists default units u,
    preferred_units (Externals0 := Sample.platform)
      (Sample.native_metric (Sample.pressure_override "inHg"))
      !! "pressure" = Some default /\
    VALID_UNITS (Externals0 := Sample.platform) !! "pressure" = Some units /\
    displayed_unit (Externals0 := Sample.platform)
      (Sample.native_metric (Sample.pressure_override "inHg")) "pressure" = Ok u /\
    (u = default \/ u ∈ units).
Proof.
  apply (displayed_unit_default_or_valid (Externals0 := Sample.platform)).
  unfold quantities. WeatherSpec.listed.
Defined.

Lemma displayed_unit_local_witness :
  displayed_unit (Externals0 := Sample.platform)
    (set_option_units (Sample.native_metric None)
       (Some (<["temperature" := Some "°F"]> ∅))) "pressure"
  = displayed_unit (Externals0 := Sample.platform)
      (set_option_units (Sample.native_metric None) (Some ∅)) "pressure".
Proof.
  apply (proj1 (displayed_unit_local (Externals0 := Sample.platform)
                  (Sample.native_metric None) "pressure")).
  discriminate.
Defined.

Lemma custom_units_read_witness :
  exists weather_options,
    options (Site.entry_with {[ "pressure" := Some "inHg" ]}) !! DOMAIN
      = Some weather_options /\
    weather_options !! Site.CONF_UNITS_OF_MEASUREMENT
      = Some {[ "pressure" := Some "inHg" ]} /\
    ({[ "pressure" := Some "inHg" ]} : gmap string (option string)) ≠ ∅.
Proof.
  apply (proj1 (custom_units_read Site.CONF_UNITS_OF_MEASUREMENT
                  (Site.entry_with {[ "pressure" := Some "inHg" ]})
                  {[ "pressure" := Some "inHg" ]})).
  exact inhg_is_custom.
Defined.

Lemma registry_update_clears_witness :
  exists self',
    async_registry_entry_updated Site.CONF_UNITS_OF_MEASUREMENT
      (Site.registered (Some Site.plain_entry))
      = (["registry update!"], Passed self') /\
    registry_entry self' = Some Site.plain_entry /\
    set_option_units (entity self') (Sample.pressure_override "inHg")
      = Sample.native_metric (Sample.pressure_override "inHg") /\
    forall quantity,
      quantity ∈ quantities ->
      exists default,
        preferred_units (Externals0 := Sample.platform)
          (Sample.native_metric (Sample.pressure_override "inHg"))
          !! quantity = Some default /\
        displayed_unit (Externals0 := Sample.platform) (entity self') quantity
          = Ok default.
Proof.
  apply (registry_update_clears (Externals0 := Sample.platform)
           Site.CONF_UNITS_OF_MEASUREMENT
           (Site.registered (Some Site.plain_entry)) Site.plain_entry).
  - reflexivity.
  - reflexivity.
Defined.

Lemma registry_update_replaces_witness :
  exists self',
    async_registry_entry_updated Site.CONF_UNITS_OF_MEASUREMENT
      (Site.registered (Some (Site.entry_with {[ "pressure" := Some "inHg" ]})))
      = (["registry update!"], Passed self') /\
    forall quantity,
      quantity ∈ quantities ->
      exists default valid,
        preferred_units (Externals0 := Sample.platform)
          (Sample.native_metric (Sample.pressure_override "inHg"))
          !! quantity = Some default /\
        VALID_UNITS (Externals0 := Sample.platform) !! quantity = Some valid /\
        (forall unit,
           ({[ "pressure" := Some "inHg" ]} : gmap string (option string))
             !! quantity = Some (Some unit) ->
           unit ≠ "" -> unit ∈ valid ->
           displayed_unit (Externals0 := Sample.platform) (entity self') quantity
           = Ok unit) /\
        (({[ "pressure" := Some "inHg" ]} : gmap string (option string))
           !! quantity = None ->
         displayed_unit (Externals0 := Sample.platform) (entity self') quantity
         = Ok default).
Proof.
  apply (registry_update_replaces (Externals0 := Sample.platform)
           Site.CONF_UNITS_OF_MEASUREMENT
           (Site.registered (Some (Site.entry_with {[ "pressure" := Some "inHg" ]})))
           (Site.entry_with {[ "pressure" := Some "inHg" ]})).
  - reflexivity.
  - exact inhg_is_custom.
Defined.

Lemma added_to_hass_guards_assertion_witness :
  async_internal_added_to_hass Site.CONF_UNITS_OF_MEASUREMENT id
    (Site.registered None)
  = ([], Passed (Site.registered None)).
Proof.
  destruct (added_to_hass_guards_assertion Site.CONF_UNITS_OF_MEASUREMENT
              id (Site.registered None)) as (_ & Hnone & _).
  apply Hnone. reflexivity.
Defined.

Lemma attributes_present_iff_reported_witness :
  is_Some (attribute Sample.silent_shown.2 4%positive ATTR_FORECAST) /\
  attribute Sample.silent_shown.2 4%positive ATTR_FORECAST_PRECIPITATION = None.
Proof.
  destruct (attributes_present_iff_reported (Externals0 := Sample.platform)
              1%positive Sample.silent [Sample.silent_record] Sample.silent_store
              4%positive Sample.silent_shown.2
              WeatherSpec.silent_entity_at WeatherSpec.silent_run)
    as (_ & _ & _ & _ & _ & _ & _ & Hforecast & Hother).
  split.
  - apply Hforecast. by eexists.
  - apply Hother. unfold attribute_keys. WeatherSpec.not_listed.
Defined.

Lemma conversion_errors_propagate_witness :
  (raises (state_attributes (Externals0 := Sample.platform)
             1%positive Site.mislabelled_store).1
   <-> conversion_fails (Externals0 := Sample.platform) Site.mislabelled []) /\
  (state_attributes (Externals0 := Sample.platform)
     1%positive Site.mislabelled_store).1
  = Raise ValueError.
Proof.
  destruct (conversion_errors_propagate (Externals0 := Sample.platform)
              1%positive Site.mislabelled [] Site.mislabelled_store
              mislabelled_entity_at)
    as (Hraises & Htemperature).
  split; [exact Hraises|].
  apply (Htemperature 2137%Z "m/s"); reflexivity.
Defined.

Lemma reading_twice_witness :
  exists r2 h2,
    state_attributes (Externals0 := Sample.platform) 1%positive Sample.shown.2
      = (r2, h2) /\
    match r2 with
    | Ok data2 =>
        data2 ≠ 4%positive /\
        Forall (fun l => l ∉ dom Sample.shown.2) (result_objects h2 data2) /\
        (forall k, k ≠ ATTR_FORECAST ->
                   attribute h2 data2 k = attribute Sample.shown.2 4%positive k) /\
        forecast_records h2 data2 = forecast_records Sample.shown.2 4%positive
    | Raise _ => False
    end.
Proof.
  apply (reading_twice (Externals0 := Sample.platform)
           1%positive Sample.entity [Sample.record] Sample.store
           (Ok 4%positive) Sample.shown.2).
  - exact WeatherSpec.sample_entity_at.
  - exact WeatherSpec.sample_run.
Defined.

Lemma forecast_keys_kept_witness :
  exists ds',
    forecast_records Sample.shown.2 4%positive = Some ds' /\
    Forall2 (fun d d' => dom d' = dom d) [Sample.record] ds'.
Proof.
  apply (forecast_keys_kept (Externals0 := Sample.platform)
           1%positive Sample.entity [Sample.record] Sample.store
           4%positive Sample.shown.2).
  - exact WeatherSpec.sample_entity_at.
  - exact WeatherSpec.sample_run.
  - discriminate.
Defined.

Lemma forecast_without_units_copied_witness :
  forecast_records Site.bare_shown.2 4%positive = Some [Sample.metric_record].
Proof.
  destruct (forecast_without_units_copied (Externals0 := Sample.platform)
              1%positive Site.bare [Sample.metric_record] Site.bare_store
              4%positive Site.bare_shown.2 bare_entity_at bare_run)
    as (ds' & Hrecords & _ & Hsame).
  - discriminate.
  - rewrite Hrecords, Hsame; reflexivity.
Defined.

Lemma visibility_as_by_method_witness :
  exists r,
    convert_visibility (Externals0 := Sample.platform) Sample.entity
      (VNum 1000%Z) "mi" = Ok r /\
    attribute Sample.shown.2 4%positive ATTR_WEATHER_VISIBILITY = Some r.
Proof.
  apply (visibility_as_by_method (Externals0 := Sample.platform)
           1%positive Sample.entity [Sample.record] Sample.store
           4%positive Sample.shown.2).
  - exact WeatherSpec.sample_entity_at.
  - exact WeatherSpec.sample_run.
  - reflexivity.
  - reflexivity.
Defined.

Lemma result_objects_distinct_witness :
  NoDup (result_objects Sample.shown.2 4%positive).
Proof.
  apply (result_objects_distinct (Externals0 := Sample.platform)
           1%positive Sample.entity [Sample.record] Sample.store
           4%positive Sample.shown.2).
  - exact WeatherSpec.sample_entity_at.
  - exact WeatherSpec.sample_run.
Defined.

End WeatherMore.


(** * Further properties of the TED sensors *)

Module TedMore.
Import Ted TedSetup.

(** X15 -- [TedBreakdownSensor.state] returns exactly when the group is in
    the coordinator data, the position is in the group and what is stored
    there is a dict; it then returns the reading under the sensor's key,
    or [None] when the reading lacks the key.  A group that is missing
    altogether raises [KeyError]. *)
Theorem breakdown_state_returns_iff (self : TedBreakdownSensor) (v : pyval) :
  (breakdown_state self = Ok v <->
   exists data group reading,
     coordinator_data (base self) = PDict data /\
     data !! Ted._group self = Some (PDict group) /\
     group !! Ted._position self = Some (PDict reading) /\
     v = default PNone (reading !! description_key (base self))) /\
  (forall data,
     coordinator_data (base self) = PDict data ->
     data !! Ted._group self = None ->
     breakdown_state self = Raise KeyError).
Proof.
  unfold breakdown_state, subscript, get. split; [split|].
  - destruct (coordinator_data (base self)) as [| | |data]; try done.
    destruct (data !! Ted._group self) as [[| | |group]|] eqn:Hg; try done.
    destruct (group !! Ted._position self) as [[| | |reading]|] eqn:Hp; try done.
    intros [= <-]. by exists data, group, reading.
  - intros (data & group & reading & -> & -> & -> & ->). done.
  - intros data -> ->. done.
Qed.

(** ** [collect] *)

Lemma collect_elem_of {A B} (f : A -> result (list B)) xs ys y :
  collect f xs = Ok ys ->
  y ∈ ys <-> exists x l, x ∈ xs /\ f x = Ok l /\ y ∈ l.
Proof.
  revert ys. induction xs as [|x xs IH]; intros ys; simpl.
  - intros [= <-]. split; [by intros ?%elem_of_nil|].
    by intros (x & l & ?%elem_of_nil & _).
  - destruct (f x) as [l|] eqn:Hx; [|done]. rewrite WeatherSpec.result_bind_ok.
    destruct (collect f xs) as [more|]; [|done].
    rewrite WeatherSpec.result_bind_ok. intros [= <-].
    rewrite elem_of_app, (IH more eq_refl). split.
    + intros [Hy|(x' & l' & Hx' & Hfx' & Hy)].
      * exists x, l. by rewrite elem_of_cons; auto.
      * exists x', l'. rewrite elem_of_cons. auto.
    + intros (x' & l' & [->|Hx']%elem_of_cons & Hfx' & Hy).
      * left. congruence.
      * right. eauto.
Qed.

Lemma collect_length {A B} (f : A -> result (list B)) xs ys n :
  (forall x l, x ∈ xs -> f x = Ok l -> length l = n) ->
  collect f xs = Ok ys -> length ys = n * length xs.
Proof.
  revert ys. induction xs as [|x xs IH]; intros ys Hn; simpl.
  - intros [= <-]. simpl. lia.
  - destruct (f x) as [l|] eqn:Hx; [|done]. rewrite WeatherSpec.result_bind_ok.
    destruct (collect f xs) as [more|]; [|done].
    rewrite WeatherSpec.result_bind_ok. intros [= <-].
    rewrite length_app, (Hn x l), (IH more); [lia| |done| |done].
    + intros x' l' Hx'. apply Hn. by apply elem_of_cons; right.
    + apply elem_of_cons. by left.
Qed.

Lemma collect_returns {A B} (f : A -> result (list B)) xs :
  (exists ys, collect f xs = Ok ys) <-> Forall (fun x => exists l, f x = Ok l) xs.
Proof.
  induction xs as [|x xs IH]; simpl.
  - split; [constructor|by eexists].
  - rewrite Forall_cons, <- IH. split.
    + intros [ys Hys]. destruct (f x) as [l|]; [|done].
      rewrite WeatherSpec.result_bind_ok in Hys.
      destruct (collect f xs) as [more|]; [|done]. eauto.
    + intros [[l ->] [more ->]]. by eexists.
Qed.

Lemma collect_NoDup {A B} (f : A -> result (list B)) xs ys :
  NoDup xs ->
  (forall x l, x ∈ xs -> f x = Ok l -> NoDup l) ->
  (forall x x' l l' y,
     x ∈ xs -> x' ∈ xs -> f x = Ok l -> f x' = Ok l' ->
     y ∈ l -> y ∈ l' -> x = x') ->
  collect f xs = Ok ys -> NoDup ys.
Proof.
  revert ys. induction xs as [|x xs IH]; intros ys Hxs Hl Hdisj; simpl.
  - intros [= <-]. constructor.
  - destruct (f x) as [l|] eqn:Hx; [|done]. rewrite WeatherSpec.result_bind_ok.
    destruct (collect f xs) as [more|] eqn:Hmore; [|done].
    rewrite WeatherSpec.result_bind_ok. intros [= <-].
    apply NoDup_cons in Hxs as [Hnotin Hxs].
    apply NoDup_app. split; [|split].
    + eapply Hl; [apply list_elem_of_here|done].
    + intros y Hy Hy'.
      apply (collect_elem_of _ _ _ y Hmore) in Hy' as (x' & l' & Hx' & Hfx' & Hyl').
      assert (x = x') as <-; [|done].
      exact (Hdisj x x' l l' y (list_elem_of_here _ _)
               (list_elem_of_further _ _ _ Hx') Hx Hfx' Hy Hyl').
    + apply IH; [done| | |done].
      * intros x' l' Hx'. apply Hl. by apply list_elem_of_further.
      * intros x1 x2 l1 l2 y H1 H2. apply Hdisj; by apply list_elem_of_further.
Qed.

(** ** Strings joined by underscores *)

Lemma append_String c s t : (String c s ++ t)%string = String c (s ++ t)%string.
Proof. reflexivity. Qed.

Lemma append_Empty t : ("" ++ t)%string = t.
Proof. reflexivity. Qed.

Lemma has_underscore_app s t : has_underscore (s ++ "_" ++ t) = true.
Proof.
  induction s as [|c s IH]; [done|].
  rewrite append_String. cbn [has_underscore]. rewrite IH. apply orb_true_r.
Qed.

(** A position without underscores ends at the first underscore. *)
Lemma split_at_first_underscore p p' k k' :
  has_underscore p = false -> has_underscore p' = false ->
  (p ++ "_" ++ k)%string = (p' ++ "_" ++ k')%string -> p = p' /\ k = k'.
Proof.
  revert p'. induction p as [|c p IH]; intros [|c' p'] Hp Hp' Heq;
    rewrite ?append_String, ?append_Empty in Heq.
  - by injection Heq.
  - injection Heq as <- _. done.
  - injection Heq as -> _. done.
  - injection Heq as -> Heq.
    cbn [has_underscore] in Hp, Hp'.
    apply orb_false_elim in Hp as [_ Hp]. apply orb_false_elim in Hp' as [_ Hp'].
    by destruct (IH p' Hp Hp') as [-> ->].
Qed.

(** A key without underscores starts after the last underscore. *)
Lemma split_at_last_underscore p p' k k' :
  has_underscore k = false -> has_underscore k' = false ->
  (p ++ "_" ++ k)%string = (p' ++ "_" ++ k')%string -> p = p' /\ k = k'.
Proof.
  revert p'. induction p as [|c p IH]; intros [|c' p'] Hk Hk' Heq;
    rewrite ?append_String, ?append_Empty in Heq.
  - by injection Heq.
  - injection Heq as _ ->.
    pose proof (has_underscore_app p' k') as Hu.
    rewrite ?append_String, ?append_Empty in Hu. congruence.
  - injection Heq as _ <-.
    pose proof (has_underscore_app p k) as Hu.
    rewrite ?append_String, ?append_Empty in Hu. congruence.
  - injection Heq as -> Heq.
    by destruct (IH p' Hk Hk') as [-> ->].
Qed.

Lemma key_in_descriptions (descriptions : list SensorEntityDescription) :
  NoDup (key <$> descriptions) ->
  forall d d', d ∈ descriptions -> d' ∈ descriptions -> key d = key d' -> d = d'.
Proof.
  induction descriptions as [|d0 ds IH]; intros Hnd d d' Hd Hd' Hk.
  - by apply elem_of_nil in Hd.
  - rewrite fmap_cons in Hnd. apply NoDup_cons in Hnd as [Hnotin Hnd].
    apply elem_of_cons in Hd as [->|Hd]; apply elem_of_cons in Hd' as [->|Hd'].
    + done.
    + exfalso. apply Hnotin. rewrite Hk. apply list_elem_of_fmap. eauto.
    + exfalso. apply Hnotin. rewrite <- Hk. apply list_elem_of_fmap. eauto.
    + by apply IH.
Qed.

(** ** [async_setup_entry] *)

Section Setup.
Variable str : pyval -> string.

Lemma aggregate_entities_inv coordinator_data name unique_id entities :
  aggregate_entities coordinator_data name unique_id = Ok entities ->
  exists data is_5000,
    coordinator_data = PDict data /\
    data !! "is_5000" = Some is_5000 /\
    entity_key <$> entities
      = (if truth is_5000 then ["consumption"]
         else ["consumption"; "daily_consumption"; "mtd_consumption"]) /\
    Forall (fun x => exists s,
                x = ATedSensor s /\ TedSetup.data s = coordinator_data /\
                _device_id s = unique_id /\ entity_description s ∈ SENSORS /\
                _name s = (name ++ " " ++ TedSetup.name (entity_description s))%string)
      entities.
Proof.
  unfold aggregate_entities, SENSORS. cbn [collect].
  destruct coordinator_data as [| | |data]; try done. cbn [subscript].
  destruct (data !! "is_5000") as [is_5000|] eqn:H5; [|done].
  rewrite !WeatherSpec.result_bind_ok. intros Hentities.
  exists data, is_5000. split; [done|]. split; [done|].
  destruct (truth is_5000); cbn in Hentities; injection Hentities as <-.
  - split; [done|]. repeat constructor. eexists. repeat split.
    apply list_elem_of_here.
  - split; [done|].
    repeat constructor; eexists; repeat split;
      repeat first [apply list_elem_of_here | apply list_elem_of_further].
Qed.

Lemma aggregate_entities_returns data is_5000 name unique_id :
  data !! "is_5000" = Some is_5000 ->
  exists entities, aggregate_entities (PDict data) name unique_id = Ok entities.
Proof.
  intros H5. unfold aggregate_entities, SENSORS. cbn [collect subscript].
  rewrite H5, !WeatherSpec.result_bind_ok. destruct (truth is_5000); by eexists.
Qed.

(** The entities made for one reading of a group. *)
Lemma breakdown_entities_inv group descriptions coordinator_data unique_id entities :
  breakdown_entities str group descriptions coordinator_data unique_id = Ok entities ->
  exists data readings,
    coordinator_data = PDict data /\
    data !! group = Some (PDict readings) /\
    (forall position reading,
       readings !! position = Some reading ->
       exists fields, reading = PDict fields /\ is_Some (fields !! "name")) /\
    length entities = length descriptions * size readings /\
    (forall x,
       x ∈ entities <->
       exists position fields reading_name sensor_description,
         readings !! position = Some (PDict fields) /\
         fields !! "name" = Some reading_name /\
         sensor_description ∈ descriptions /\
         x = ATedBreakdownSensor
               {| sensor :=
                    {| entity_description := sensor_description;
                       _name := str reading_name ++ " "
                                  ++ TedSetup.name sensor_description;
                       _device_id := unique_id;
                       TedSetup.data := coordinator_data |};
                  TedSetup._group := group;
                  TedSetup._position := position |}).
Proof.
  unfold breakdown_entities.
  destruct coordinator_data as [| | |data]; try done. cbn [subscript].
  destruct (data !! group) as [[| | |readings]|] eqn:Hg; try done.
  cbn [items]. rewrite !WeatherSpec.result_bind_ok. intros Hentities.
  exists data, readings. split; [done|]. split; [done|].
  assert (Hname : forall position reading,
            readings !! position = Some reading ->
            exists fields, reading = PDict fields /\ is_Some (fields !! "name")).
  { intros position reading Hp. apply elem_of_map_to_list in Hp.
    assert (Hret : exists ys, collect
              (fun '(position, reading) =>
                 reading_name ← subscript reading "name";
                 Ok ((fun sensor_description =>
                        ATedBreakdownSensor
                          {| sensor :=
                               {| entity_description := sensor_description;
                                  _name := str reading_name ++ " "
                                             ++ TedSetup.name sensor_description;
                                  _device_id := unique_id;
                                  TedSetup.data := PDict data |};
                             TedSetup._group := group;
                             TedSetup._position := position |}) <$> descriptions))
              (map_to_list readings) = Ok ys) by eauto.
    apply collect_returns in Hret. rewrite Forall_forall in Hret.
    destruct (Hret _ Hp) as [l Hl]. cbn beta iota in Hl.
    destruct reading as [| | |fields]; try done. cbn [subscript] in Hl.
    exists fields. split; [done|]. by destruct (fields !! "name"). }
  split; [done|]. split.
  - rewrite <- length_map_to_list.
    eapply collect_length; [|exact Hentities].
    intros [position reading] l _. destruct (subscript reading "name"); [|done].
    rewrite WeatherSpec.result_bind_ok. intros [= <-]. apply length_fmap.
  - intros x. rewrite (collect_elem_of _ _ _ x Hentities). split.
    + intros ([position reading] & l & Hp & Hl & Hx).
      apply elem_of_map_to_list in Hp.
      destruct (Hname _ _ Hp) as (fields & -> & [reading_name Hn]).
      cbn [subscript] in Hl. rewrite Hn, WeatherSpec.result_bind_ok in Hl.
      injection Hl as <-.
      apply list_elem_of_fmap in Hx as (sensor_description & -> & Hd).
      by exists position, fields, reading_name, sensor_description.
    + intros (position & fields & reading_name & sensor_description
              & Hp & Hn & Hd & ->).
      exists (position, PDict fields). eexists. split.
      { by apply elem_of_map_to_list. }
      cbn [subscript]. rewrite Hn, WeatherSpec.result_bind_ok. split; [done|].
      apply list_elem_of_fmap. by exists sensor_description.
Qed.

Lemma breakdown_entities_returns group descriptions data readings unique_id :
  data !! group = Some readings ->
  readings_named readings ->
  exists entities,
    breakdown_entities str group descriptions (PDict data) unique_id = Ok entities.
Proof.
  intros Hg (fields & -> & Hnamed). unfold breakdown_entities.
  cbn [subscript]. rewrite Hg. cbn [items]. rewrite !WeatherSpec.result_bind_ok.
  apply collect_returns, Forall_forall.
  intros [position reading] Hp%elem_of_map_to_list.
  destruct (Hnamed _ _ Hp) as (readings & -> & [reading_name Hn]).
  cbn [subscript]. rewrite Hn. by eexists.
Qed.

Lemma async_setup_entry_inv coordinator_data name unique_id entities :
  async_setup_entry str coordinator_data name unique_id = Ok entities ->
  exists aggregate spyders mtus,
    aggregate_entities coordinator_data name unique_id = Ok aggregate /\
    breakdown_entities str "spyders" SPYDER_SENSORS coordinator_data unique_id
      = Ok spyders /\
    breakdown_entities str "mtus" MTU_SENSORS coordinator_data unique_id
      = Ok mtus /\
    entities = (aggregate ++ spyders ++ mtus)%list.
Proof.
  unfold async_setup_entry.
  destruct (aggregate_entities _ _ _) as [aggregate|]; [|done].
  rewrite WeatherSpec.result_bind_ok.
  destruct (breakdown_entities str "spyders" _ _ _) as [spyders|]; [|done].
  rewrite WeatherSpec.result_bind_ok.
  destruct (breakdown_entities str "mtus" _ _ _) as [mtus|]; [|done].
  rewrite WeatherSpec.result_bind_ok. intros [= <-].
  by exists aggregate, spyders, mtus.
Qed.

(** X16 -- [async_setup_entry] returns exactly for coordinator data that
    is a dict with an ["is_5000"] entry and with ["spyders"] and ["mtus"]
    entries that are dicts of dicts having a ["name"]; for any other
    data it raises. *)
Theorem setup_returns_iff_payload coordinator_data name unique_id :
  (exists entities,
     async_setup_entry str coordinator_data name unique_id = Ok entities)
  <-> payload coordinator_data.
Proof.
  split.
  - intros [entities Hsetup].
    apply async_setup_entry_inv in Hsetup
      as (aggregate & spyders & mtus & Ha & Hs & Hm & _).
    apply aggregate_entities_inv in Ha as (data & is_5000 & -> & H5 & _).
    apply breakdown_entities_inv in Hs as (data1 & sp & [= <-] & Hsp & Hspn & _).
    apply breakdown_entities_inv in Hm as (data2 & mt & [= <-] & Hmt & Hmtn & _).
    exists data, is_5000, (PDict sp), (PDict mt).
    repeat split; try done; by eexists.
  - intros (data & is_5000 & spyders & mtus & -> & H5 & Hsp & Hspn & Hmt & Hmtn).
    unfold async_setup_entry.
    destruct (aggregate_entities_returns data is_5000 name unique_id H5) as [a ->].
    destruct (breakdown_entities_returns "spyders" SPYDER_SENSORS data spyders
                unique_id Hsp Hspn) as [s ->].
    destruct (breakdown_entities_returns "mtus" MTU_SENSORS data mtus
                unique_id Hmt Hmtn) as [m ->].
    by eexists.
Qed.

(** X17 -- When [async_setup_entry] returns, it has made one aggregate
    sensor for a TED 5000 and three otherwise, and two sensors for every
    spyder and for every MTU; with no spyders and no MTUs there are
    only the aggregate sensors. *)
Theorem setup_entity_count coordinator_data name unique_id entities :
  async_setup_entry str coordinator_data name unique_id = Ok entities ->
  exists data is_5000 spyders mtus,
    coordinator_data = PDict data /\
    data !! "is_5000" = Some is_5000 /\
    data !! "spyders" = Some (PDict spyders) /\
    data !! "mtus" = Some (PDict mtus) /\
    length entities
      = (if truth is_5000 then 1 else 3) + 2 * size spyders + 2 * size mtus.
Proof.
  intros Hsetup.
  apply async_setup_entry_inv in Hsetup
    as (aggregate & spyders & mtus & Ha & Hs & Hm & ->).
  apply aggregate_entities_inv in Ha as (data & is_5000 & -> & H5 & Hkeys & _).
  apply breakdown_entities_inv in Hs as (data1 & sp & [= <-] & Hsp & _ & Hlen_s & _).
  apply breakdown_entities_inv in Hm as (data2 & mt & [= <-] & Hmt & _ & Hlen_m & _).
  exists data, is_5000, sp, mt. repeat split; try done.
  rewrite !length_app, Hlen_s, Hlen_m.
  assert (length aggregate = if truth is_5000 then 1 else 3) as ->.
  { rewrite <- (length_fmap entity_key), Hkeys. by destruct (truth is_5000). }
  simpl. lia.
Qed.

(** X18 -- Every entity [async_setup_entry] makes can tell its state from
    the coordinator data it was made from: reading the state returns a
    value ([None] when the reading lacks the key) and does not raise.
    The exception of a breakdown sensor thus needs coordinator data that
    lost the position after the set-up. *)
Theorem setup_entities_have_state coordinator_data name unique_id entities x :
  async_setup_entry str coordinator_data name unique_id = Ok entities ->
  x ∈ entities ->
  exists v, entity_state x = Ok v.
Proof.
  intros Hsetup Hx.
  apply async_setup_entry_inv in Hsetup
    as (aggregate & spyders & mtus & Ha & Hs & Hm & ->).
  apply aggregate_entities_inv in Ha as (data & is_5000 & -> & H5 & _ & Hagg).
  apply breakdown_entities_inv in Hs as (data1 & sp & [= <-] & Hsp & _ & _ & Hin_s).
  apply breakdown_entities_inv in Hm as (data2 & mt & [= <-] & Hmt & _ & _ & Hin_m).
  rewrite !elem_of_app in Hx. destruct Hx as [Hx|[Hx|Hx]].
  - rewrite Forall_forall in Hagg. destruct (Hagg _ Hx) as (s & -> & Hd & _).
    cbn. unfold state, get. cbn. rewrite Hd. by eexists.
  - apply Hin_s in Hx as (position & fields & reading_name & d & Hp & _ & _ & ->).
    cbn. unfold breakdown_state, subscript, get. cbn. rewrite Hsp, Hp. by eexists.
  - apply Hin_m in Hx as (position & fields & reading_name & d & Hp & _ & _ & ->).
    cbn. unfold breakdown_state, subscript, get. cbn. rewrite Hmt, Hp. by eexists.
Qed.


(** The unique ids of the sensors of one group tell the sensors apart
    when no position of the group or no key of the descriptions has an
    underscore in it. *)
Lemma breakdown_ids_inj group descriptions coordinator_data unique_id entities :
  breakdown_entities str group descriptions coordinator_data unique_id = Ok entities ->
  NoDup (key <$> descriptions) ->
  (forall d, d ∈ descriptions -> has_underscore (key d) = false) \/
  (forall data readings position,
     coordinator_data = PDict data ->
     data !! group = Some (PDict readings) ->
     is_Some (readings !! position) ->
     has_underscore position = false) ->
  forall x y,
    x ∈ entities -> y ∈ entities ->
    entity_unique_id x = entity_unique_id y -> x = y.
Proof.
  intros Hentities Hkeys Hplain x y Hx Hy Hid.
  apply breakdown_entities_inv in Hentities
    as (data & readings & -> & Hg & _ & _ & Hin).
  apply Hin in Hx as (p & fields & reading_name & d & Hp & Hn & Hd & ->).
  apply Hin in Hy as (p' & fields' & reading_name' & d' & Hp' & Hn' & Hd' & ->).
  cbn in Hid. unfold breakdown_unique_id in Hid. cbn in Hid.
  apply (inj (String.append unique_id)) in Hid.
  apply (inj (String.append "_")) in Hid.
  apply (inj (String.append group)) in Hid.
  apply (inj (String.append "_")) in Hid.
  assert (p = p' /\ key d = key d') as [<- Hk].
  { destruct Hplain as [Hplain|Hplain].
    - apply split_at_last_underscore; auto.
    - apply split_at_first_underscore; [| |done].
      + eapply Hplain; [done|exact Hg|by eexists].
      + eapply Hplain; [done|exact Hg|by eexists]. }
  rewrite Hp in Hp'. injection Hp' as <-.
  rewrite Hn in Hn'. injection Hn' as <-.
  by rewrite (key_in_descriptions descriptions Hkeys d d' Hd Hd' Hk).
Qed.

Lemma breakdown_entities_NoDup group descriptions coordinator_data unique_id entities :
  breakdown_entities str group descriptions coordinator_data unique_id = Ok entities ->
  NoDup descriptions ->
  NoDup entities.
Proof.
  unfold breakdown_entities.
  destruct coordinator_data as [| | |data]; try done. cbn [subscript].
  destruct (data !! group) as [[| | |readings]|] eqn:Hg; try done.
  cbn [items]. rewrite !WeatherSpec.result_bind_ok. intros Hentities Hnd.
  eapply collect_NoDup; [| | |exact Hentities]; [apply NoDup_map_to_list| |].
  - intros [position reading] l _. destruct (subscript reading "name"); [|done].
    rewrite WeatherSpec.result_bind_ok. intros [= <-].
    apply NoDup_fmap_2_strong; [|done]. by intros d d' _ _ [= ->].
  - intros [p reading] [p' reading'] l l' y Hp Hp'.
    destruct (subscript reading "name"); [|done].
    destruct (subscript reading' "name"); [|done].
    rewrite !WeatherSpec.result_bind_ok. intros [= <-] [= <-].
    intros (d & -> & _)%list_elem_of_fmap (d' & [= _ _ ->] & _)%list_elem_of_fmap.
    apply elem_of_map_to_list in Hp, Hp'. congruence.
Qed.

Lemma descriptions_distinct :
  NoDup (key <$> SENSORS) /\ NoDup (key <$> SPYDER_SENSORS) /\
  NoDup (key <$> MTU_SENSORS).
Proof.
  repeat split; cbn; repeat constructor;
    rewrite ?elem_of_cons, ?elem_of_nil; intros H;
    repeat (destruct H as [H|H]; try discriminate H); done.
Qed.

(** X20 -- The unique ids of the entities [async_setup_entry] makes are
    pairwise different, provided no spyder has an underscore in the
    key it is stored under.  The MTUs need no such condition, as no key
    of their descriptions has an underscore. *)
Theorem setup_unique_ids_distinct coordinator_data name unique_id entities :
  async_setup_entry str coordinator_data name unique_id = Ok entities ->
  (forall data spyders position,
     coordinator_data = PDict data ->
     data !! "spyders" = Some (PDict spyders) ->
     is_Some (spyders !! position) ->
     has_underscore position = false) ->
  NoDup (entity_unique_id <$> entities).
Proof.
  intros Hsetup Hplain.
  apply async_setup_entry_inv in Hsetup
    as (aggregate & spyders & mtus & Ha & Hs & Hm & ->).
  destruct descriptions_distinct as (Hk & Hks & Hkm).
  pose proof (breakdown_ids_inj _ _ _ _ _ Hs Hks (or_intror Hplain)) as Hinj_s.
  assert (Hplain_m : forall d, d ∈ MTU_SENSORS -> has_underscore (key d) = false).
  { intros d Hd. unfold MTU_SENSORS in Hd.
    rewrite !elem_of_cons, elem_of_nil in Hd. by destruct Hd as [->|[->|[]]]. }
  pose proof (breakdown_ids_inj _ _ _ _ _ Hm Hkm (or_introl Hplain_m)) as Hinj_m.
  pose proof (breakdown_entities_NoDup _ _ _ _ _ Hs (NoDup_fmap_1 _ _ Hks)) as Hnd_s.
  pose proof (breakdown_entities_NoDup _ _ _ _ _ Hm (NoDup_fmap_1 _ _ Hkm)) as Hnd_m.
  apply aggregate_entities_inv in Ha as (data & is_5000 & -> & H5 & Hkeys & Hagg).
  apply breakdown_entities_inv in Hs as (data1 & sp & [= <-] & _ & _ & _ & Hin_s).
  apply breakdown_entities_inv in Hm as (data2 & mt & [= <-] & _ & _ & _ & Hin_m).
  rewrite Forall_forall in Hagg.
  assert (Hnd_a : NoDup aggregate).
  { apply (NoDup_fmap_1 entity_key). rewrite Hkeys.
    destruct (truth is_5000); repeat constructor;
      rewrite ?elem_of_cons, ?elem_of_nil; intros H;
      repeat (destruct H as [H|H]; try discriminate H); done. }
  assert (Hinj_a : forall x y, x ∈ aggregate -> y ∈ aggregate ->
                               entity_unique_id x = entity_unique_id y -> x = y).
  { intros x y Hx Hy Hid.
    destruct (Hagg _ Hx) as ([d n i c] & -> & Hc & Hi & Hd & Hn).
    destruct (Hagg _ Hy) as ([d' n' i' c'] & -> & Hc' & Hi' & Hd' & Hn').
    cbn in *. subst. unfold TedSetup.unique_id in Hid. cbn in Hid.
    apply (inj (String.append unique_id)) in Hid.
    apply (inj (String.append "_")) in Hid.
    by rewrite (key_in_descriptions SENSORS Hk d d' Hd Hd' Hid). }
  assert (Hab : forall group x y,
             x ∈ aggregate ->
             (group = "spyders" \/ group = "mtus") ->
             (exists position reading_name sensor_description,
                y = ATedBreakdownSensor
                      {| sensor :=
                           {| entity_description := sensor_description;
                              _name := str reading_name ++ " "
                                         ++ TedSetup.name sensor_description;
                              _device_id := unique_id;
                              TedSetup.data := PDict data |};
                         TedSetup._group := group;
                         TedSetup._position := position |}) ->
             entity_unique_id x <> entity_unique_id y).
  { intros group x y Hx Hgroup (p & rn & d' & ->) Hid.
    destruct (Hagg _ Hx) as ([d n i c] & -> & Hc & Hi & Hd & Hn).
    cbn in *. subst i. unfold TedSetup.unique_id, breakdown_unique_id in Hid.
    cbn in Hid.
    apply (inj (String.append unique_id)) in Hid.
    unfold SENSORS in Hd. rewrite !elem_of_cons, elem_of_nil in Hd.
    destruct Hd as [->|[->|[->|[]]]], Hgroup as [->| ->]; cbn in Hid;
      rewrite ?append_String, ?append_Empty in Hid; discriminate Hid. }
  assert (Hsm : forall x y, x ∈ spyders -> y ∈ mtus ->
                            entity_unique_id x <> entity_unique_id y).
  { intros x y Hx Hy Hid.
    apply Hin_s in Hx as (p & fields & rn & d & _ & _ & _ & ->).
    apply Hin_m in Hy as (p' & fields' & rn' & d' & _ & _ & _ & ->).
    cbn in Hid. unfold breakdown_unique_id in Hid. cbn in Hid.
    apply (inj (String.append unique_id)) in Hid.
    rewrite ?append_String, ?append_Empty in Hid. discriminate Hid. }
  assert (Has : forall x y, x ∈ aggregate -> y ∈ spyders ->
                            entity_unique_id x <> entity_unique_id y).
  { intros x y Hx Hy. apply (Hab "spyders"); [done|by left|].
    apply Hin_s in Hy as (p & fields & rn & d & _ & _ & _ & ->). by eexists _, _, _. }
  assert (Ham : forall x y, x ∈ aggregate -> y ∈ mtus ->
                            entity_unique_id x <> entity_unique_id y).
  { intros x y Hx Hy. apply (Hab "mtus"); [done|by right|].
    apply Hin_m in Hy as (p & fields & rn & d & _ & _ & _ & ->). by eexists _, _, _. }
  apply NoDup_fmap_2_strong.
  - intros x y Hx Hy Hid. rewrite !elem_of_app in Hx, Hy.
    destruct Hx as [Hx|[Hx|Hx]], Hy as [Hy|[Hy|Hy]]; auto;
      exfalso; first [ by eapply Has | by eapply Ham | by eapply Hsm
                     | by (symmetry in Hid; eapply Has)
                     | by (symmetry in Hid; eapply Ham)
                     | by (symmetry in Hid; eapply Hsm) ].
  - apply NoDup_app. split; [done|]. split.
    + intros x Hx [Hy|Hy]%elem_of_app.
      * by eapply Has.
      * by eapply Ham.
    + apply NoDup_app. split; [done|]. split; [|done].
      intros x Hx Hy. by eapply Hsm.
Qed.

(** X21 -- A spyder stored under a key with an underscore can make two
    sensors share a unique id: with spyders under [p] and under
    [p ++ "_mtd"], the month to date sensor of the first and the current
    consumption sensor of the second are different entities with the
    same unique id. *)
Theorem spyder_ids_clash coordinator_data name unique_id entities data spyders p :
  async_setup_entry str coordinator_data name unique_id = Ok entities ->
  coordinator_data = PDict data ->
  data !! "spyders" = Some (PDict spyders) ->
  is_Some (spyders !! p) ->
  is_Some (spyders !! (p ++ "_mtd")%string) ->
  exists x y,
    x ∈ entities /\ y ∈ entities /\ x <> y /\
    entity_key x = "mtd_consumption" /\ entity_key y = "consumption" /\
    entity_unique_id x = entity_unique_id y.
Proof.
  intros Hsetup -> Hsp [r Hp] [r' Hp'].
  apply async_setup_entry_inv in Hsetup
    as (aggregate & sps & mtus & _ & Hs & _ & ->).
  apply breakdown_entities_inv in Hs as (data1 & sp & [= <-] & Hsp' & Hnamed & _ & Hin).
  rewrite Hsp in Hsp'. injection Hsp' as <-.
  destruct (Hnamed _ _ Hp) as (fields & -> & [n Hn]).
  destruct (Hnamed _ _ Hp') as (fields' & -> & [n' Hn']).
  assert (exists d, d ∈ SPYDER_SENSORS /\ key d = "mtd_consumption")
    as (month & Hmonth & Hkm).
  { eexists. split; [apply list_elem_of_further, list_elem_of_here|done]. }
  assert (exists d, d ∈ SPYDER_SENSORS /\ key d = "consumption")
    as (current & Hcurrent & Hkc).
  { eexists. split; [apply list_elem_of_here|done]. }
  exists (ATedBreakdownSensor
            {| sensor :=
                 {| entity_description := month;
                    _name := str n ++ " " ++ TedSetup.name month;
                    _device_id := unique_id;
                    TedSetup.data := PDict data |};
               TedSetup._group := "spyders";
               TedSetup._position := p |}),
         (ATedBreakdownSensor
            {| sensor :=
                 {| entity_description := current;
                    _name := str n' ++ " " ++ TedSetup.name current;
                    _device_id := unique_id;
                    TedSetup.data := PDict data |};
               TedSetup._group := "spyders";
               TedSetup._position := (p ++ "_mtd")%string |}).
  split; [|split; [|split; [|split; [|split]]]].
  - rewrite !elem_of_app. right; left. apply Hin.
    by exists p, fields, n, month.
  - rewrite !elem_of_app. right; left. apply Hin.
    by exists (p ++ "_mtd")%string, fields', n', current.
  - intros [= Hd _ _]. rewrite Hd in Hkm. congruence.
  - done.
  - done.
  - cbn. unfold breakdown_unique_id. cbn. rewrite Hkm, Hkc.
    do 4 f_equal. clear.
    induction p as [|c p IH]; [done|].
    rewrite !append_String. by f_equal.
Qed.

End Setup.

(** *** On sample coordinator data *)

Lemma payload_6000 : payload (PDict (Site.ted_payload 0)).
Proof.
  exists (Site.ted_payload 0), (PNum 0),
    (PDict {[ "1" := PDict Sample.kitchen ]}), (PDict {[ "1" := PDict Site.panel ]}).
  split; [reflexivity|]. split; [reflexivity|]. split; [reflexivity|].
  split; [|split; [reflexivity|]].
  - exists {[ "1" := PDict Sample.kitchen ]}. split; [reflexivity|].
    intros position reading [<- <-]%lookup_singleton_Some.
    exists Sample.kitchen. split; [reflexivity|]. by eexists.
  - exists {[ "1" := PDict Site.panel ]}. split; [reflexivity|].
    intros position reading [<- <-]%lookup_singleton_Some.
    exists Site.panel. split; [reflexivity|]. by eexists.
Qed.

Lemma made_6000 :
  async_setup_entry Site.sample_str (PDict (Site.ted_payload 0)) "TED" "ted6000"
  = Ok (Site.made (Site.ted_payload 0)).
Proof. vm_compute. reflexivity. Qed.


Lemma made_underscored :
  async_setup_entry Site.sample_str (PDict Site.ted_underscored) "TED" "ted6000"
  = Ok (Site.made Site.ted_underscored).
Proof. vm_compute. reflexivity. Qed.

Lemma breakdown_state_returns_iff_witness :
  breakdown_state (ted_breakdown (Site.kitchen_consumption 0)) = Ok (PNum 200).
Proof.
  apply (proj1 (breakdown_state_returns_iff
                  (ted_breakdown (Site.kitchen_consumption 0)) (PNum 200))).
  exists (Site.ted_payload 0), {[ "1" := PDict Sample.kitchen ]}, Sample.kitchen.
  repeat split; reflexivity.
Defined.

Lemma setup_returns_iff_payload_witness :
  exists entities,
    async_setup_entry Site.sample_str (PDict (Site.ted_payload 0)) "TED" "ted6000"
    = Ok entities.
Proof.
  apply (proj2 (setup_returns_iff_payload Site.sample_str
                  (PDict (Site.ted_payload 0)) "TED" "ted6000")).
  exact payload_6000.
Defined.

Lemma setup_entity_count_witness :
  exists data is_5000 spyders mtus,
    PDict (Site.ted_payload 0) = PDict data /\
    data !! "is_5000" = Some is_5000 /\
    data !! "spyders" = Some (PDict spyders) /\
    data !! "mtus" = Some (PDict mtus) /\
    length (Site.made (Site.ted_payload 0))
      = (if truth is_5000 then 1 else 3) + 2 * size spyders + 2 * size mtus.
Proof.
  apply (setup_entity_count Site.sample_str
           (PDict (Site.ted_payload 0)) "TED" "ted6000").
  exact made_6000.
Defined.

Lemma setup_entities_have_state_witness :
  exists v,
    entity_state (ATedBreakdownSensor (Site.kitchen_consumption 0)) = Ok v.
Proof.
  apply (setup_entities_have_state Site.sample_str
           (PDict (Site.ted_payload 0)) "TED" "ted6000"
           (Site.made (Site.ted_payload 0))).
  - exact made_6000.
  - apply (list_elem_of_lookup_2 _ 3). vm_compute. reflexivity.
Defined.


Lemma setup_unique_ids_distinct_witness :
  NoDup (entity_unique_id <$> Site.made (Site.ted_payload 0)).
Proof.
  apply (setup_unique_ids_distinct Site.sample_str
           (PDict (Site.ted_payload 0)) "TED" "ted6000").
  - exact made_6000.
  - intros data spyders position [= <-] Hspyders [reading Hposition].
    assert (Hstored : Site.ted_payload 0 !! "spyders"
                      = Some (PDict {[ "1" := PDict Sample.kitchen ]}))
      by reflexivity.
    rewrite Hstored in Hspyders. injection Hspyders as <-.
    apply lookup_singleton_Some in Hposition as [<- _]. reflexivity.
Defined.

Lemma spyder_ids_clash_witness :
  exists x y,
    x ∈ Site.made Site.ted_underscored /\ y ∈ Site.made Site.ted_underscored /\
    x <> y /\
    entity_key x = "mtd_consumption" /\ entity_key y = "consumption" /\
    entity_unique_id x = entity_unique_id y.
Proof.
  apply (spyder_ids_clash Site.sample_str (PDict Site.ted_underscored)
           "TED" "ted6000" (Site.made Site.ted_underscored) Site.ted_underscored
           {[ "1" := PDict Sample.kitchen; "1_mtd" := PDict Sample.kitchen ]} "1").
  - exact made_underscored.
  - reflexivity.
  - reflexivity.
  - by eexists.
  - by eexists.
Defined.

End TedMore.
